(** * sales365-backend, app [ventas]: checkout, confirmation and staff status updates

    A shallow embedding of [src/apps/ventas/views.py]:

    - [PyDecimal]: the part of Python's [decimal] module the views use,
      under the default context (28 significant digits, ROUND_HALF_EVEN);
    - [calcular_costo_envio]: the tiered shipping cost;
    - the ORM tables the views read and write, as one record [DB], and a
      state-and-exception monad [M] with [atomic] for
      [transaction.atomic()];
    - [verificar_sesion_checkout]: confirmation of a Stripe session and
      materialization of the sale;
    - [partial_update] of [VentaAdminViewSet];
    - [crear_sesion_checkout]: the quote and the request it sends to
      Stripe;
    - [get_queryset] of [VentaViewSet]: the orders a customer sees. *)

From Stdlib Require Import ZArith Lia Bool.
From stdpp Require Import base option list gmap strings.

Local Open Scope Z_scope.

(** ** Python's [decimal.Decimal] under the default context *)

Module PyDecimal.

(** A finite decimal: value [coef * 10 ^ expo].  The sign lives in the
    coefficient, so the negative zero is not told apart from zero (the
    views never look at it); NaN and the infinities cannot arise from the
    finite operands of the views and are not represented.  The exponent
    limits [Emax]/[Emin] of the context (999999) are not modelled. *)
Record Decimal : Type := Dec { coef : Z; expo : Z }.

(** [Decimal(n)] for a Python int [n]. *)
Definition of_int (n : Z) : Decimal := Dec n 0.

(** [getcontext().prec] *)
Definition prec : Z := 28.

(** The coefficient of [d] written at the exponent [m <= expo d]. *)
Definition align (d : Decimal) (m : Z) : Z := coef d * 10 ^ (expo d - m).

(** Comparison is by numeric value, as [Decimal.__eq__] and [__lt__] do
    (an int operand is first converted with [of_int]). *)
Definition cmp (a b : Decimal) : comparison :=
  let m := Z.min (expo a) (expo b) in align a m ?= align b m.

Definition eqb (a b : Decimal) : bool :=
  match cmp a b with Eq => true | _ => false end.
Definition ltb (a b : Decimal) : bool :=
  match cmp a b with Lt => true | _ => false end.
Definition leb (a b : Decimal) : bool :=
  match cmp a b with Gt => false | _ => true end.

(** [len(self._int)]: the number of decimal digits of the coefficient
    (1 for zero). *)
Fixpoint ndigits_aux (fuel : nat) (n : Z) : Z :=
  match fuel with
  | O => 1
  | S f => if n <? 10 then 1 else 1 + ndigits_aux f (n / 10)
  end.

Definition ndigits (c : Z) : Z :=
  ndigits_aux (Z.to_nat (Z.log2 (Z.abs c))) (Z.abs c).

(** [n / d] rounded to the nearest integer, ties to the even one
    (ROUND_HALF_EVEN), for [0 <= n] and [0 < d]. *)
Definition round_half_even (n d : Z) : Z :=
  let q := n / d in
  match 2 * (n mod d) ?= d with
  | Lt => q
  | Gt => q + 1
  | Eq => if Z.even q then q else q + 1
  end.

(** The same on a signed coefficient: the magnitude is rounded, the sign
    kept. *)
Definition div_half_even (c d : Z) : Z :=
  Z.sgn c * round_half_even (Z.abs c) d.

(** [Decimal._fix]: round to the precision of the context when the
    coefficient has more than [prec] digits. *)
Definition fix_ (d : Decimal) : Decimal :=
  if ndigits (coef d) <=? prec then d
  else
    let drop := ndigits (coef d) - prec in
    let c := div_half_even (coef d) (10 ^ drop) in
    if ndigits c <=? prec then Dec c (expo d + drop)
    else Dec (c / 10) (expo d + drop + 1).

(** The exact product and sum, before the context rounds them. *)
Definition mul_exact (a b : Decimal) : Decimal :=
  Dec (coef a * coef b) (expo a + expo b).

Definition add_exact (a b : Decimal) : Decimal :=
  let m := Z.min (expo a) (expo b) in Dec (align a m + align b m) m.

(** [a * b] and [a + b] *)
Definition mul (a b : Decimal) : Decimal := fix_ (mul_exact a b).
Definition add (a b : Decimal) : Decimal := fix_ (add_exact a b).

(** [Decimal._rescale(e, ROUND_HALF_EVEN)] *)
Definition rescale (d : Decimal) (e : Z) : Decimal :=
  if coef d =? 0 then Dec 0 e
  else if e <=? expo d then Dec (coef d * 10 ^ (expo d - e)) e
  else Dec (div_half_even (coef d) (10 ^ (e - expo d))) e.

(** [d.quantize(q)]: [None] is the exception [InvalidOperation], raised
    when the result would need more than [prec] digits. *)
Definition quantize (d q : Decimal) : option Decimal :=
  let e := expo q in
  if coef d =? 0 then Some (fix_ (Dec 0 e))
  else if prec <? (expo d + ndigits (coef d) - 1) - e + 1 then None
  else
    let ans := rescale d e in
    if prec <? ndigits (coef ans) then None else Some (fix_ ans).

(** The loop of [__truediv__] that brings an exact quotient as close to
    the ideal exponent as its trailing zeros allow. *)
Fixpoint strip_zeros (fuel : nat) (coeff exp ideal : Z) : Z * Z :=
  match fuel with
  | O => (coeff, exp)
  | S f =>
      if (exp <? ideal) && (coeff mod 10 =? 0)
      then strip_zeros f (coeff / 10) (exp + 1) ideal
      else (coeff, exp)
  end.

(** [a / b] ([Decimal.__truediv__]); [None] is [DivisionByZero] (or
    [DivisionUndefined] for 0/0). *)
Definition div (a b : Decimal) : option Decimal :=
  if coef b =? 0 then None
  else if coef a =? 0 then Some (fix_ (Dec 0 (expo a - expo b)))
  else
    let sign := Z.sgn (coef a) * Z.sgn (coef b) in
    let ideal := expo a - expo b in
    let shift := ndigits (coef b) - ndigits (coef a) + prec + 1 in
    let exp := ideal - shift in
    let '(coeff, rem) :=
      if 0 <=? shift
      then Z.div_eucl (Z.abs (coef a) * 10 ^ shift) (Z.abs (coef b))
      else Z.div_eucl (Z.abs (coef a)) (Z.abs (coef b) * 10 ^ (- shift)) in
    let '(coeff, exp) :=
      if rem =? 0 then strip_zeros (Z.to_nat (ideal - exp)) coeff exp ideal
      else (if coeff mod 5 =? 0 then coeff + 1 else coeff, exp) in
    Some (fix_ (Dec (sign * coeff) exp)).

(** [q] is the quotient [n / d] rounded to the nearest integer, a tie
    going to the even neighbour. *)
Definition nearest_even (n d q : Z) : Prop :=
  2 * Z.abs (n - q * d) <= d /\ (2 * Z.abs (n - q * d) = d -> Z.even q = true).

End PyDecimal.

Import PyDecimal.

(** ** The shipping cost *)

(** The [if]/[elif] chain of [calcular_costo_envio]: the percentage for a
    subtotal. *)
Definition porcentaje_envio (subtotal : Decimal) : Z :=
  if eqb subtotal (of_int 0) then 0
  else if ltb subtotal (of_int 100) then 15
  else if ltb subtotal (of_int 500) then 10
  else if ltb subtotal (of_int 1000) then 5
  else 0.

(** [calcular_costo_envio(subtotal)]:
    [subtotal * (Decimal(str(porcentaje_envio)) / Decimal('100.0'))]
    quantized to [Decimal('0.01')].  [None] stands for an exception of
    the decimal module. *)
Definition calcular_costo_envio (subtotal : Decimal) : option Decimal :=
  tasa ← div (of_int (porcentaje_envio subtotal)) (Dec 1000 (-1));
  quantize (mul subtotal tasa) (Dec 1 (-2)).

(** [S * p / 100], counted in hundredths, is the fraction
    [cents_num S p / cents_den S]. *)
Definition cents_num (S : Decimal) (p : Z) : Z :=
  coef S * p * 10 ^ Z.max (expo S) 0.
Definition cents_den (S : Decimal) : Z := 10 ^ Z.max (- expo S) 0.

(** What the specification says of the cost: the tier table of its
    section 4.1 (it has no tier below zero), and the product rounded
    half-up to two places.  These follow the specification's words and
    are compared with the code below. *)
Definition tasa_spec (S : Decimal) : option Z :=
  if eqb S (of_int 0) then Some 0
  else if ltb (of_int 0) S && ltb S (of_int 100) then Some 15
  else if leb (of_int 100) S && ltb S (of_int 500) then Some 10
  else if leb (of_int 500) S && ltb S (of_int 1000) then Some 5
  else if leb (of_int 1000) S then Some 0
  else None.

Definition round_half_up (n d : Z) : Z := (2 * n + d) / (2 * d).

Definition costo_envio_spec (S : Decimal) : option Decimal :=
  p ← tasa_spec S;
  Some (Dec (round_half_up (cents_num S p) (cents_den S)) (-2)).

(** ** Python values *)

(** A value decoded by [json.loads], or found in [request.data].  A JSON
    object keeps its pairs in document order; numbers are the integers
    (a float quantity or key is outside the model). *)
#[warnings="-register-all"]
Inductive json : Type :=
  | JNull
  | JBool (b : bool)
  | JInt (n : Z)
  | JStr (s : string)
  | JList (l : list json)
  | JDict (kv : list (string * json)).

(** The exceptions the views can meet. *)
Inductive Exn : Type :=
  | DoesNotExist (modelo : string)
  | MultipleObjectsReturned (modelo : string)
  | RelatedObjectDoesNotExist (modelo : string)
  | ValueError
  | TypeError
  | AttributeError
  | InvalidOperation
  | DivisionByZero
  | StockInsuficiente (nombre : string)
  | DiscrepanciaTotal (cobrado calculado : Decimal)
  | StripeError (mensaje : string).

(** Truth value of a Python object, as [if not x] and [all([...])] take
    it. *)
Definition truthy (v : json) : bool :=
  match v with
  | JNull => false
  | JBool b => b
  | JInt n => negb (n =? 0)
  | JStr s => negb (String.eqb s "")
  | JList l => match l with [] => false | _ => true end
  | JDict kv => match kv with [] => false | _ => true end
  end.

(** [d.get(k)] on the pairs of a dict: the last binding of [k] is the one
    a Python dict keeps; an absent key gives [None], here [JNull]. *)
Fixpoint dict_lookup (kv : list (string * json)) (k : string) : option json :=
  match kv with
  | [] => None
  | (k', v) :: rest =>
      match dict_lookup rest k with
      | Some found => Some found
      | None => if String.eqb k' k then Some v else None
      end
  end.

Definition dict_get (kv : list (string * json)) (k : string) : json :=
  default JNull (dict_lookup kv k).

(** [item.get(k)]: only a dict has the method. *)
Definition item_get (item : json) (k : string) : Exn + json :=
  match item with
  | JDict kv => inr (dict_get kv k)
  | _ => inl AttributeError
  end.

Fixpoint chars (s : string) : list json :=
  match s with
  | EmptyString => []
  | String a rest => JStr (String a EmptyString) :: chars rest
  end.

(** [for item in v]: a list yields its elements, a dict its keys, a str
    its characters; nothing else is iterable. *)
Definition py_iter (v : json) : Exn + list json :=
  match v with
  | JList l => inr l
  | JDict kv => inr (map (fun p => JStr (fst p)) kv)
  | JStr s => inr (chars s)
  | _ => inl TypeError
  end.

(** ** The database *)

(** The rows of the models the views touch, with the columns the views
    read or write.  A row does not carry its primary key: the tables map
    the key to the row. *)
Record Producto : Type := mkProducto {
  prod_nombre : string;
  prod_precio : Decimal;
  prod_stock : Z }.

(** The balance is kept as the [Decimal] the view saves; how the column
    stores it is declared in the models of [apps.users]. *)
Record Cliente : Type := mkCliente {
  puntos_acumulados : Decimal }.

Record Tienda : Type := mkTienda {
  tienda_nombre : string }.

Record TiendaCliente : Type := mkTiendaCliente {
  tc_tienda : Z;
  tc_cliente : Z }.

Record Carrito : Type := mkCarrito {
  car_cliente : Z;
  car_tienda : Z;
  car_total : Decimal }.

Record Detalle_Carrito : Type := mkDetalle_Carrito {
  dc_carrito : Z;
  dc_producto : Z;
  dc_cantidad : Z;
  dc_precio_unitario : Decimal }.

Record Venta : Type := mkVenta {
  venta_total : Decimal;
  venta_estado : string;
  venta_tienda : Z;
  venta_cliente : Z;
  venta_carrito : Z }.

Record Detalle_Venta : Type := mkDetalle_Venta {
  dv_venta : Z;
  dv_producto : Z;
  dv_cantidad : Z;
  dv_precio_historico : Decimal }.

Record Pago : Type := mkPago {
  pago_venta : Z;
  pago_tienda : Z;
  stripe_payment_intent_id : string;
  monto_total : Decimal;
  pago_estado : string }.

Record Envio : Type := mkEnvio {
  envio_venta : Z;
  envio_tienda : Z;
  direccion_entrega : string;
  envio_estado : string }.

(** What [log_action] is called with. *)
Inductive Accion : Type :=
  | CompraProcesada (venta : Z) (total : Decimal) (tienda : string)
  | ActualizoVenta (venta : Z) (estado : string)
  | ActualizoPago (pago venta : Z) (estado : string)
  | ActualizoEnvio (envio venta : Z) (estado : string).

Record Bitacora : Type := mkBitacora {
  log_usuario : Z;
  log_accion : Accion }.

(** The tables.  A table with a primary key is a map from the key to the
    row; [TiendaCliente] rows and the detail rows are kept as lists, so
    that duplicates would show. *)
Record DB : Type := mkDB {
  productos : gmap Z Producto;
  clientes : gmap Z Cliente;
  tiendas : gmap Z Tienda;
  tienda_clientes : list TiendaCliente;
  carritos : gmap Z Carrito;
  detalles_carrito : list Detalle_Carrito;
  ventas : gmap Z Venta;
  detalles_venta : list Detalle_Venta;
  pagos : gmap Z Pago;
  envios : gmap Z Envio;
  bitacora : list Bitacora }.

Definition set_productos (f : gmap Z Producto -> gmap Z Producto) (db : DB) : DB :=
  mkDB (f (productos db)) (clientes db) (tiendas db) (tienda_clientes db)
    (carritos db) (detalles_carrito db) (ventas db) (detalles_venta db)
    (pagos db) (envios db) (bitacora db).
Definition set_clientes (f : gmap Z Cliente -> gmap Z Cliente) (db : DB) : DB :=
  mkDB (productos db) (f (clientes db)) (tiendas db) (tienda_clientes db)
    (carritos db) (detalles_carrito db) (ventas db) (detalles_venta db)
    (pagos db) (envios db) (bitacora db).
Definition set_tienda_clientes (f : list TiendaCliente -> list TiendaCliente) (db : DB) : DB :=
  mkDB (productos db) (clientes db) (tiendas db) (f (tienda_clientes db))
    (carritos db) (detalles_carrito db) (ventas db) (detalles_venta db)
    (pagos db) (envios db) (bitacora db).
Definition set_carritos (f : gmap Z Carrito -> gmap Z Carrito) (db : DB) : DB :=
  mkDB (productos db) (clientes db) (tiendas db) (tienda_clientes db)
    (f (carritos db)) (detalles_carrito db) (ventas db) (detalles_venta db)
    (pagos db) (envios db) (bitacora db).
Definition set_detalles_carrito (f : list Detalle_Carrito -> list Detalle_Carrito) (db : DB) : DB :=
  mkDB (productos db) (clientes db) (tiendas db) (tienda_clientes db)
    (carritos db) (f (detalles_carrito db)) (ventas db) (detalles_venta db)
    (pagos db) (envios db) (bitacora db).
Definition set_ventas (f : gmap Z Venta -> gmap Z Venta) (db : DB) : DB :=
  mkDB (productos db) (clientes db) (tiendas db) (tienda_clientes db)
    (carritos db) (detalles_carrito db) (f (ventas db)) (detalles_venta db)
    (pagos db) (envios db) (bitacora db).
Definition set_detalles_venta (f : list Detalle_Venta -> list Detalle_Venta) (db : DB) : DB :=
  mkDB (productos db) (clientes db) (tiendas db) (tienda_clientes db)
    (carritos db) (detalles_carrito db) (ventas db) (f (detalles_venta db))
    (pagos db) (envios db) (bitacora db).
Definition set_pagos (f : gmap Z Pago -> gmap Z Pago) (db : DB) : DB :=
  mkDB (productos db) (clientes db) (tiendas db) (tienda_clientes db)
    (carritos db) (detalles_carrito db) (ventas db) (detalles_venta db)
    (f (pagos db)) (envios db) (bitacora db).
Definition set_envios (f : gmap Z Envio -> gmap Z Envio) (db : DB) : DB :=
  mkDB (productos db) (clientes db) (tiendas db) (tienda_clientes db)
    (carritos db) (detalles_carrito db) (ventas db) (detalles_venta db)
    (pagos db) (f (envios db)) (bitacora db).
Definition set_bitacora (f : list Bitacora -> list Bitacora) (db : DB) : DB :=
  mkDB (productos db) (clientes db) (tiendas db) (tienda_clientes db)
    (carritos db) (detalles_carrito db) (ventas db) (detalles_venta db)
    (pagos db) (envios db) (f (bitacora db)).

(** ** Computations on the database *)

(** A computation reads and writes the database and either returns a
    value or leaves early with an [E]: a raised exception ([E := Exn]) or
    a response returned from the middle of a view. *)
Definition M (E A : Type) : Type := DB -> (E + A) * DB.

#[global] Instance M_ret {E} : MRet (M E) := fun A a db => (inr a, db).
#[global] Instance M_bind {E} : MBind (M E) := fun A B f m db =>
  match m db with
  | (inl e, db') => (inl e, db')
  | (inr a, db') => f a db'
  end.

Definition raise {E A} (e : E) : M E A := fun db => (inl e, db).
Definition leer {E} : M E DB := fun db => (inr db, db).
Definition escribir {E} (f : DB -> DB) : M E unit := fun db => (inr tt, f db).

(** A pure step that may raise. *)
Definition lift {E A} (r : E + A) : M E A :=
  match r with inl e => raise e | inr a => mret a end.

(** A step of the decimal module, with the exception it raises. *)
Definition lift_dec {A} (e : Exn) (r : option A) : M Exn A :=
  match r with None => raise e | Some a => mret a end.

(** [with transaction.atomic(): body]: when an exception leaves the
    block, every write of the block is undone and the exception goes on;
    otherwise the writes are committed. *)
Definition atomic {A} (body : M Exn A) : M Exn A := fun db =>
  match body db with
  | (inl e, _) => (inl e, db)
  | (inr a, db') => (inr a, db')
  end.

(** The key of a new row: one more than the largest key of the table. *)
Definition next_pk {A} (tabla : gmap Z A) : Z :=
  1 + foldr Z.max 0 (elements (dom tabla)).

(** The row with the least key among those that satisfy [P]:
    [queryset.filter(P).first()], whose order is by primary key. *)
Definition menor {A} (x : Z * A) (acc : option (Z * A)) : option (Z * A) :=
  match acc with
  | None => Some x
  | Some y => if fst x <? fst y then Some x else Some y
  end.

Definition primero {A} (P : A -> bool) (tabla : gmap Z A) : option (Z * A) :=
  foldr menor None (filter (fun kv => P (snd kv) = true) (map_to_list tabla)).

(** ** What the views take from outside *)

(** The checkout session as [stripe.checkout.Session.retrieve] returns
    it: only the fields the view reads.  Stripe keeps metadata values as
    strings; an absent key reads as [None]. *)
Record Session : Type := mkSession {
  ses_status : string;
  ses_metadata : gmap string string;
  ses_payment_intent : option string;
  ses_amount_total : option Z }.

(** The collaborators of the views that are not part of this module:
    the Stripe client, [json.loads] ([None] is [JSONDecodeError]), the
    conversion of a str to an int that [int(...)] and the ORM's integer
    fields perform ([None] is [ValueError]), the [choices] of the three
    status fields, declared in the models, and the setting
    [ATOMIC_REQUESTS] of the database, by which Django runs every view
    inside a transaction that it rolls back when an exception leaves the
    view (the settings are not among the sources; Django's default is
    [False]). *)
Record Entorno : Type := mkEntorno {
  stripe_retrieve : json -> Exn + Session;
  json_loads : string -> option json;
  int_of_str : string -> option Z;
  ESTADOS_VENTA : list (string * string);
  ESTADOS_PAGO : list (string * string);
  ESTADOS_ENVIO : list (string * string);
  ATOMIC_REQUESTS : bool }.

(** The body of a JSON response. *)
Inductive Cuerpo : Type :=
  | ErrNoSessionId
  | ErrSesionNoCompletada
  | ErrMetadataIncompleta
  | ErrProcesarPedido (e : Exn)
  | ErrStripe (e : Exn)
  | ErrGeneral (e : Exn)
  | Vacio
  | PedidoCreado
  | NoEncontrado
  | ErrEstadoVenta (valor : json)
  | ErrSinPago
  | ErrEstadoPago (valor : json)
  | ErrSinEnvio
  | ErrEstadoEnvio (valor : json)
  | VentaSerializada (id : Z) (venta : Venta).

Record Response : Type := mkResponse {
  status : Z;
  cuerpo : Cuerpo }.

(** A request: the authenticated user, the JSON body, and for the detail
    routes of the staff view set the store of the user and the key in the
    URL. *)
Record Request : Type := mkRequest {
  req_usuario : Z;
  req_data : list (string * json);
  req_tienda : Z;
  req_pk : Z }.

Section Vistas.

Variable env : Entorno.

(** [int(v)] *)
Definition py_int (v : json) : Exn + Z :=
  match v with
  | JInt n => inr n
  | JBool b => inr (if b then 1 else 0)
  | JStr s => match int_of_str env s with Some n => inr n | None => inl ValueError end
  | _ => inl TypeError
  end.

(** The value of a lookup [pk=v] as the integer key field prepares it;
    [None] for Python's [None], which matches no row. *)
Definition pk_de (v : json) : Exn + option Z :=
  match v with
  | JNull => inr None
  | JInt n => inr (Some n)
  | JBool b => inr (Some (if b then 1 else 0))
  | JStr s => match int_of_str env s with Some n => inr (Some n) | None => inl ValueError end
  | _ => inl TypeError
  end.

(** *** The ORM calls of the views *)

(** [Cliente.objects.get(user_id=user_id)] *)
Definition cliente_get (user_id : string) : M Exn (Z * Cliente) :=
  pk ← lift (pk_de (JStr user_id));
  db ← leer;
  match pk ≫= fun k => (fun c => (k, c)) <$> clientes db !! k with
  | Some fila => mret fila
  | None => raise (DoesNotExist "Cliente")
  end.

(** [Tienda.objects.get(pk=tienda_id)] *)
Definition tienda_get (tienda_id : string) : M Exn (Z * Tienda) :=
  pk ← lift (pk_de (JStr tienda_id));
  db ← leer;
  match pk ≫= fun k => (fun t => (k, t)) <$> tiendas db !! k with
  | Some fila => mret fila
  | None => raise (DoesNotExist "Tienda")
  end.

Definition es_asociacion (tienda cliente : Z) (tc : TiendaCliente) : bool :=
  (tc_tienda tc =? tienda) && (tc_cliente tc =? cliente).

(** [TiendaCliente.objects.get_or_create(tienda=tienda, cliente_id=user_id)]:
    the row when there is exactly one, a new row when there is none;
    [get] raises when it finds several. *)
Definition tienda_cliente_get_or_create (tienda : Z) (user_id : string)
  : M Exn (TiendaCliente * bool) :=
  pk ← lift (pk_de (JStr user_id));
  match pk with
  | None => raise (DoesNotExist "Cliente")
  | Some cliente =>
      db ← leer;
      match List.filter (es_asociacion tienda cliente) (tienda_clientes db) with
      | [] =>
          let nueva := mkTiendaCliente tienda cliente in
          _ ← escribir (set_tienda_clientes (fun l => l ++ [nueva]));
          mret (nueva, true)
      | [tc] => mret (tc, false)
      | _ => raise (MultipleObjectsReturned "TiendaCliente")
      end
  end.

(** [Carrito.objects.create(...)] and the other [create] calls: a new
    row under a new key. *)
Definition carrito_create (c : Carrito) : M Exn Z :=
  db ← leer;
  let k := next_pk (carritos db) in
  _ ← escribir (set_carritos (insert k c));
  mret k.

Definition venta_create (v : Venta) : M Exn Z :=
  db ← leer;
  let k := next_pk (ventas db) in
  _ ← escribir (set_ventas (insert k v));
  mret k.

Definition pago_create (p : Pago) : M Exn Z :=
  db ← leer;
  let k := next_pk (pagos db) in
  _ ← escribir (set_pagos (insert k p));
  mret k.

Definition envio_create (e : Envio) : M Exn Z :=
  db ← leer;
  let k := next_pk (envios db) in
  _ ← escribir (set_envios (insert k e));
  mret k.

(** [Producto.objects.select_for_update().get(pk=v)]: a fresh copy of the
    row as the database has it now. *)
Definition producto_get (v : json) : M Exn (Z * Producto) :=
  pk ← lift (pk_de v);
  db ← leer;
  match pk ≫= fun k => (fun p => (k, p)) <$> productos db !! k with
  | Some fila => mret fila
  | None => raise (DoesNotExist "Producto")
  end.

Definition con_stock (stock : Z) (p : Producto) : Producto :=
  mkProducto (prod_nombre p) (prod_precio p) stock.

(** [Producto.objects.bulk_update(objs, ['stock'])]: one UPDATE whose
    CASE takes, for a key that occurs several times in [objs], the first
    object (as the documentation of [bulk_update] states); only the
    column [stock] is written, and only of rows that exist. *)
Definition producto_bulk_update_stock (objs : list (Z * Producto))
  : gmap Z Producto -> gmap Z Producto :=
  fun tabla =>
    foldr (fun obj t => alter (con_stock (prod_stock (snd obj))) (fst obj) t)
      tabla objs.

(** [cliente.save(update_fields=['puntos_acumulados'])] *)
Definition cliente_save_puntos (k : Z) (c : Cliente) : M Exn unit :=
  escribir (set_clientes (alter (fun _ => mkCliente (puntos_acumulados c)) k)).

(** Modelled from the spec: [log_action] of [apps.auditoria.utils] is not
    among the sources; section 6 of the specification has the audit sink
    record the actor and the action, and expects no failure of it. *)
Definition log_action {E} (usuario : Z) (accion : Accion) : M E unit :=
  escribir (set_bitacora (fun l => l ++ [mkBitacora usuario accion])).

(** *** [PagoViewSet.verificar_sesion_checkout] *)

(** The loop over [items_data] (lines 248-268): the accumulators are
    [subtotal_seguro], [detalles_carrito_a_crear] and
    [productos_para_actualizar_stock]. *)
Fixpoint procesar_items (nuevo_carrito : Z) (items : list json)
    (acc : Decimal * list Detalle_Carrito * list (Z * Producto))
  : M Exn (Decimal * list Detalle_Carrito * list (Z * Producto)) :=
  match items with
  | [] => mret acc
  | item :: resto =>
      let '(subtotal_seguro, detalles, para_stock) := acc in
      producto_id ← lift (item_get item "producto_id");
      '(pid, producto) ← producto_get producto_id;
      cantidad_v ← lift (item_get item "cantidad");
      cantidad ← lift (py_int cantidad_v);
      if prod_stock producto <? cantidad
      then raise (StockInsuficiente (prod_nombre producto))
      else
        let precio_historico := prod_precio producto in
        let subtotal_seguro :=
          add subtotal_seguro (mul precio_historico (of_int cantidad)) in
        let detalle := mkDetalle_Carrito nuevo_carrito pid cantidad precio_historico in
        let producto := con_stock (prod_stock producto - cantidad) producto in
        procesar_items nuevo_carrito resto
          (subtotal_seguro, detalles ++ [detalle], para_stock ++ [(pid, producto)])
  end.

(** What the view has taken from the session before it opens the
    transaction. *)
Record Pedido : Type := mkPedido {
  ped_user_id : string;
  ped_tienda_id : string;
  ped_direccion_entrega : string;
  ped_items_data : json;
  ped_stripe_payment_id : string;
  ped_total_pagado : Decimal }.

(** The values the first half of the transaction hands to the second. *)
Record Recalculo : Type := mkRecalculo {
  rc_cliente : Z * Cliente;
  rc_tienda : Z * Tienda;
  rc_nuevo_carrito : Z;
  rc_detalles_carrito : list Detalle_Carrito;
  rc_para_stock : list (Z * Producto);
  rc_subtotal_seguro : Decimal;
  rc_total_final_seguro : Decimal }.

(** The block under [with transaction.atomic():], first half (lines
    223-271): customer, store and association, the new cart, the loop
    over the lines, and the total recomputed from the rows as they are
    now. *)
Definition recalcular (ped : Pedido) : M Exn Recalculo :=
  '(cliente_id, cliente) ← cliente_get (ped_user_id ped);
  '(tienda_id, tienda) ← tienda_get (ped_tienda_id ped);
  _ ← tienda_cliente_get_or_create tienda_id (ped_user_id ped);
  nuevo_carrito ← carrito_create
    (mkCarrito cliente_id tienda_id (ped_total_pagado ped));
  items ← lift (py_iter (ped_items_data ped));
  '(subtotal_seguro, detalles_carrito_a_crear, productos_para_actualizar_stock) ←
    procesar_items nuevo_carrito items (Dec 0 (-2), [], []);
  costo_envio_seguro ← lift_dec InvalidOperation (calcular_costo_envio subtotal_seguro);
  let total_final_seguro := add subtotal_seguro costo_envio_seguro in
  mret (mkRecalculo (cliente_id, cliente) (tienda_id, tienda) nuevo_carrito
          detalles_carrito_a_crear productos_para_actualizar_stock
          subtotal_seguro total_final_seguro).

(** Second half (lines 276-322): the sale, its payment and shipment, the
    detail rows, the stock, the points and the audit entry. *)
Definition persistir (ped : Pedido) (rc : Recalculo) : M Exn unit :=
  let total_pagado := ped_total_pagado ped in
  let '(cliente_id, cliente) := rc_cliente rc in
  let '(tienda_id, tienda) := rc_tienda rc in
  nueva_venta ← venta_create
    (mkVenta total_pagado "PROCESADA" tienda_id cliente_id (rc_nuevo_carrito rc));
  let detalles_venta_a_crear :=
    map (fun item => mkDetalle_Venta nueva_venta (dc_producto item)
                       (dc_cantidad item) (dc_precio_unitario item))
      (rc_detalles_carrito rc) in
  _ ← pago_create
    (mkPago nueva_venta tienda_id (ped_stripe_payment_id ped) total_pagado "COMPLETADO");
  _ ← envio_create
    (mkEnvio nueva_venta tienda_id (ped_direccion_entrega ped) "EN_PREPARACION");
  _ ← escribir (set_detalles_carrito (fun l => l ++ rc_detalles_carrito rc));
  _ ← escribir (set_detalles_venta (fun l => l ++ detalles_venta_a_crear));
  _ ← escribir (set_productos (producto_bulk_update_stock (rc_para_stock rc)));
  let puntos_ganados := mul total_pagado (Dec 5 (-4)) in
  let cliente := mkCliente (add (puntos_acumulados cliente) puntos_ganados) in
  _ ← cliente_save_puntos cliente_id cliente;
  log_action cliente_id (CompraProcesada nueva_venta total_pagado (tienda_nombre tienda)).

(** The whole block: between the two halves (lines 273-274), the
    recomputed total and the amount Stripe charged are compared at two
    decimal places. *)
Definition materializar (ped : Pedido) : M Exn unit :=
  rc ← recalcular ped;
  calculado ← lift_dec InvalidOperation
    (quantize (rc_total_final_seguro rc) (Dec 1 (-2)));
  cobrado ← lift_dec InvalidOperation
    (quantize (ped_total_pagado ped) (Dec 1 (-2)));
  if negb (eqb calculado cobrado)
  then raise (DiscrepanciaTotal (ped_total_pagado ped) (rc_total_final_seguro rc))
  else persistir ped rc.

(** [all([...])] over the five values read from the session: each must be
    present and not the empty string. *)
Definition presente (v : option string) : bool :=
  match v with
  | Some s => negb (String.eqb s "")
  | None => false
  end.

(** The view up to the transaction (lines 190-219), with the two outer
    [except] clauses (lines 330-333): either the response it returns
    early, or the order to materialize.  No step of it touches the
    database. *)
Definition preparar (req : Request) : Response + Pedido :=
  let session_id := dict_get (req_data req) "session_id" in
  if negb (truthy session_id) then inl (mkResponse 400 ErrNoSessionId)
  else
    match stripe_retrieve env session_id with
    | inl (StripeError m) => inl (mkResponse 500 (ErrStripe (StripeError m)))
    | inl e => inl (mkResponse 500 (ErrGeneral e))
    | inr session =>
        if negb (String.eqb (ses_status session) "complete")
        then inl (mkResponse 400 ErrSesionNoCompletada)
        else
          let metadata := ses_metadata session in
          let user_id := metadata !! "user_id" in
          let tienda_id := metadata !! "tienda_id" in
          let direccion_entrega := metadata !! "direccion_entrega" in
          let items_data_str := metadata !! "items_data" in
          let stripe_payment_id := ses_payment_intent session in
          match ses_amount_total session with
          | None => inl (mkResponse 500 (ErrGeneral TypeError))
          | Some total_pagado_centavos =>
              match div (of_int total_pagado_centavos) (of_int 100) with
              | None => inl (mkResponse 500 (ErrGeneral DivisionByZero))
              | Some total_pagado =>
                  match user_id, tienda_id, direccion_entrega, items_data_str,
                        stripe_payment_id with
                  | Some u, Some t, Some d, Some i, Some s =>
                      if presente user_id && presente tienda_id
                         && presente direccion_entrega && presente items_data_str
                         && presente stripe_payment_id
                      then
                        match json_loads env i with
                        | None => inl (mkResponse 400 Vacio)
                        | Some items_data =>
                            inr (mkPedido u t d items_data s total_pagado)
                        end
                      else inl (mkResponse 500 ErrMetadataIncompleta)
                  | _, _, _, _, _ => inl (mkResponse 500 ErrMetadataIncompleta)
                  end
              end
          end
    end.

(** [verificar_sesion_checkout(request)]: the response and the database
    it leaves. *)
Definition verificar_sesion_checkout (req : Request) (db : DB) : Response * DB :=
  match preparar req with
  | inl respuesta => (respuesta, db)
  | inr ped =>
      match atomic (materializar ped) db with
      | (inl e, db') => (mkResponse 500 (ErrProcesarPedido e), db')
      | (inr _, db') => (mkResponse 200 PedidoCreado, db')
      end
  end.

(** *** [VentaAdminViewSet.partial_update] *)

(** [valor in [s[0] for s in ESTADOS]]: only a str can be one of the
    codes. *)
Definition codigo_valido (valor : json) (estados : list (string * string))
  : option string :=
  match valor with
  | JStr s => if bool_decide (s ∈ map fst estados) then Some s else None
  | _ => None
  end.

(** A step of the staff view ends early either with the response the
    view returns ([inr]) or with an exception that nothing in the view
    catches ([inl]). *)
Definition devolver {A} (respuesta : Response) : M (Exn + Response) A :=
  raise (inr respuesta).
Definition lanzar {A} (e : Exn) : M (Exn + Response) A := raise (inl e).

(** Modelled from the spec: [get_object] comes from [TenantAwareViewSet]
    of [apps.users.views], which is not among the sources; the comment in
    the view set says that its queryset is filtered by the store of the
    user.  The order of the URL is looked up among the orders of that
    store; an order that is not there is answered with 404. *)
Definition get_object (req : Request) : M (Exn + Response) (Z * Venta) :=
  db ← leer;
  match ventas db !! req_pk req with
  | Some v =>
      if venta_tienda v =? req_tienda req then mret (req_pk req, v)
      else devolver (mkResponse 404 NoEncontrado)
  | None => devolver (mkResponse 404 NoEncontrado)
  end.

Definition con_estado_venta (estado : string) (v : Venta) : Venta :=
  mkVenta (venta_total v) estado (venta_tienda v) (venta_cliente v) (venta_carrito v).
Definition con_estado_pago (estado : string) (p : Pago) : Pago :=
  mkPago (pago_venta p) (pago_tienda p) (stripe_payment_intent_id p) (monto_total p) estado.
Definition con_estado_envio (estado : string) (e : Envio) : Envio :=
  mkEnvio (envio_venta e) (envio_tienda e) (direccion_entrega e) estado.

(** Modelled from the spec: [Pago] and [Envio] are declared in the
    models, which are not among the sources; section 3 of the
    specification ties a payment and a shipment to their order, and the
    view itself creates both with [venta=...] (lines 294-307).

    [instance.pagos.first()]: [pagos] is the manager of the payments that
    point to the order (it is prefetched at line 365); [first()] gives
    the one of least key, as it orders by primary key, or [None] when the
    order has no payment. *)
Definition pago_principal (id : Z) (db : DB) : option (Z * Pago) :=
  primero (fun p => pago_venta p =? id) (pagos db).

(** [instance.envio]: the field is on [Envio] (line 303), and the order
    reaches its shipment through [select_related('envio')] (lines 362
    and 381), which only follows single-valued relations: [envio] is the
    reverse accessor of a one-to-one field, as the comment of line 459
    says.  Such an accessor gives the shipment that points to the order
    and raises [RelatedObjectDoesNotExist] when there is none; it never
    gives [None]. *)
Definition envio_de (id : Z) (db : DB) : Exn + (Z * Envio) :=
  match primero (fun e => envio_venta e =? id) (envios db) with
  | Some fila => inr fila
  | None => inl (RelatedObjectDoesNotExist "Envio")
  end.

(** Step 2 of the view (lines 437-442): the status of the order. *)
Definition actualizar_venta (req : Request) (id : Z) (instance : Venta)
  : M (Exn + Response) Venta :=
  let nuevo_estado_venta := dict_get (req_data req) "estado" in
  if truthy nuevo_estado_venta then
    match codigo_valido nuevo_estado_venta (ESTADOS_VENTA env) with
    | None => devolver (mkResponse 400 (ErrEstadoVenta nuevo_estado_venta))
    | Some estado =>
        let instance := con_estado_venta estado instance in
        _ ← escribir (set_ventas (alter (con_estado_venta estado) id));
        _ ← log_action (req_usuario req) (ActualizoVenta id estado);
        mret instance
    end
  else mret instance.

(** Step 3 (lines 445-455): the status of the payment,
    [instance.pagos.first()]. *)
Definition actualizar_pago (req : Request) (id : Z) : M (Exn + Response) unit :=
  let nuevo_estado_pago := dict_get (req_data req) "pago_estado" in
  if truthy nuevo_estado_pago then
    db ← leer;
    match pago_principal id db with
    | None => devolver (mkResponse 404 ErrSinPago)
    | Some (pago_id, pago) =>
        match codigo_valido nuevo_estado_pago (ESTADOS_PAGO env) with
        | None => devolver (mkResponse 400 (ErrEstadoPago nuevo_estado_pago))
        | Some estado =>
            _ ← escribir (set_pagos (alter (con_estado_pago estado) pago_id));
            log_action (req_usuario req) (ActualizoPago pago_id id estado)
        end
    end
  else mret tt.

(** Step 4 (lines 458-468): the status of the shipment,
    [instance.envio].  When the order has no shipment the accessor raises
    at line 459, and nothing in the view catches the exception.  The
    guard [if not envio] of line 460 comes after it and tests a model
    instance, which is never false: no run reaches the response
    [ErrSinEnvio] of line 461. *)
Definition actualizar_envio (req : Request) (id : Z) : M (Exn + Response) unit :=
  let nuevo_estado_envio := dict_get (req_data req) "envio_estado" in
  if truthy nuevo_estado_envio then
    db ← leer;
    match envio_de id db with
    | inl e => lanzar e
    | inr (envio_id, envio) =>
        match codigo_valido nuevo_estado_envio (ESTADOS_ENVIO env) with
        | None => devolver (mkResponse 400 (ErrEstadoEnvio nuevo_estado_envio))
        | Some estado =>
            _ ← escribir (set_envios (alter (con_estado_envio estado) envio_id));
            log_action (req_usuario req) (ActualizoEnvio envio_id id estado)
        end
    end
  else mret tt.

(** How the view ends when a step left it early.  The view opens no
    transaction: every [save] is committed as it runs, unless the request
    runs in a transaction ([ATOMIC_REQUESTS]).  Even then a response the
    view returns commits the earlier writes; only an exception that
    leaves the view makes Django roll them back. *)
Definition salida (db : DB) (s : Exn + Response) (db' : DB)
  : (Exn + Response) * DB :=
  match s with
  | inr respuesta => (inr respuesta, db')
  | inl e => (inl e, if ATOMIC_REQUESTS env then db else db')
  end.

(** [partial_update(request)]: the response the view returns, or the
    exception that leaves it, and the database afterwards. *)
Definition partial_update (req : Request) (db : DB) : (Exn + Response) * DB :=
  let vista : M (Exn + Response) Response :=
    '(id, instance) ← get_object req;
    instance ← actualizar_venta req id instance;
    _ ← actualizar_pago req id;
    _ ← actualizar_envio req id;
    mret (mkResponse 200 (VentaSerializada id instance)) in
  match vista db with
  | (inl s, db') => salida db s db'
  | (inr respuesta, db') => (inr respuesta, db')
  end.

End Vistas.

(** ** Notions the statements about the views use *)

(** One line of [items_data] as the loop reads it: the key and the row of
    the product as the table has it, and the quantity. *)
Record Linea : Type := mkLinea {
  lin_pid : Z;
  lin_producto : Producto;
  lin_cantidad : Z }.

Definition leer_linea (env : Entorno) (tabla : gmap Z Producto) (item : json)
  : Exn + Linea :=
  match item_get item "producto_id" with
  | inl e => inl e
  | inr v =>
      match pk_de env v with
      | inl e => inl e
      | inr pk =>
          match pk ≫= fun k => (fun p => (k, p)) <$> tabla !! k with
          | None => inl (DoesNotExist "Producto")
          | Some (k, p) =>
              match item_get item "cantidad" with
              | inl e => inl e
              | inr c =>
                  match py_int env c with
                  | inl e => inl e
                  | inr q => inr (mkLinea k p q)
                  end
              end
          end
      end
  end.

(** What the loop makes of a line that passed the stock check. *)
Definition detalle_de (carrito : Z) (l : Linea) : Detalle_Carrito :=
  mkDetalle_Carrito carrito (lin_pid l) (lin_cantidad l) (prod_precio (lin_producto l)).
Definition objeto_de (l : Linea) : Z * Producto :=
  (lin_pid l, con_stock (prod_stock (lin_producto l) - lin_cantidad l) (lin_producto l)).
Definition sumar_linea (subtotal : Decimal) (l : Linea) : Decimal :=
  add subtotal (mul (prod_precio (lin_producto l)) (of_int (lin_cantidad l))).

(** A line read from the table that passes the stock check. *)
Definition linea_valida (env : Entorno) (tabla : gmap Z Producto)
    (item : json) (l : Linea) : Prop :=
  leer_linea env tabla item = inr l /\
  lin_cantidad l <= prod_stock (lin_producto l).

(** The association rows after [get_or_create] for a store and a
    customer. *)
Definition asociar (tienda cliente : Z) (l : list TiendaCliente)
  : list TiendaCliente :=
  match List.filter (es_asociacion tienda cliente) l with
  | [] => l ++ [mkTiendaCliente tienda cliente]
  | _ => l
  end.

(** The first line of a product among the lines. *)
Definition primera_linea (k : Z) (lineas : list Linea) : option Linea :=
  List.find (fun l => lin_pid l =? k) lineas.

(** The number of association rows of a store and a customer. *)
Definition asociaciones (tienda cliente : Z) (db : DB) : nat :=
  length (List.filter (es_asociacion tienda cliente) (tienda_clientes db)).

(** No product has a negative stock. *)
Definition stock_no_negativo (db : DB) : Prop :=
  forall k p, productos db !! k = Some p -> 0 <= prod_stock p.


(** ** A small store, for the examples *)

Module Ejemplo.

(** Product 3 costs 50.00 and has 5 units; customer 7 has no points yet;
    the store 1 has no order. *)
Definition db0 : DB :=
  mkDB {[ 3 := mkProducto "Cuaderno" (Dec 5000 (-2)) 5 ]}
       {[ 7 := mkCliente (Dec 0 (-2)) ]}
       {[ 1 := mkTienda "Libreria" ]}
       [] ∅ [] ∅ [] ∅ ∅ [].

Definition linea (producto cantidad : Z) : json :=
  JDict [("producto_id", JInt producto); ("cantidad", JInt cantidad)].

Definition metadata (items : string) : gmap string string :=
  list_to_map [("user_id", "7"); ("tienda_id", "1");
               ("direccion_entrega", "Av. Busch 12"); ("items_data", items)].

(** The sessions Stripe knows, and the payloads the decoder knows: two
    units of product 3 paid 110.00 ([cs_ok]) or 100.00 ([cs_corto]); two
    lines of three units of product 3 paid 330.00 ([cs_doble]); a session
    that is still open; a payload that is not JSON. *)
Definition env0 : Entorno :=
  mkEntorno
    (fun v =>
       match v with
       | JStr "cs_ok" => inr (mkSession "complete" (metadata "dos") (Some "pi_1") (Some 11000))
       | JStr "cs_corto" => inr (mkSession "complete" (metadata "dos") (Some "pi_2") (Some 10000))
       | JStr "cs_doble" => inr (mkSession "complete" (metadata "tres y tres") (Some "pi_3") (Some 33000))
       | JStr "cs_abierta" => inr (mkSession "open" (metadata "dos") None None)
       | JStr "cs_roto" => inr (mkSession "complete" (metadata "{") (Some "pi_4") (Some 11000))
       | _ => inl (StripeError "No such checkout.session")
       end)
    (fun s =>
       match s with
       | "dos" => Some (JList [linea 3 2])
       | "tres y tres" => Some (JList [linea 3 3; linea 3 3])
       | _ => None
       end)
    (fun s => match s with "7" => Some 7 | "1" => Some 1 | _ => None end)
    [("PENDIENTE", "Pendiente"); ("PROCESADA", "Procesada"); ("CANCELADA", "Cancelada")]
    [("PENDIENTE", "Pendiente"); ("COMPLETADO", "Completado")]
    [("EN_PREPARACION", "En preparacion"); ("ENVIADO", "Enviado"); ("ENTREGADO", "Entregado")]
    false.

(** The same surroundings with every request in a transaction. *)
Definition env0_atomico : Entorno :=
  mkEntorno (stripe_retrieve env0) (json_loads env0) (int_of_str env0)
    (ESTADOS_VENTA env0) (ESTADOS_PAGO env0) (ESTADOS_ENVIO env0) true.

Definition confirmar (session_id : string) : Request :=
  mkRequest 7 [("session_id", JStr session_id)] 0 0.

(** The store after the confirmation of [cs_ok]: order 1 with payment 1
    and shipment 1. *)
Definition db1 : DB := snd (verificar_sesion_checkout env0 (confirmar "cs_ok") db0).

(** The same store with the shipment of order 1 removed. *)
Definition db1_sin_envio : DB := set_envios (fun _ => ∅) db1.



(** A request of a member of the staff of store 1 on order 1. *)
Definition cambiar (data : list (string * json)) : Request := mkRequest 99 data 1 1.

End Ejemplo.

(** ** [PagoViewSet.crear_sesion_checkout] *)

(** [int(d)] for a [Decimal]: the integral part, the fraction cut off. *)
Definition to_int (d : Decimal) : Z :=
  if 0 <=? expo d then coef d * 10 ^ expo d
  else Z.quot (coef d) (10 ^ (- expo d)).

(** The columns the quote reads and the confirmation does not: the store
    and the flag [estado] of a product, the slug of a store and the e-mail
    of a user, each as a function of the key of its row. *)
Record Columnas : Type := mkColumnas {
  prod_tienda : Z -> Z;
  prod_estado : Z -> bool;
  tienda_slug : Z -> string;
  user_email : Z -> string }.

(** One element of [line_items]; the currency is always ['bob']. *)
Record LineItem : Type := mkLineItem {
  li_name : string;
  li_unit_amount : Z;
  li_quantity : Z }.

(** What [stripe.checkout.Session.create] is called with: the line items,
    the four entries of the metadata, the e-mail and the two URLs.
    [payment_method_types] is always [['card']] and [mode] is
    ['payment']. *)
Record Solicitud : Type := mkSolicitud {
  sol_line_items : list LineItem;
  sol_user_id : Z;
  sol_tienda_id : Z;
  sol_direccion_entrega : json;
  sol_items_data : string;
  sol_customer_email : string;
  sol_success_url : string;
  sol_cancel_url : string }.

(** The collaborators of the quote: the Stripe client, which gives the
    URL of the new session or raises, [json.dumps], and the setting
    [FRONTEND_URL]. *)
Record EntornoSesion : Type := mkEntornoSesion {
  stripe_create : Solicitud -> Exn + string;
  json_dumps : json -> string;
  FRONTEND_URL : string }.

(** What the [try] block of the loop can raise: the
    [serializers.ValidationError] of the stock check, with its detail, or
    any other exception. *)
Inductive Fallo : Type :=
  | ValidationError (detalle : string)
  | Excepcion (e : Exn).

(** The body of a response of the quote. *)
Inductive CuerpoSesion : Type :=
  | ErrNoEsCliente
  | ErrFaltanDatos
  | ErrFaltaDireccion
  | ErrTiendaNoEncontrada
  | ErrProductoNoEncontrado (e : Exn)
  | ErrValidacion (detalle : string)
  | ErrCalcularTotal (e : Exn)
  | ErrCrearSesion (e : Exn)
  | UrlSesion (url : string).

Record RespuestaSesion : Type := mkRespuestaSesion {
  rs_status : Z;
  rs_cuerpo : CuerpoSesion }.

Section Cotizacion.

Variable env : Entorno.
Variable ext : EntornoSesion.
Variable col : Columnas.

(** [Producto.objects.get(pk=v, tienda=tienda, estado=True)] *)
Definition producto_get_activo (db : DB) (tienda : Z) (v : json)
  : Exn + (Z * Producto) :=
  match pk_de env v with
  | inl e => inl e
  | inr pk =>
      match pk ≫= fun k => (fun p => (k, p)) <$> productos db !! k with
      | Some (k, p) =>
          if (prod_tienda col k =? tienda) && prod_estado col k
          then inr (k, p)
          else inl (DoesNotExist "Producto")
      | None => inl (DoesNotExist "Producto")
      end
  end.

(** The loop over [items_data] (lines 105-127): the accumulators are
    [subtotal] and [line_items_for_stripe]. *)
Fixpoint cotizar_items (db : DB) (tienda : Z) (items : list json)
    (acc : Decimal * list LineItem) : Fallo + (Decimal * list LineItem) :=
  match items with
  | [] => inr acc
  | item_data :: resto =>
      let '(subtotal, line_items_for_stripe) := acc in
      match item_get item_data "producto_id" with
      | inl e => inl (Excepcion e)
      | inr producto_id =>
          match producto_get_activo db tienda producto_id with
          | inl e => inl (Excepcion e)
          | inr (_, producto) =>
              match item_get item_data "cantidad" with
              | inl e => inl (Excepcion e)
              | inr cantidad_v =>
                  match py_int env cantidad_v with
                  | inl e => inl (Excepcion e)
                  | inr cantidad =>
                      if prod_stock producto <? cantidad
                      then inl (ValidationError
                                  ("Stock insuficiente para " +:+ prod_nombre producto))
                      else
                        cotizar_items db tienda resto
                          (add subtotal (mul (prod_precio producto) (of_int cantidad)),
                           line_items_for_stripe ++
                             [mkLineItem (prod_nombre producto)
                                (to_int (mul (prod_precio producto) (of_int 100)))
                                cantidad])
                  end
              end
          end
      end
  end.

(** The first [try] block (lines 103-131): the loop and the shipping
    cost.  [total_final] is computed there and used nowhere. *)
Definition cotizar (db : DB) (tienda : Z) (items_data : json)
  : Fallo + (Decimal * list LineItem * Decimal) :=
  match py_iter items_data with
  | inl e => inl (Excepcion e)
  | inr items =>
      match cotizar_items db tienda items (Dec 0 (-2), []) with
      | inl f => inl f
      | inr (subtotal, line_items_for_stripe) =>
          match calcular_costo_envio subtotal with
          | None => inl (Excepcion InvalidOperation)
          | Some costo_envio => inr (subtotal, line_items_for_stripe, costo_envio)
          end
      end
  end.

(** The three [except] clauses of that block (lines 133-138). *)
Definition respuesta_fallo (f : Fallo) : RespuestaSesion :=
  match f with
  | ValidationError detalle => mkRespuestaSesion 400 (ErrValidacion detalle)
  | Excepcion (DoesNotExist modelo) =>
      if String.eqb modelo "Producto"
      then mkRespuestaSesion 404 (ErrProductoNoEncontrado (DoesNotExist modelo))
      else mkRespuestaSesion 500 (ErrCalcularTotal (DoesNotExist modelo))
  | Excepcion e => mkRespuestaSesion 500 (ErrCalcularTotal e)
  end.

(** The line of the shipping cost (lines 150-159). *)
Definition item_envio (costo_envio : Decimal) : LineItem :=
  mkLineItem "Costo de Envío" (to_int (mul costo_envio (of_int 100))) 1.

(** [crear_sesion_checkout(request)]: the response, or the exception that
    leaves the view (the lookup of the store catches only
    [Tienda.DoesNotExist]), and the request sent to Stripe, if one was
    sent.  The view reads the database and does not write it.
    [request.user.cliente_profile] is the row of [Cliente] under the key
    of the user, the one [Cliente.objects.get(user_id=...)] finds at
    confirmation. *)
Definition crear_sesion_checkout (req : Request) (db : DB)
  : (Exn + RespuestaSesion) * option Solicitud :=
  match clientes db !! req_usuario req with
  | None => (inr (mkRespuestaSesion 403 ErrNoEsCliente), None)
  | Some _ =>
      let tienda_id := dict_get (req_data req) "tienda_id" in
      let items_data := default (JList []) (dict_lookup (req_data req) "items") in
      let direccion_entrega := dict_get (req_data req) "direccion_entrega" in
      if negb (truthy tienda_id) || negb (truthy items_data)
      then (inr (mkRespuestaSesion 400 ErrFaltanDatos), None)
      else if negb (truthy direccion_entrega)
      then (inr (mkRespuestaSesion 400 ErrFaltaDireccion), None)
      else
        match pk_de env tienda_id with
        | inl e => (inl e, None)
        | inr pk =>
            match pk ≫= fun k => (fun t => (k, t)) <$> tiendas db !! k with
            | None => (inr (mkRespuestaSesion 404 ErrTiendaNoEncontrada), None)
            | Some (tienda, _) =>
                match cotizar db tienda items_data with
                | inl f => (inr (respuesta_fallo f), None)
                | inr (_, line_items_for_stripe, costo_envio) =>
                    let solicitud :=
                      mkSolicitud
                        (line_items_for_stripe ++
                           if ltb (of_int 0) costo_envio
                           then [item_envio costo_envio] else [])
                        (req_usuario req) tienda direccion_entrega
                        (json_dumps ext items_data)
                        (user_email col (req_usuario req))
                        (FRONTEND_URL ext +:+ "/tienda/" +:+ tienda_slug col tienda
                           +:+ "/pago-exitoso?session_id={CHECKOUT_SESSION_ID}")
                        (FRONTEND_URL ext +:+ "/tienda/" +:+ tienda_slug col tienda
                           +:+ "/pagar") in
                    match stripe_create ext solicitud with
                    | inl e =>
                        (inr (mkRespuestaSesion 500 (ErrCrearSesion e)), Some solicitud)
                    | inr url =>
                        (inr (mkRespuestaSesion 200 (UrlSesion url)), Some solicitud)
                    end
                end
            end
        end
  end.

End Cotizacion.

(** ** [VentaViewSet.get_queryset] *)

(** The orders the history of a user holds: none for an anonymous user
    ([None]) or a user without a customer profile, else the orders whose
    customer is the user.  The result is the set of rows;
    [order_by('-fecha_venta')] and the prefetching of related rows are
    not represented. *)
Definition get_queryset (user : option Z) (db : DB) : gmap Z Venta :=
  match user with
  | None => ∅
  | Some u =>
      match clientes db !! u with
      | None => ∅
      | Some _ => filter (fun kv => venta_cliente (snd kv) = u) (ventas db)
      end
  end.

(** ** Notions the statements about the quote use *)

(** A line the quote accepts: read from the table, with enough stock, of
    an active product of the store. *)
Definition linea_cotizada (env : Entorno) (col : Columnas) (db : DB) (tienda : Z)
    (item : json) (l : Linea) : Prop :=
  linea_valida env (productos db) item l /\
  prod_tienda col (lin_pid l) = tienda /\ prod_estado col (lin_pid l) = true.

(** The line item the quote makes of a line. *)
Definition item_de (l : Linea) : LineItem :=
  mkLineItem (prod_nombre (lin_producto l))
    (to_int (mul (prod_precio (lin_producto l)) (of_int 100))) (lin_cantidad l).

(** The amount of a checkout: the sum over its line items of unit amount
    times quantity, in hundredths. *)
Definition amount_total_de (items : list LineItem) : Z :=
  foldr (fun li acc => li_unit_amount li * li_quantity li + acc) 0 items.

(** The session of a request to Stripe once the customer has paid it:
    the metadata come back as strings ([str] writes an integer), and the
    amount is the sum of the line items. *)
Definition sesion_completada (str : Z -> string) (sol : Solicitud)
    (direccion payment_intent : string) : Session :=
  mkSession "complete"
    (list_to_map [("user_id", str (sol_user_id sol));
                  ("tienda_id", str (sol_tienda_id sol));
                  ("direccion_entrega", direccion);
                  ("items_data", sol_items_data sol)])
    (Some payment_intent) (Some (amount_total_de (sol_line_items sol))).

(** A price as the catalogue keeps it: not negative, of at most 24
    digits, with at most two decimals. *)
Definition precio_en_centavos (d : Decimal) : Prop :=
  0 <= coef d < 10 ^ 24 /\ -2 <= expo d.

(** ** A quote on the small store *)

Module EjemploSesion.

Import Ejemplo.

(** Every product is active and of store 1. *)
Definition col0 : Columnas :=
  mkColumnas (fun _ => 1) (fun _ => true) (fun _ => "libreria")
    (fun _ => "ana@example.com").

Definition es_linea (producto cantidad : Z) (v : json) : bool :=
  match v with
  | JDict [(k1, JInt p); (k2, JInt q)] =>
      String.eqb k1 "producto_id" && (p =? producto)
      && String.eqb k2 "cantidad" && (q =? cantidad)
  | _ => false
  end.

(** Stripe accepts every request; the encoder knows the payloads of
    [env0] and one more, nine units of product 3. *)
Definition ext0 : EntornoSesion :=
  mkEntornoSesion
    (fun _ => inr "https://checkout.stripe.com/c/pay/cs_nuevo")
    (fun v =>
       match v with
       | JList [l] =>
           if es_linea 3 2 l then "dos"
           else if es_linea 3 9 l then "nueve" else "?"
       | _ => "?"
       end)
    "https://sales365.example".

(** Customer 7 asks store 1 for some units of product 3. *)
Definition pedir (cantidad : Z) : Request :=
  mkRequest 7
    [("tienda_id", JInt 1); ("items", JList [linea 3 cantidad]);
     ("direccion_entrega", JStr "Av. Busch 12")] 0 0.

(** The request the quote of two units sends to Stripe. *)
Definition sol0 : Solicitud :=
  default (mkSolicitud [] 0 0 JNull "" "" "" "")
    (snd (crear_sesion_checkout env0 ext0 col0 (pedir 2) db0)).

Definition str0 (n : Z) : string :=
  match n with 7 => "7" | 1 => "1" | _ => "0" end.

(** [env0] with two more sessions: the one of [sol0] once paid, and one
    for nine units of product 3, of which the store has five. *)
Definition env1 : Entorno :=
  mkEntorno
    (fun v =>
       match v with
       | JStr "cs_nuevo" => inr (sesion_completada str0 sol0 "Av. Busch 12" "pi_9")
       | JStr "cs_mucho" =>
           inr (mkSession "complete" (metadata "nueve") (Some "pi_5") (Some 49500))
       | _ => stripe_retrieve env0 v
       end)
    (fun s => match s with "nueve" => Some (JList [linea 3 9]) | _ => json_loads env0 s end)
    (int_of_str env0) (ESTADOS_VENTA env0) (ESTADOS_PAGO env0) (ESTADOS_ENVIO env0)
    false.

End EjemploSesion.


(** * Facts *)

(** ** The decimal arithmetic *)

Module PyDecimalFacts.

(** *** Facts about the digit count and the context rounding *)

Lemma pow10_pos (k : Z) : 0 <= k -> 0 < 10 ^ k.
Proof. intros Hk. apply Z.pow_pos_nonneg; lia. Qed.

Lemma pow10_split (a b : Z) : 0 <= a -> 0 <= b -> 10 ^ (a + b) = 10 ^ a * 10 ^ b.
Proof. intros Ha Hb. apply Z.pow_add_r; assumption. Qed.

Lemma ndigits_aux_bounds (fuel : nat) :
  forall n, 0 <= n < 2 ^ (Z.of_nat fuel + 1) ->
    1 <= ndigits_aux fuel n /\
    n < 10 ^ ndigits_aux fuel n /\
    (n <> 0 -> 10 ^ (ndigits_aux fuel n - 1) <= n).
Proof.
  induction fuel as [|f IH]; intros n Hn.
  - cbn [ndigits_aux]. change (2 ^ (Z.of_nat 0 + 1)) with 2 in Hn.
    change (10 ^ 1) with 10. change (10 ^ (1 - 1)) with 1. lia.
  - cbn [ndigits_aux]. destruct (Z.ltb_spec n 10) as [Hlt|Hge].
    + change (10 ^ 1) with 10. change (10 ^ (1 - 1)) with 1. lia.
    + assert (Hq : 0 <= n / 10 < 2 ^ (Z.of_nat f + 1)).
      { split; [apply Z.div_pos; lia|].
        replace (Z.of_nat (S f) + 1) with (Z.succ (Z.of_nat f + 1)) in Hn by lia.
        rewrite Z.pow_succ_r in Hn by lia.
        apply Z.div_lt_upper_bound; lia. }
      destruct (IH _ Hq) as (H1 & H2 & H3).
      set (k := ndigits_aux f (n / 10)) in *.
      assert (Hn10 : n / 10 <> 0).
      { intros E. pose proof (Z.div_mod n 10 ltac:(lia)) as Hd.
        pose proof (Z.mod_pos_bound n 10 ltac:(lia)). lia. }
      specialize (H3 Hn10).
      pose proof (Z.div_mod n 10 ltac:(lia)) as Hd.
      pose proof (Z.mod_pos_bound n 10 ltac:(lia)) as Hm.
      replace (1 + k - 1) with k by lia.
      replace (1 + k) with (Z.succ k) by lia.
      rewrite Z.pow_succ_r by lia.
      replace k with (Z.succ (k - 1)) in H2 |- * at 2 by lia.
      split; [lia|]. split; [lia|]. intros _.
      replace k with (Z.succ (k - 1)) by lia.
      rewrite Z.pow_succ_r by lia. lia.
Qed.

Lemma ndigits_bounds (c : Z) :
  1 <= ndigits c /\ Z.abs c < 10 ^ ndigits c /\
  (c <> 0 -> 10 ^ (ndigits c - 1) <= Z.abs c).
Proof.
  unfold ndigits.
  assert (H : 0 <= Z.abs c < 2 ^ (Z.of_nat (Z.to_nat (Z.log2 (Z.abs c))) + 1)).
  { split; [lia|]. rewrite Z2Nat.id by apply Z.log2_nonneg.
    destruct (Z.eq_dec (Z.abs c) 0) as [E|E].
    - rewrite E. reflexivity.
    - apply Z.log2_spec. lia. }
  destruct (ndigits_aux_bounds _ _ H) as (H1 & H2 & H3).
  split; [exact H1|]. split; [exact H2|]. intros Hc. apply H3. lia.
Qed.

(** The digit count against a power of ten. *)
Lemma ndigits_le_iff (c k : Z) : 1 <= k -> ndigits c <= k <-> Z.abs c < 10 ^ k.
Proof.
  intros Hk. destruct (ndigits_bounds c) as (H1 & H2 & H3). split.
  - intros Hle. eapply Z.lt_le_trans; [exact H2|].
    apply Z.pow_le_mono_r; lia.
  - intros Hlt. destruct (Z.eq_dec c 0) as [->|Hc].
    + change (ndigits 0) with 1. lia.
    + specialize (H3 Hc).
      destruct (Z.le_gt_cases (ndigits c) k) as [|Hgt]; [assumption|exfalso].
      assert (10 ^ k <= 10 ^ (ndigits c - 1)) by (apply Z.pow_le_mono_r; lia).
      lia.
Qed.

(** A coefficient of at most [prec] digits is left as it is. *)
Lemma fix_small (d : Decimal) : Z.abs (coef d) < 10 ^ prec -> fix_ d = d.
Proof.
  intros H. unfold fix_.
  destruct (Z.leb_spec (ndigits (coef d)) prec) as [|Hgt]; [reflexivity|].
  apply ndigits_le_iff in H; [lia | unfold prec; lia].
Qed.

(** *** Rounding to the nearest, ties to even *)

Lemma round_half_even_nearest (n d : Z) :
  0 <= n -> 0 < d -> nearest_even n d (round_half_even n d).
Proof.
  intros Hn Hd. unfold nearest_even, round_half_even.
  pose proof (Z.div_mod n d ltac:(lia)) as Hdm.
  pose proof (Z.mod_pos_bound n d Hd) as Hm.
  set (q := n / d) in *. set (r := n mod d) in *.
  destruct (Z.compare_spec (2 * r) d) as [E|L|G].
  - destruct (Z.even q) eqn:Hev.
    + split; [|intros _; exact Hev]. replace (n - q * d) with r by lia. lia.
    + split; [replace (n - (q + 1) * d) with (r - d) by lia; lia|].
      intros _. rewrite Z.even_add, Hev. reflexivity.
  - split; replace (n - q * d) with r by lia; lia.
  - split; replace (n - (q + 1) * d) with (r - d) by lia; lia.
Qed.

Lemma round_half_even_nonneg (n d : Z) : 0 <= n -> 0 < d -> 0 <= round_half_even n d.
Proof.
  intros Hn Hd. unfold round_half_even.
  assert (0 <= n / d) by (apply Z.div_pos; lia).
  destruct (2 * (n mod d) ?= d); [destruct (Z.even (n / d))| |]; lia.
Qed.

(** The rounded quotient is determined by [n] and [d]. *)
Lemma nearest_even_unique (n d q1 q2 : Z) :
  0 < d -> nearest_even n d q1 -> nearest_even n d q2 -> q1 = q2.
Proof.
  intros Hd [H1 T1] [H2 T2].
  assert (Hclose : q1 = q2 \/ q2 = q1 + 1 \/ q1 = q2 + 1) by nia.
  destruct Hclose as [E|[E|E]]; [exact E| |]; exfalso; subst.
  - assert (E1 : 2 * Z.abs (n - q1 * d) = d) by nia.
    assert (E2 : 2 * Z.abs (n - (q1 + 1) * d) = d) by nia.
    specialize (T1 E1). specialize (T2 E2).
    rewrite Z.even_add, T1 in T2. discriminate.
  - assert (E1 : 2 * Z.abs (n - (q2 + 1) * d) = d) by nia.
    assert (E2 : 2 * Z.abs (n - q2 * d) = d) by nia.
    specialize (T1 E1). specialize (T2 E2).
    rewrite Z.even_add, T2 in T1. discriminate.
Qed.

(** Numerator and denominator may be scaled together. *)
Lemma nearest_even_scale (n d q k : Z) :
  0 < k -> nearest_even n d q <-> nearest_even (n * k) (d * k) q.
Proof.
  intros Hk. unfold nearest_even.
  replace (n * k - q * (d * k)) with ((n - q * d) * k) by ring.
  rewrite Z.abs_mul, (Z.abs_eq k) by lia.
  split; intros [H T]; (split; [nia|intros E; apply T; nia]).
Qed.

(** Equal fractions round to the same integer. *)
Lemma nearest_even_ratio (n d q n' d' q' : Z) :
  0 < d -> 0 < d' -> n * d' = n' * d ->
  nearest_even n d q -> nearest_even n' d' q' -> q = q'.
Proof.
  intros Hd Hd' E H H'.
  apply (nearest_even_scale n d q d' Hd') in H.
  apply (nearest_even_scale n' d' q' d Hd) in H'.
  rewrite E in H. rewrite (Z.mul_comm d' d) in H'.
  apply (nearest_even_unique (n' * d) (d * d') q q'); [nia|assumption..].
Qed.

(** *** Comparison at any common exponent *)

Lemma align_shift (d : Decimal) (m m' : Z) :
  m' <= m -> m <= expo d -> align d m' = align d m * 10 ^ (m - m').
Proof.
  intros H1 H2. unfold align.
  replace (expo d - m') with ((expo d - m) + (m - m')) by lia.
  rewrite pow10_split by lia. ring.
Qed.

Lemma compare_mul_pos (x y k : Z) : 0 < k -> (x * k ?= y * k) = (x ?= y).
Proof.
  intros Hk. destruct (Z.compare_spec x y) as [E|L|G].
  - subst. apply Z.compare_refl.
  - apply Z.compare_lt_iff. nia.
  - apply Z.compare_gt_iff. nia.
Qed.

Lemma cmp_align (a b : Decimal) (m : Z) :
  m <= expo a -> m <= expo b -> cmp a b = (align a m ?= align b m).
Proof.
  intros Ha Hb. unfold cmp. set (m0 := Z.min (expo a) (expo b)).
  rewrite (align_shift a m0 m), (align_shift b m0 m) by (unfold m0; lia).
  symmetry. apply compare_mul_pos. apply pow10_pos. unfold m0. lia.
Qed.

Lemma cmp_antisym (a b : Decimal) : cmp b a = CompOpp (cmp a b).
Proof. unfold cmp. rewrite (Z.min_comm (expo b)). apply Z.compare_antisym. Qed.

Lemma leb_negb_ltb (a b : Decimal) : leb a b = negb (ltb b a).
Proof. unfold leb, ltb. rewrite (cmp_antisym a b). destruct (cmp a b); reflexivity. Qed.

(** *** Quantizing to cents *)

Lemma round_half_even_le (n d : Z) : round_half_even n d <= n / d + 1.
Proof.
  unfold round_half_even.
  destruct (2 * (n mod d) ?= d); [destruct (Z.even (n / d))| |]; lia.
Qed.

(** A positive value below [10 ^ k] has its leading digit below the
    position [k]. *)
Lemma adjusted_bound (c e B k : Z) :
  0 < c -> 0 <= k -> B <= 10 ^ k ->
  ltb (Dec c e) (of_int B) = true -> e + ndigits c <= k.
Proof.
  intros Hc Hk HB Hlt.
  destruct (ndigits_bounds c) as (N1 & N2 & N3).
  specialize (N3 ltac:(lia)). rewrite Z.abs_eq in N2, N3 by lia.
  unfold ltb, cmp, align, of_int in Hlt. cbn [coef expo] in Hlt.
  destruct (Z.compare_spec (c * 10 ^ (e - Z.min e 0)) (B * 10 ^ (0 - Z.min e 0)))
    as [?|L|?]; try discriminate.
  destruct (Z.le_gt_cases 0 e) as [He|He].
  - rewrite Z.min_r in L by lia. change (10 ^ (0 - 0)) with 1 in L.
    replace (e - 0) with e in L by lia.
    assert (H10 : 10 ^ (ndigits c - 1 + e) < 10 ^ k).
    { rewrite pow10_split by lia. pose proof (pow10_pos e He). nia. }
    apply Z.pow_lt_mono_r_iff in H10; lia.
  - rewrite Z.min_l in L by lia. replace (e - e) with 0 in L by lia.
    change (10 ^ 0) with 1 in L.
    assert (H10 : Z.abs c < 10 ^ (k - e)).
    { rewrite Z.abs_eq by lia. replace (k - e) with (k + (0 - e)) by lia.
      rewrite pow10_split by lia. pose proof (pow10_pos (0 - e) ltac:(lia)). nia. }
    apply ndigits_le_iff in H10; lia.
Qed.

(** Quantizing a positive decimal of moderate size to two places does not
    raise and is the rescaling. *)
Lemma quantize_cents (d : Decimal) :
  0 < coef d -> coef d < 10 ^ prec -> expo d + ndigits (coef d) <= 26 ->
  quantize d (Dec 1 (-2)) = Some (rescale d (-2)).
Proof.
  intros Hc Hp Ha. unfold quantize. cbn [expo].
  destruct (Z.eqb_spec (coef d) 0) as [|_]; [lia|].
  destruct (Z.ltb_spec prec (expo d + ndigits (coef d) - 1 - -2 + 1)) as [Hbad|_].
  { unfold prec in Hbad. lia. }
  assert (Hq : Z.abs (coef (rescale d (-2))) < 10 ^ prec).
  { unfold rescale. destruct (Z.eqb_spec (coef d) 0) as [|_]; [lia|].
    destruct (ndigits_bounds (coef d)) as (N1 & N2 & _).
    rewrite Z.abs_eq in N2 by lia.
    destruct (Z.leb_spec (-2) (expo d)) as [He|He]; cbn [coef].
    - pose proof (pow10_pos (expo d - -2) ltac:(lia)) as Hpos.
      rewrite Z.abs_eq by nia.
      apply Z.lt_le_trans with (10 ^ (ndigits (coef d) + (expo d - -2))).
      + rewrite pow10_split by lia. nia.
      + apply Z.pow_le_mono_r; unfold prec; lia.
    - unfold div_half_even. rewrite Z.sgn_pos, (Z.abs_eq (coef d)), Z.mul_1_l by lia.
      pose proof (pow10_pos (-2 - expo d) ltac:(lia)) as Hpos.
      pose proof (round_half_even_nonneg (coef d) _ ltac:(lia) Hpos).
      pose proof (round_half_even_le (coef d) (10 ^ (-2 - expo d))).
      rewrite Z.abs_eq by lia.
      assert (coef d / 10 ^ (-2 - expo d) <= coef d / 10).
      { apply Z.div_le_compat_l; [lia|]. split; [lia|].
        change 10 with (10 ^ 1) at 1. apply Z.pow_le_mono_r; lia. }
      assert (coef d / 10 < 10 ^ 27).
      { apply Z.div_lt_upper_bound; [lia|]. unfold prec in Hp.
        change (10 ^ 28) with (10 * 10 ^ 27) in Hp. lia. }
      unfold prec. change (10 ^ 28) with (10 * 10 ^ 27). lia. }
  apply ndigits_le_iff in Hq; [|unfold prec; lia].
  destruct (Z.ltb_spec prec (ndigits (coef (rescale d (-2))))) as [|_]; [lia|].
  rewrite fix_small; [reflexivity|].
  apply ndigits_le_iff; [unfold prec; lia|assumption].
Qed.

(** The coefficient of a positive decimal rescaled to two places is its
    value in hundredths, rounded half-even. *)
Lemma rescale_cents (c e : Z) :
  0 < c ->
  exists q, rescale (Dec c e) (-2) = Dec q (-2) /\
    nearest_even (c * 10 ^ Z.max (e + 2) 0) (10 ^ Z.max (- 2 - e) 0) q.
Proof.
  intros Hc. unfold rescale. cbn [coef expo].
  destruct (Z.eqb_spec c 0) as [|_]; [lia|].
  destruct (Z.leb_spec (-2) e) as [He|He].
  - eexists; split; [reflexivity|].
    rewrite Z.max_l, Z.max_r by lia. change (10 ^ 0) with 1.
    replace (e - -2) with (e + 2) by lia.
    unfold nearest_even.
    replace (c * 10 ^ (e + 2) - c * 10 ^ (e + 2) * 1) with 0 by ring.
    cbn. split; [lia|discriminate].
  - eexists; split; [reflexivity|].
    rewrite Z.max_r, Z.max_l by lia. change (10 ^ 0) with 1. rewrite Z.mul_1_r.
    unfold div_half_even. rewrite Z.sgn_pos, Z.abs_eq, Z.mul_1_l by lia.
    apply round_half_even_nearest; [lia|apply pow10_pos; lia].
Qed.

(** *** The exponent of a quantized decimal *)

Lemma quantize_expo (d q r : Decimal) : quantize d q = Some r -> expo r = expo q.
Proof.
  unfold quantize. intros H.
  destruct (Z.eqb_spec (coef d) 0) as [E|E].
  - inversion H; subst. rewrite fix_small; [reflexivity|].
    cbn [coef Z.abs]. apply pow10_pos. unfold prec. lia.
  - destruct (prec <? expo d + ndigits (coef d) - 1 - expo q + 1); [discriminate|].
    destruct (Z.ltb_spec prec (ndigits (coef (rescale d (expo q))))) as [|Hle];
      [discriminate|].
    inversion H; subst. unfold fix_.
    destruct (Z.leb_spec (ndigits (coef (rescale d (expo q)))) prec); [|lia].
    unfold rescale. repeat case_match; reflexivity.
Qed.

(** At one exponent two decimals are equal in value when their
    coefficients are. *)
Lemma eqb_same_expo (a b e : Z) : eqb (Dec a e) (Dec b e) = (a =? b).
Proof.
  unfold eqb, cmp, align. cbn [coef expo].
  rewrite Z.min_id. replace (e - e) with 0 by lia. change (10 ^ 0) with 1.
  rewrite !Z.mul_1_r.
  destruct (Z.compare_spec a b), (Z.eqb_spec a b); try reflexivity; lia.
Qed.


End PyDecimalFacts.

Import PyDecimalFacts.

(** ** The shipping cost *)

(** *** The cost in hundredths *)

Lemma cents_den_pos (S : Decimal) : 0 < cents_den S.
Proof. apply pow10_pos. lia. Qed.

(** The four quotients [Decimal(str(p)) / Decimal('100.0')]. *)
Lemma tasa_0 : div (of_int 0) (Dec 1000 (-1)) = Some (Dec 0 1).
Proof. vm_compute. reflexivity. Qed.
Lemma tasa_15 : div (of_int 15) (Dec 1000 (-1)) = Some (Dec 15 (-2)).
Proof. vm_compute. reflexivity. Qed.
Lemma tasa_10 : div (of_int 10) (Dec 1000 (-1)) = Some (Dec 1 (-1)).
Proof. vm_compute. reflexivity. Qed.
Lemma tasa_5 : div (of_int 5) (Dec 1000 (-1)) = Some (Dec 5 (-2)).
Proof. vm_compute. reflexivity. Qed.

Lemma nearest_even_transfer (n d n' d' q : Z) :
  0 < d -> 0 < d' -> n * d' = n' * d ->
  nearest_even n d q -> nearest_even n' d' q.
Proof.
  intros Hd Hd' E H.
  apply (nearest_even_scale n' d' q d Hd).
  apply (nearest_even_scale n d q d' Hd') in H.
  rewrite E in H. rewrite (Z.mul_comm d' d). exact H.
Qed.

Lemma costo_tasa_cero (S : Decimal) :
  quantize (mul S (Dec 0 1)) (Dec 1 (-2)) = Some (Dec 0 (-2)).
Proof.
  unfold mul, mul_exact. cbn [coef expo]. rewrite Z.mul_0_r.
  rewrite fix_small by (cbn [coef Z.abs]; apply pow10_pos; unfold prec; lia).
  reflexivity.
Qed.

Lemma eqb_zero_false (c e : Z) : eqb (Dec c e) (of_int 0) = false -> c <> 0.
Proof.
  intros H ->. unfold eqb, cmp, align in H. cbn in H. discriminate.
Qed.

Lemma ndigits_mul_small (c k : Z) :
  0 < c -> 0 < k <= 100 -> ndigits (c * k) <= ndigits c + 2.
Proof.
  intros Hc Hk. destruct (ndigits_bounds c) as (N1 & N2 & _).
  rewrite Z.abs_eq in N2 by lia.
  apply ndigits_le_iff; [lia|]. rewrite Z.abs_eq by nia.
  rewrite pow10_split by lia. change (10 ^ 2) with 100. nia.
Qed.

(** One tier: the subtotal times the rate [pc * 10 ^ ep], which is [p]
    percent, quantized to two places. *)
Lemma tier_cost (c e pc ep p : Z) :
  0 < c -> ndigits c <= 26 -> e + ndigits c <= 3 ->
  (pc, ep, p) = (15, -2, 15) \/ (pc, ep, p) = (1, -1, 10) \/ (pc, ep, p) = (5, -2, 5) ->
  exists q, quantize (mul (Dec c e) (Dec pc ep)) (Dec 1 (-2)) = Some (Dec q (-2)) /\
    nearest_even (cents_num (Dec c e) p) (cents_den (Dec c e)) q.
Proof.
  intros Hc Hd Ha Hp.
  assert (Hpc : 0 < pc <= 15 /\ -2 <= ep <= -1)
    by (destruct Hp as [E|[E|E]]; inversion E; lia).
  assert (Hc26 : c < 10 ^ 26).
  { apply ndigits_le_iff in Hd; [|lia]. rewrite Z.abs_eq in Hd by lia. exact Hd. }
  pose proof (ndigits_mul_small c pc Hc ltac:(lia)) as Hnd.
  unfold mul, mul_exact. cbn [coef expo].
  rewrite fix_small by (cbn [coef]; rewrite Z.abs_eq by nia; unfold prec;
                        change (10 ^ 28) with (100 * 10 ^ 26); nia).
  rewrite quantize_cents; cbn [coef expo]; [|nia| |lia].
  2:{ unfold prec; change (10 ^ 28) with (100 * 10 ^ 26); nia. }
  destruct (rescale_cents (c * pc) (e + ep) ltac:(nia)) as (q & -> & Hq).
  exists q. split; [reflexivity|].
  unfold cents_num, cents_den. cbn [coef expo].
  eapply nearest_even_transfer; [| |  |exact Hq];
    [apply pow10_pos; lia|apply pow10_pos; lia|].
  destruct Hp as [E|[E|E]]; inversion E; subst; clear E.
  - replace (e + -2 + 2) with e by lia. replace (-2 - (e + -2)) with (- e) by lia.
    reflexivity.
  - destruct (Z.le_gt_cases 0 e) as [He|He].
    + rewrite (Z.max_l (e + -1 + 2)), (Z.max_l e), (Z.max_r (- e)),
        (Z.max_r (-2 - (e + -1))) by lia.
      replace (e + -1 + 2) with (1 + e) by lia.
      rewrite pow10_split by lia. change (10 ^ 1) with 10. change (10 ^ 0) with 1. ring.
    + rewrite (Z.max_r (e + -1 + 2)), (Z.max_r e), (Z.max_l (- e)), (Z.max_l (-2 - (e + -1))) by lia.
      replace (- e) with (1 + (-2 - (e + -1))) by lia.
      rewrite pow10_split by lia. change (10 ^ 1) with 10. change (10 ^ 0) with 1. ring.
  - replace (e + -2 + 2) with e by lia. replace (-2 - (e + -2)) with (- e) by lia.
    reflexivity.
Qed.

(** [calcular_costo_envio] returns a whole number [q] of hundredths, and
    [q] is [S * p / 100] rounded half-even, [p] the percentage of the
    tier. *)
Lemma calcular_costo_envio_cents (S : Decimal) :
  0 <= coef S -> ndigits (coef S) <= 26 ->
  exists q, calcular_costo_envio S = Some (Dec q (-2)) /\
    nearest_even (cents_num S (porcentaje_envio S)) (cents_den S) q.
Proof.
  destruct S as [c e]. cbn [coef]. intros Hc Hd.
  assert (Hzero : forall p, p = 0 ->
    nearest_even (cents_num (Dec c e) p) (cents_den (Dec c e)) 0).
  { intros p ->. unfold cents_num, nearest_even. cbn [coef expo].
    rewrite Z.mul_0_r. cbn [Z.mul Z.sub Z.abs Z.opp Z.add].
    pose proof (cents_den_pos (Dec c e)). split; [lia|lia]. }
  unfold calcular_costo_envio, porcentaje_envio.
  destruct (eqb (Dec c e) (of_int 0)) eqn:E0.
  { rewrite tasa_0. cbn [mbind option_bind]. rewrite costo_tasa_cero.
    exists 0. split; [reflexivity|]. apply Hzero. reflexivity. }
  apply eqb_zero_false in E0.
  assert (Hpos : 0 < c) by lia.
  destruct (ltb (Dec c e) (of_int 100)) eqn:E1.
  { rewrite tasa_15. cbn [mbind option_bind].
    apply tier_cost; auto.
    apply (adjusted_bound c e 100 3); [lia|lia|cbn; lia|exact E1]. }
  destruct (ltb (Dec c e) (of_int 500)) eqn:E2.
  { rewrite tasa_10. cbn [mbind option_bind].
    apply tier_cost; auto.
    apply (adjusted_bound c e 500 3); [lia|lia|cbn; lia|exact E2]. }
  destruct (ltb (Dec c e) (of_int 1000)) eqn:E3.
  { rewrite tasa_5. cbn [mbind option_bind].
    apply tier_cost; auto.
    apply (adjusted_bound c e 1000 3); [lia|lia|cbn; lia|exact E3]. }
  rewrite tasa_0. cbn [mbind option_bind]. rewrite costo_tasa_cero.
  exists 0. split; [reflexivity|]. apply Hzero. reflexivity.
Qed.

(** *** The order on decimals *)

Lemma eqb_align (a b : Decimal) (m : Z) :
  m <= expo a -> m <= expo b -> eqb a b = true -> align a m = align b m.
Proof.
  intros Ha Hb H. unfold eqb in H. rewrite (cmp_align a b m Ha Hb) in H.
  destruct (Z.compare_spec (align a m) (align b m)); [assumption|discriminate..].
Qed.

(** Comparisons look at the value only. *)
Lemma cmp_eqb_l (a a' b : Decimal) : eqb a a' = true -> cmp a b = cmp a' b.
Proof.
  intros H. set (m := Z.min (Z.min (expo a) (expo a')) (expo b)).
  rewrite (cmp_align a b m), (cmp_align a' b m) by (unfold m; lia).
  rewrite (eqb_align a a' m) by (unfold m; lia || assumption). reflexivity.
Qed.

Lemma ltb_leb_trans (a b c : Decimal) :
  ltb (of_int 0) a = true -> leb a b = true -> ltb b c = true -> ltb a c = true.
Proof.
  unfold ltb, leb. intros _ Hab Hbc.
  set (m := Z.min (Z.min (expo a) (expo b)) (expo c)).
  rewrite (cmp_align a b m) in Hab by (unfold m; lia).
  rewrite (cmp_align b c m) in Hbc by (unfold m; lia).
  rewrite (cmp_align a c m) by (unfold m; lia).
  destruct (Z.compare_spec (align a m) (align b m)); try discriminate;
    destruct (Z.compare_spec (align b m) (align c m)); try discriminate;
    destruct (Z.compare_spec (align a m) (align c m)); try reflexivity; lia.
Qed.

Lemma ltb_zero_pos (c e : Z) : ltb (of_int 0) (Dec c e) = true <-> 0 < c.
Proof.
  unfold ltb, cmp, align, of_int. cbn [coef expo]. rewrite Z.mul_0_l.
  pose proof (pow10_pos (e - Z.min 0 e) ltac:(lia)) as Hp.
  destruct (Z.compare_spec 0 (c * 10 ^ (e - Z.min 0 e))) as [E|L|G];
    split; intros Hx; try discriminate; try reflexivity; nia.
Qed.

Lemma eqb_zero_true (c e : Z) : eqb (Dec c e) (of_int 0) = true -> c = 0.
Proof.
  unfold eqb, cmp, align, of_int. cbn [coef expo]. rewrite Z.mul_0_l.
  pose proof (pow10_pos (e - Z.min e 0) ltac:(lia)) as Hp.
  destruct (Z.compare_spec (c * 10 ^ (e - Z.min e 0)) 0) as [E|L|G];
    intros Hx; try discriminate; nia.
Qed.

(** *** The tiers *)

(** On a subtotal that is not negative the chain of comparisons of the
    code selects the tier of the table. *)
Lemma porcentaje_envio_tasa_spec (S : Decimal) :
  0 <= coef S -> tasa_spec S = Some (porcentaje_envio S).
Proof.
  destruct S as [c e]. cbn [coef]. intros Hc.
  unfold porcentaje_envio, tasa_spec.
  destruct (eqb (Dec c e) (of_int 0)) eqn:E0; [reflexivity|].
  apply eqb_zero_false in E0.
  assert (H0 : ltb (of_int 0) (Dec c e) = true) by (apply ltb_zero_pos; lia).
  rewrite H0, !leb_negb_ltb. cbn [andb].
  destruct (ltb (Dec c e) (of_int 100)); [reflexivity|]. cbn [negb andb].
  destruct (ltb (Dec c e) (of_int 500)); [reflexivity|]. cbn [negb andb].
  destruct (ltb (Dec c e) (of_int 1000)); reflexivity.
Qed.

Lemma porcentaje_envio_range (S : Decimal) : 0 <= porcentaje_envio S <= 15.
Proof.
  unfold porcentaje_envio.
  repeat match goal with |- context [if ?b then _ else _] => destruct b end; lia.
Qed.

(** Above zero the percentage does not grow with the subtotal. *)
Lemma porcentaje_envio_antitone (S1 S2 : Decimal) :
  ltb (of_int 0) S1 = true -> leb S1 S2 = true ->
  porcentaje_envio S2 <= porcentaje_envio S1.
Proof.
  intros H0 H12.
  assert (Hlt : forall B, ltb S2 (of_int B) = true -> ltb S1 (of_int B) = true)
    by (intros B; apply ltb_leb_trans; assumption).
  unfold porcentaje_envio.
  destruct (eqb S1 (of_int 0)) eqn:E1.
  { destruct S1 as [c e]. apply eqb_zero_true in E1. apply ltb_zero_pos in H0. lia. }
  destruct (eqb S2 (of_int 0)) eqn:E2.
  { repeat match goal with |- context [if ?b then _ else _] => destruct b end; lia. }
  destruct (ltb S2 (of_int 100)) eqn:L1; [rewrite (Hlt _ L1); lia|].
  destruct (ltb S2 (of_int 500)) eqn:L2.
  { rewrite (Hlt _ L2). destruct (ltb S1 (of_int 100)); lia. }
  destruct (ltb S2 (of_int 1000)) eqn:L3.
  { rewrite (Hlt _ L3). destruct (ltb S1 (of_int 100)), (ltb S1 (of_int 500)); lia. }
  repeat match goal with |- context [if ?b then _ else _] => destruct b end; lia.
Qed.

(** The percentage depends on the value of the subtotal only. *)
Lemma porcentaje_envio_eqb (S S' : Decimal) :
  eqb S S' = true -> porcentaje_envio S = porcentaje_envio S'.
Proof.
  intros H. unfold porcentaje_envio, eqb, ltb.
  rewrite !(cmp_eqb_l S S' _ H). reflexivity.
Qed.

(** *** The claims about the shipping cost *)

(** The fraction [cents_num / cents_den] depends on the value of the
    subtotal only. *)
Lemma cents_ratio_eqb (S S' : Decimal) (p : Z) :
  eqb S S' = true ->
  cents_num S p * cents_den S' = cents_num S' p * cents_den S.
Proof.
  intros H. destruct S as [c e], S' as [c' e'].
  set (m := Z.min (Z.min e e') 0).
  assert (HA : align (Dec c e) m = align (Dec c' e') m)
    by (apply eqb_align; [cbn [expo]; unfold m; lia..|exact H]).
  unfold align, cents_num, cents_den in *. cbn [coef expo] in *.
  assert (Hid : forall x, m <= x -> m <= 0 ->
            10 ^ (x - m) * 10 ^ Z.max (- x) 0 = 10 ^ Z.max x 0 * 10 ^ (- m)).
  { intros x Hx Hm. destruct (Z.le_gt_cases 0 x).
    - rewrite (Z.max_r (- x)), (Z.max_l x) by lia.
      replace (x - m) with (x + - m) by lia. rewrite pow10_split by lia.
      change (10 ^ 0) with 1. ring.
    - rewrite (Z.max_l (- x)), (Z.max_r x) by lia.
      rewrite <- pow10_split by lia. change (10 ^ 0) with 1.
      replace (x - m + - x) with (- m) by lia. ring. }
  pose proof (Hid e ltac:(lia) ltac:(lia)) as He.
  pose proof (Hid e' ltac:(lia) ltac:(lia)) as He'.
  pose proof (pow10_pos (- m) ltac:(lia)) as Hm.
  apply (Z.mul_reg_r _ _ (10 ^ (- m))); [lia|].
  transitivity (c * 10 ^ (e - m) * p * 10 ^ Z.max (- e) 0 * 10 ^ Z.max (- e') 0).
  - replace (c * p * 10 ^ Z.max e 0 * 10 ^ Z.max (- e') 0 * 10 ^ (- m))
      with (c * p * (10 ^ Z.max e 0 * 10 ^ (- m)) * 10 ^ Z.max (- e') 0) by ring.
    rewrite <- He. ring.
  - rewrite HA.
    replace (c' * p * 10 ^ Z.max e' 0 * 10 ^ Z.max (- e) 0 * 10 ^ (- m))
      with (c' * p * (10 ^ Z.max e' 0 * 10 ^ (- m)) * 10 ^ Z.max (- e) 0) by ring.
    rewrite <- He'. ring.
Qed.

Lemma eqb_nonneg (S S' : Decimal) : eqb S S' = true -> 0 <= coef S -> 0 <= coef S'.
Proof.
  intros H Hc. set (m := Z.min (expo S) (expo S')).
  pose proof (eqb_align S S' m ltac:(unfold m; lia) ltac:(unfold m; lia) H) as HA.
  unfold align in HA.
  pose proof (pow10_pos (expo S - m) ltac:(unfold m; lia)).
  pose proof (pow10_pos (expo S' - m) ltac:(unfold m; lia)).
  nia.
Qed.

(** C4, as amended: for every subtotal [S >= 0] (of at most 26
    significant digits, so that the 28-digit context does not round the
    product) the code selects the tier of the table (0% at 0, 15% below
    100, 10% from 100 and below 500, 5% from 500 and below 1000, 0% from
    1000) and returns [S * rate] as a whole number [q] of hundredths,
    rounded to the nearest, a tie going to the even hundredth
    (round-half-even, not round-half-up); in particular cost(100) = 10.00,
    cost(0) = 0.00 and cost(999.99) = 50.00. *)
Theorem calcular_costo_envio_half_even (S : Decimal)
    (Hpos : 0 <= coef S) (Hdig : ndigits (coef S) <= 26) :
  tasa_spec S = Some (porcentaje_envio S) /\
  (exists q, calcular_costo_envio S = Some (Dec q (-2)) /\
     nearest_even (cents_num S (porcentaje_envio S)) (cents_den S) q) /\
  calcular_costo_envio (of_int 100) = Some (Dec 1000 (-2)) /\
  calcular_costo_envio (of_int 0) = Some (Dec 0 (-2)) /\
  calcular_costo_envio (Dec 99999 (-2)) = Some (Dec 5000 (-2)).
Proof.
  split; [apply porcentaje_envio_tasa_spec; assumption|].
  split; [apply calcular_costo_envio_cents; assumption|].
  repeat split; vm_compute; reflexivity.
Qed.

(** C4 as the specification words it fails: a subtotal of 100.05 is in
    the 10% tier, the product is 10.005, and the code returns 10.00 where
    rounding half-up gives 10.01. *)
Lemma calcular_costo_envio_not_half_up :
  calcular_costo_envio (Dec 10005 (-2)) = Some (Dec 1000 (-2)) /\
  costo_envio_spec (Dec 10005 (-2)) = Some (Dec 1001 (-2)) /\
  calcular_costo_envio (Dec 10005 (-2)) <> costo_envio_spec (Dec 10005 (-2)).
Proof.
  split; [vm_compute; reflexivity|].
  split; [vm_compute; reflexivity|].
  vm_compute. discriminate.
Qed.

(** Why the bound on the digits: on a subtotal of 31 digits just above
    100.05 the context first rounds the product to 28 digits, which makes
    it the tie 10.005, and quantizing then goes down to 10.00, although
    the exact product is nearer to 10.01. *)
Example calcular_costo_envio_redondea_dos_veces :
  let S := Dec 1000500000000000000000000000001 (-28) in
  calcular_costo_envio S = Some (Dec 1000 (-2)) /\
  nearest_even (cents_num S 10) (cents_den S) 1001 /\
  ~ nearest_even (cents_num S 10) (cents_den S) 1000.
Proof.
  cbv zeta. split; [vm_compute; reflexivity|]. split.
  - split; vm_compute; discriminate.
  - intros [H _]. vm_compute in H. exact (H eq_refl).
Qed.

(** C5, as amended: for every subtotal [S >= 0] (of at most 26
    significant digits) the cost is determined by the value of [S] (any
    two invocations on equal subtotals return the same amount), is not
    negative, is at most 15% of [S] plus half a hundredth (rounding to
    two places can add up to 0.005, so 15% of [S] itself can be
    exceeded), and above zero the percentage of the tier does not grow
    with [S]. *)
Theorem calcular_costo_envio_bounds (S : Decimal)
    (Hpos : 0 <= coef S) (Hdig : ndigits (coef S) <= 26) :
  exists costo, calcular_costo_envio S = Some costo /\
    (forall S', eqb S S' = true -> ndigits (coef S') <= 26 ->
       calcular_costo_envio S' = Some costo) /\
    leb (of_int 0) costo = true /\
    leb costo (add_exact (mul_exact S (Dec 15 (-2))) (Dec 5 (-3))) = true /\
    (forall S2, ltb (of_int 0) S = true -> leb S S2 = true ->
       porcentaje_envio S2 <= porcentaje_envio S).
Proof.
  destruct (calcular_costo_envio_cents S Hpos Hdig) as (q & Hq & Hn).
  exists (Dec q (-2)). split; [exact Hq|].
  pose proof (cents_den_pos S) as Hden.
  pose proof (porcentaje_envio_range S) as Hp.
  assert (Hq0 : 0 <= q).
  { destruct Hn as [Hn _]. unfold cents_num in Hn.
    assert (0 <= coef S * porcentaje_envio S * 10 ^ Z.max (expo S) 0).
    { pose proof (pow10_pos (Z.max (expo S) 0) ltac:(lia)). nia. }
    nia. }
  split; [|split; [|split]].
  - intros S' HE Hd'.
    destruct (calcular_costo_envio_cents S' (eqb_nonneg _ _ HE Hpos) Hd')
      as (q' & Hq' & Hn').
    rewrite Hq'. f_equal. f_equal.
    rewrite <- (porcentaje_envio_eqb _ _ HE) in Hn'.
    symmetry. eapply (nearest_even_ratio _ _ q _ _ q');
      [exact Hden|apply cents_den_pos| |exact Hn|exact Hn'].
    apply cents_ratio_eqb. exact HE.
  - unfold leb, cmp, align, of_int. cbn [coef expo]. rewrite Z.mul_0_l.
    pose proof (pow10_pos (-2 - Z.min 0 (-2)) ltac:(lia)).
    destruct (Z.compare_spec 0 (q * 10 ^ (-2 - Z.min 0 (-2)))); try reflexivity. nia.
  - destruct S as [c e]. cbn [coef expo] in *.
    unfold cents_num, cents_den, nearest_even in *. cbn [coef expo] in *.
    destruct Hn as [Hn _]. revert Hn. generalize (porcentaje_envio (Dec c e)) Hp.
    intros p Hp' Hn.
    unfold leb. rewrite (cmp_align _ _ (Z.min (e - 2) (-3))).
    2:{ cbn [expo]. lia. }
    2:{ unfold add_exact, mul_exact. cbn [coef expo]. lia. }
    unfold add_exact, mul_exact, align. cbn [coef expo].
    set (m := Z.min (e + -2) (-3)).
    replace (Z.min (e - 2) (-3)) with m by (unfold m; lia).
    replace (m - m) with 0 by lia. change (10 ^ 0) with 1. rewrite Z.mul_1_r.
    destruct (Z.le_gt_cases 0 e) as [He|He].
    + assert (Em : m = -3) by (unfold m; lia). rewrite Em.
      rewrite (Z.max_l e), (Z.max_r (- e)) in Hn by lia.
      change (10 ^ 0) with 1 in Hn. change (10 ^ (-2 - -3)) with 10.
      change (10 ^ (-3 - -3)) with 1.
      replace (e + -2 - -3) with (e + 1) by lia.
      rewrite pow10_split by lia. change (10 ^ 1) with 10.
      pose proof (pow10_pos e He).
      match goal with |- match ?x ?= ?y with _ => _ end = true =>
        destruct (Z.compare_spec x y); try reflexivity; nia end.
    + assert (Em : m = e + -2) by (unfold m; lia). rewrite Em.
      rewrite (Z.max_r e), (Z.max_l (- e)) in Hn by lia.
      change (10 ^ 0) with 1 in Hn.
      replace (-2 - (e + -2)) with (- e) by lia.
      replace (e + -2 - (e + -2)) with 0 by lia. change (10 ^ 0) with 1.
      replace (-3 - (e + -2)) with (- e - 1) by lia.
      assert (E10 : 10 ^ (- e) = 10 * 10 ^ (- e - 1)).
      { replace (- e) with (1 + (- e - 1)) at 1 by lia.
        rewrite pow10_split by lia. reflexivity. }
      pose proof (pow10_pos (- e - 1) ltac:(lia)).
      rewrite E10 in *.
      match goal with |- match ?x ?= ?y with _ => _ end = true =>
        destruct (Z.compare_spec x y); try reflexivity; nia end.
  - intros S2. apply porcentaje_envio_antitone.
Qed.

Lemma calcular_costo_envio_bounds_witness :
  0 <= coef (Dec 9999 (-2)) /\ ndigits (coef (Dec 9999 (-2))) <= 26 /\
  exists costo, calcular_costo_envio (Dec 9999 (-2)) = Some costo /\
    leb (of_int 0) costo = true /\
    leb costo (add_exact (mul_exact (Dec 9999 (-2)) (Dec 15 (-2))) (Dec 5 (-3))) = true.
Proof.
  assert (H1 : 0 <= coef (Dec 9999 (-2))) by (cbn; lia).
  assert (H2 : ndigits (coef (Dec 9999 (-2))) <= 26) by (vm_compute; discriminate).
  split; [exact H1|]. split; [exact H2|].
  destruct (calcular_costo_envio_bounds (Dec 9999 (-2)) H1 H2)
    as (costo & Hc & _ & Hn & Hb & _).
  exists costo. auto.
Defined.

(** C5 as the specification words it fails: on a subtotal of 99.99 the
    cost is 15.00, which is more than 15% of 99.99 (14.9985). *)
Lemma calcular_costo_envio_exceeds_15_percent :
  calcular_costo_envio (Dec 9999 (-2)) = Some (Dec 1500 (-2)) /\
  mul_exact (Dec 9999 (-2)) (Dec 15 (-2)) = Dec 149985 (-4) /\
  leb (Dec 1500 (-2)) (mul_exact (Dec 9999 (-2)) (Dec 15 (-2))) = false.
Proof. repeat split; vm_compute; reflexivity. Qed.

(** ** The confirmation view *)

Section HechosVerificar.

Variable env : Entorno.

(** The view in terms of the block of the transaction. *)
Lemma verificar_sesion_checkout_run (req : Request) (db : DB) :
  verificar_sesion_checkout env req db =
  match preparar env req with
  | inl respuesta => (respuesta, db)
  | inr ped =>
      match materializar env ped db with
      | (inl e, _) => (mkResponse 500 (ErrProcesarPedido e), db)
      | (inr _, db') => (mkResponse 200 PedidoCreado, db')
      end
  end.
Proof.
  unfold verificar_sesion_checkout, atomic.
  destruct (preparar env req) as [r|ped]; [reflexivity|].
  destruct (materializar env ped db) as [[e|[]] db']; reflexivity.
Qed.

(** Every response returned before the transaction is an error. *)
Lemma preparar_error (req : Request) (r : Response) :
  preparar env req = inl r -> status r = 400 \/ status r = 500.
Proof.
  unfold preparar. intros H.
  repeat (case_match; simplify_eq; cbn [status]; auto).
Qed.

(** *** The loop over the lines *)

Lemma lift_run {E A} (r : E + A) (db : DB) : lift r db = (r, db).
Proof. destruct r; reflexivity. Qed.

Lemma lift_dec_run {A} (e : Exn) (r : option A) (db : DB) :
  lift_dec e r db = (match r with Some a => inr a | None => inl e end, db).
Proof. destruct r; reflexivity. Qed.

Lemma producto_get_run (v : json) (db : DB) :
  producto_get env v db =
  (match pk_de env v with
   | inl e => inl e
   | inr pk =>
       match pk ≫= fun k => (fun p => (k, p)) <$> productos db !! k with
       | Some fila => inr fila
       | None => inl (DoesNotExist "Producto")
       end
   end, db).
Proof.
  unfold producto_get, mbind, M_bind, lift, leer, raise, mret, M_ret.
  destruct (pk_de env v) as [e|pk]; [reflexivity|].
  repeat case_match; reflexivity.
Qed.

(** The loop does not write; when it ends without an exception every
    line was read from the table as it is and passed the stock check, and
    the accumulators hold what the lines add. *)
Lemma procesar_items_ok (car : Z) (items : list json) :
  forall s ds ps db s' ds' ps' db1,
    procesar_items env car items (s, ds, ps) db = (inr (s', ds', ps'), db1) ->
    db1 = db /\
    exists lineas,
      Forall2 (linea_valida env (productos db)) items lineas /\
      s' = fold_left sumar_linea lineas s /\
      ds' = ds ++ map (detalle_de car) lineas /\
      ps' = ps ++ map objeto_de lineas.
Proof.
  induction items as [|item resto IH]; intros s ds ps db s' ds' ps' db1 H.
  - cbn in H. inversion H; subst. split; [reflexivity|].
    exists []. rewrite !app_nil_r. repeat split; constructor.
  - cbn [procesar_items] in H. unfold mbind, M_bind in H.
    rewrite lift_run in H.
    destruct (item_get item "producto_id") as [?|v1] eqn:E1; [discriminate|].
    rewrite producto_get_run in H.
    destruct (pk_de env v1) as [?|pk] eqn:E2; [discriminate|].
    destruct (pk ≫= fun k : Z => (fun p : Producto => (k, p)) <$> productos db !! k)
      as [[pid producto]|] eqn:E3; [|discriminate].
    rewrite lift_run in H.
    destruct (item_get item "cantidad") as [?|v2] eqn:E4; [discriminate|].
    rewrite lift_run in H.
    destruct (py_int env v2) as [?|q] eqn:E5; [discriminate|].
    destruct (Z.ltb_spec (prod_stock producto) q) as [?|Hq]; [discriminate|].
    apply IH in H as (-> & lineas & HF & -> & -> & ->).
    split; [reflexivity|]. exists (mkLinea pid producto q :: lineas).
    split; [|split; [|split]].
    + constructor; [|exact HF]. split; [|exact Hq].
      unfold leer_linea. rewrite E1, E2.
      rewrite E3, E4, E5. reflexivity.
    + reflexivity.
    + cbn [map]. rewrite <- app_assoc. reflexivity.
    + cbn [map]. rewrite <- app_assoc. reflexivity.
Qed.

(** *** The two halves of the transaction *)

Lemma cliente_get_run (u : string) (db : DB) :
  cliente_get env u db =
  (match pk_de env (JStr u) with
   | inl e => inl e
   | inr pk =>
       match pk ≫= fun k => (fun c => (k, c)) <$> clientes db !! k with
       | Some fila => inr fila
       | None => inl (DoesNotExist "Cliente")
       end
   end, db).
Proof.
  unfold cliente_get, mbind, M_bind, lift, leer, raise, mret, M_ret.
  destruct (pk_de env (JStr u)) as [e|pk]; [reflexivity|].
  repeat case_match; reflexivity.
Qed.

Lemma tienda_get_run (t : string) (db : DB) :
  tienda_get env t db =
  (match pk_de env (JStr t) with
   | inl e => inl e
   | inr pk =>
       match pk ≫= fun k => (fun c => (k, c)) <$> tiendas db !! k with
       | Some fila => inr fila
       | None => inl (DoesNotExist "Tienda")
       end
   end, db).
Proof.
  unfold tienda_get, mbind, M_bind, lift, leer, raise, mret, M_ret.
  destruct (pk_de env (JStr t)) as [e|pk]; [reflexivity|].
  repeat case_match; reflexivity.
Qed.

Lemma pk_lookup_Some {A} (pk : option Z) (tabla : gmap Z A) (k : Z) (a : A) :
  (pk ≫= fun k => (fun c => (k, c)) <$> tabla !! k) = Some (k, a) ->
  pk = Some k /\ tabla !! k = Some a.
Proof.
  destruct pk as [k'|]; [|discriminate]. cbn.
  destruct (tabla !! k') as [a'|] eqn:E; [|discriminate].
  cbn. intros H. inversion H; subst. auto.
Qed.

(** [get_or_create] in one equation: it raises only on a key that is
    not a number or when the pair already has several rows. *)
Lemma tienda_cliente_get_or_create_run (t : Z) (u : string) (db : DB) :
  tienda_cliente_get_or_create env t u db =
  match pk_de env (JStr u) with
  | inl e => (inl e, db)
  | inr None => (inl (DoesNotExist "Cliente"), db)
  | inr (Some c) =>
      match List.filter (es_asociacion t c) (tienda_clientes db) with
      | [] => (inr (mkTiendaCliente t c, true),
               set_tienda_clientes (fun l => l ++ [mkTiendaCliente t c]) db)
      | [tc] => (inr (tc, false), db)
      | _ => (inl (MultipleObjectsReturned "TiendaCliente"), db)
      end
  end.
Proof.
  unfold tienda_cliente_get_or_create, mbind, M_bind, lift, leer, raise, mret,
    M_ret, escribir.
  destruct (pk_de env (JStr u)) as [e|[c|]]; [reflexivity| |reflexivity].
  destruct (List.filter _ _) as [|tc [|tc' l]]; reflexivity.
Qed.

Lemma persistir_ok (ped : Pedido) (rc : Recalculo) (db : DB) :
  exists db', persistir ped rc db = (inr tt, db') /\
    ventas db' = <[next_pk (ventas db) :=
      mkVenta (ped_total_pagado ped) "PROCESADA" (fst (rc_tienda rc))
        (fst (rc_cliente rc)) (rc_nuevo_carrito rc)]> (ventas db) /\
    pagos db' = <[next_pk (pagos db) :=
      mkPago (next_pk (ventas db)) (fst (rc_tienda rc)) (ped_stripe_payment_id ped)
        (ped_total_pagado ped) "COMPLETADO"]> (pagos db) /\
    envios db' = <[next_pk (envios db) :=
      mkEnvio (next_pk (ventas db)) (fst (rc_tienda rc)) (ped_direccion_entrega ped)
        "EN_PREPARACION"]> (envios db) /\
    detalles_carrito db' = detalles_carrito db ++ rc_detalles_carrito rc /\
    detalles_venta db' = detalles_venta db ++
      map (fun item => mkDetalle_Venta (next_pk (ventas db)) (dc_producto item)
             (dc_cantidad item) (dc_precio_unitario item)) (rc_detalles_carrito rc) /\
    productos db' = producto_bulk_update_stock (rc_para_stock rc) (productos db) /\
    clientes db' = alter (fun _ => mkCliente
        (add (puntos_acumulados (snd (rc_cliente rc)))
           (mul (ped_total_pagado ped) (Dec 5 (-4)))))
      (fst (rc_cliente rc)) (clientes db) /\
    carritos db' = carritos db /\
    tiendas db' = tiendas db /\
    tienda_clientes db' = tienda_clientes db /\
    bitacora db' = bitacora db ++
      [mkBitacora (fst (rc_cliente rc))
         (CompraProcesada (next_pk (ventas db)) (ped_total_pagado ped)
            (tienda_nombre (snd (rc_tienda rc))))].
Proof.
  unfold persistir. destruct (rc_cliente rc) as [cid cli], (rc_tienda rc) as [tid tnd].
  unfold venta_create, pago_create, envio_create, cliente_save_puntos, log_action,
    mbind, M_bind, escribir, leer, mret, M_ret.
  eexists. split; [reflexivity|]. repeat split.
Qed.

Lemma carrito_create_run (c : Carrito) (db : DB) :
  carrito_create c db =
  (inr (next_pk (carritos db)), set_carritos (insert (next_pk (carritos db)) c) db).
Proof. reflexivity. Qed.

(** The first half, when it ends without an exception. *)
Lemma recalcular_ok (ped : Pedido) (db db1 : DB) (rc : Recalculo) :
  recalcular env ped db = (inr rc, db1) ->
  exists cid cli tid tnd items lineas costo,
    pk_de env (JStr (ped_user_id ped)) = inr (Some cid) /\
    clientes db !! cid = Some cli /\
    pk_de env (JStr (ped_tienda_id ped)) = inr (Some tid) /\
    tiendas db !! tid = Some tnd /\
    (asociaciones tid cid db <= 1)%nat /\
    py_iter (ped_items_data ped) = inr items /\
    Forall2 (linea_valida env (productos db)) items lineas /\
    calcular_costo_envio (fold_left sumar_linea lineas (Dec 0 (-2))) = Some costo /\
    rc = mkRecalculo (cid, cli) (tid, tnd) (next_pk (carritos db))
           (map (detalle_de (next_pk (carritos db))) lineas)
           (map objeto_de lineas)
           (fold_left sumar_linea lineas (Dec 0 (-2)))
           (add (fold_left sumar_linea lineas (Dec 0 (-2))) costo) /\
    db1 = set_carritos
            (insert (next_pk (carritos db))
               (mkCarrito cid tid (ped_total_pagado ped)))
            (set_tienda_clientes (asociar tid cid) db).
Proof.
  intros H. unfold recalcular, mbind, M_bind in H.
  rewrite cliente_get_run in H.
  destruct (pk_de env (JStr (ped_user_id ped))) as [?|pkc] eqn:Ec; [discriminate|].
  destruct (pkc ≫= fun k : Z => (fun c : Cliente => (k, c)) <$> clientes db !! k)
    as [[cid cli]|] eqn:Ecl; [|discriminate].
  apply pk_lookup_Some in Ecl as [-> Hcli].
  rewrite tienda_get_run in H.
  destruct (pk_de env (JStr (ped_tienda_id ped))) as [?|pkt] eqn:Et; [discriminate|].
  destruct (pkt ≫= fun k : Z => (fun c : Tienda => (k, c)) <$> tiendas db !! k)
    as [[tid tnd]|] eqn:Etn; [|discriminate].
  apply pk_lookup_Some in Etn as [-> Htnd].
  rewrite tienda_cliente_get_or_create_run, Ec in H.
  assert (Hasoc : exists r dba,
    match List.filter (es_asociacion tid cid) (tienda_clientes db) with
    | [] => (inr (mkTiendaCliente tid cid, true),
             set_tienda_clientes (fun l => l ++ [mkTiendaCliente tid cid]) db)
    | [tc] => (inr (tc, false), db)
    | _ => (inl (MultipleObjectsReturned "TiendaCliente"), db)
    end = (r, dba) /\
    (forall x, r = inr x ->
       (asociaciones tid cid db <= 1)%nat /\
       dba = set_tienda_clientes (asociar tid cid) db)).
  { unfold asociaciones, asociar, set_tienda_clientes.
    destruct (List.filter (es_asociacion tid cid) (tienda_clientes db))
      as [|tc [|tc' l]]; eexists _, _; (split; [reflexivity|]); intros x Hx;
      try discriminate; cbn [length]; (split; [lia|]).
    - reflexivity.
    - destruct db; reflexivity. }
  destruct Hasoc as (r & dba & Er & Hr). rewrite Er in H.
  destruct r as [?|x]; [discriminate|].
  destruct (Hr x eq_refl) as [Hle ->]. clear Hr Er.
  rewrite carrito_create_run in H. cbn [carritos set_tienda_clientes] in H.
  rewrite lift_run in H.
  destruct (py_iter (ped_items_data ped)) as [?|items] eqn:Ei; [discriminate|].
  match type of H with
  | context [procesar_items ?e ?c ?i ?a ?d] =>
      destruct (procesar_items e c i a d) as [[?|[[s' ds'] ps']] db2] eqn:Ep;
        [discriminate|]
  end.
  apply procesar_items_ok in Ep as (-> & lineas & HF & -> & -> & ->).
  rewrite lift_dec_run in H.
  destruct (calcular_costo_envio (fold_left sumar_linea lineas (Dec 0 (-2))))
    as [costo|] eqn:Eco; [|discriminate].
  unfold mret, M_ret in H. inversion H; subst; clear H.
  exists cid, cli, tid, tnd, items, lineas, costo.
  repeat split; try assumption.
Qed.

(** The block of the transaction, when it ends without an exception:
    both halves ran and the two totals agree at two places. *)
Lemma materializar_ok (ped : Pedido) (db db' : DB) :
  materializar env ped db = (inr tt, db') ->
  exists rc dbr calculado cobrado,
    recalcular env ped db = (inr rc, dbr) /\
    quantize (rc_total_final_seguro rc) (Dec 1 (-2)) = Some calculado /\
    quantize (ped_total_pagado ped) (Dec 1 (-2)) = Some cobrado /\
    eqb calculado cobrado = true /\
    persistir ped rc dbr = (inr tt, db').
Proof.
  intros H. unfold materializar, mbind, M_bind in H.
  destruct (recalcular env ped db) as [[?|rc] dbr] eqn:Er; [discriminate|].
  rewrite lift_dec_run in H.
  destruct (quantize (rc_total_final_seguro rc) (Dec 1 (-2))) as [a|] eqn:Ea;
    [|discriminate].
  rewrite lift_dec_run in H.
  destruct (quantize (ped_total_pagado ped) (Dec 1 (-2))) as [b|] eqn:Eb;
    [|discriminate].
  destruct (eqb a b) eqn:Eab; cbn [negb] in H; [|discriminate].
  exists rc, dbr, a, b. auto.
Qed.

(** The block raises the discrepancy when the two totals differ. *)
Lemma materializar_discrepancia (ped : Pedido) (db dbr : DB) (rc : Recalculo)
    (calculado cobrado : Decimal) :
  recalcular env ped db = (inr rc, dbr) ->
  quantize (rc_total_final_seguro rc) (Dec 1 (-2)) = Some calculado ->
  quantize (ped_total_pagado ped) (Dec 1 (-2)) = Some cobrado ->
  eqb calculado cobrado = false ->
  materializar env ped db =
    (inl (DiscrepanciaTotal (ped_total_pagado ped) (rc_total_final_seguro rc)), dbr).
Proof.
  intros Er Ea Eb Eab. unfold materializar, mbind, M_bind.
  rewrite Er, lift_dec_run, Ea, lift_dec_run, Eb, Eab. reflexivity.
Qed.

(** *** The stock after [bulk_update] *)

Lemma leer_linea_tabla (tabla : gmap Z Producto) (item : json) (l : Linea) :
  leer_linea env tabla item = inr l -> tabla !! lin_pid l = Some (lin_producto l).
Proof.
  unfold leer_linea. intros H.
  destruct (item_get item "producto_id") as [?|v]; [discriminate|].
  destruct (pk_de env v) as [?|pk]; [discriminate|].
  destruct (pk ≫= fun k : Z => (fun p : Producto => (k, p)) <$> tabla !! k)
    as [[k p]|] eqn:E; [|discriminate].
  apply pk_lookup_Some in E as [_ E].
  destruct (item_get item "cantidad") as [?|c]; [discriminate|].
  destruct (py_int env c) as [?|q]; [discriminate|].
  inversion H; subst. exact E.
Qed.

Lemma producto_bulk_update_stock_lookup (lineas : list Linea)
    (tabla : gmap Z Producto) (k : Z) :
  producto_bulk_update_stock (map objeto_de lineas) tabla !! k =
  match primera_linea k lineas with
  | Some l =>
      con_stock (prod_stock (lin_producto l) - lin_cantidad l) <$> tabla !! k
  | None => tabla !! k
  end.
Proof.
  induction lineas as [|l resto IH]; [reflexivity|].
  unfold producto_bulk_update_stock, primera_linea in *.
  cbn [map foldr List.find objeto_de fst snd].
  destruct (Z.eqb_spec (lin_pid l) k) as [->|Hne].
  - rewrite lookup_alter_eq, IH.
    destruct (List.find _ resto); [|reflexivity].
    destruct (tabla !! _); reflexivity.
  - rewrite lookup_alter_ne by exact Hne. exact IH.
Qed.

Lemma primera_linea_elem (k : Z) (lineas : list Linea) (l : Linea) :
  primera_linea k lineas = Some l -> l ∈ lineas /\ lin_pid l = k.
Proof.
  unfold primera_linea. intros H. apply find_some in H as [Hin Hk].
  split; [apply list_elem_of_In; exact Hin|lia].
Qed.

Lemma primera_linea_None (k : Z) (lineas : list Linea) (l : Linea) :
  primera_linea k lineas = None -> l ∈ lineas -> lin_pid l <> k.
Proof.
  unfold primera_linea. intros H Hin Hk.
  apply list_elem_of_In in Hin.
  pose proof (find_none _ _ H l Hin) as Hf. cbn in Hf. lia.
Qed.

Lemma Forall2_linea_valida_elem (tabla : gmap Z Producto) (items : list json)
    (lineas : list Linea) (l : Linea) :
  Forall2 (linea_valida env tabla) items lineas -> l ∈ lineas ->
  tabla !! lin_pid l = Some (lin_producto l) /\
  lin_cantidad l <= prod_stock (lin_producto l).
Proof.
  intros HF Hin. apply list_elem_of_lookup in Hin as [i Hi].
  destruct (Forall2_lookup_r _ _ _ _ _ HF Hi) as (item & _ & Hl & Hq).
  split; [eapply leer_linea_tabla; exact Hl|exact Hq].
Qed.

(** *** New keys *)

Lemma foldr_max_ge (l : list Z) (x : Z) : x ∈ l -> x <= foldr Z.max 0 l.
Proof.
  induction l as [|y l IH]; intros Hin.
  - inversion Hin.
  - cbn [foldr]. apply elem_of_cons in Hin as [->|Hin]; [lia|].
    specialize (IH Hin). lia.
Qed.

(** The key [create] takes is not in the table. *)
Lemma next_pk_fresh {A} (tabla : gmap Z A) : tabla !! next_pk tabla = None.
Proof.
  destruct (tabla !! next_pk tabla) as [a|] eqn:E; [exfalso|reflexivity].
  assert (Hin : next_pk tabla ∈ elements (dom tabla)).
  { apply elem_of_elements, elem_of_dom. eauto. }
  apply foldr_max_ge in Hin. unfold next_pk in Hin at 1. lia.
Qed.

(** *** All or nothing *)

(** The two outcomes of the view: an error with the database as it was,
    or the success after the whole block. *)
Lemma verificar_sesion_checkout_casos (req : Request) (db : DB) :
  (status (fst (verificar_sesion_checkout env req db)) <> 200 ->
     snd (verificar_sesion_checkout env req db) = db) /\
  (status (fst (verificar_sesion_checkout env req db)) = 200 ->
     exists ped rc dbr,
       preparar env req = inr ped /\
       materializar env ped db =
         (inr tt, snd (verificar_sesion_checkout env req db)) /\
       recalcular env ped db = (inr rc, dbr)).
Proof.
  rewrite verificar_sesion_checkout_run. split.
  - destruct (preparar env req) as [r|ped]; [reflexivity|].
    destruct (materializar env ped db) as [[e|[]] db']; cbn; [reflexivity|lia].
  - destruct (preparar env req) as [r|ped] eqn:Ep.
    { cbn. intros Hs. apply preparar_error in Ep. lia. }
    destruct (materializar env ped db) as [[e|[]] db'] eqn:Em; cbn [fst snd status];
      [intros Hs; lia|intros _].
    destruct (materializar_ok _ _ _ Em) as (rc & dbr & a & b & Hr & _).
    exists ped, rc, dbr. split; [reflexivity|]. split; [exact Em|exact Hr].
Qed.

(** C1: the materialization is all-or-nothing.  Whatever exception [e]
    the block of the transaction raises, and whatever it had written by
    then, the view answers with the error and leaves the database as it
    found it: no Venta, Carrito, Detalle_Carrito, Detalle_Venta, Pago or
    Envio row, no stock and no points balance differ.  The database
    differs from the one before only when the response is the success,
    and then every step of the block ran: the new order, its payment and
    its shipment are there under keys that were free, the detail rows are
    appended. *)
Theorem verificar_sesion_checkout_all_or_nothing (req : Request) (db : DB) :
  (forall ped e parcial,
     preparar env req = inr ped ->
     materializar env ped db = (inl e, parcial) ->
     verificar_sesion_checkout env req db =
       (mkResponse 500 (ErrProcesarPedido e), db)) /\
  (status (fst (verificar_sesion_checkout env req db)) <> 200 ->
     snd (verificar_sesion_checkout env req db) = db) /\
  (status (fst (verificar_sesion_checkout env req db)) = 200 ->
     exists ped rc dbr,
       preparar env req = inr ped /\
       materializar env ped db =
         (inr tt, snd (verificar_sesion_checkout env req db)) /\
       recalcular env ped db = (inr rc, dbr) /\
       let db' := snd (verificar_sesion_checkout env req db) in
       let venta := next_pk (ventas db) in
       ventas db !! venta = None /\
       ventas db' = <[venta :=
         mkVenta (ped_total_pagado ped) "PROCESADA" (fst (rc_tienda rc))
           (fst (rc_cliente rc)) (rc_nuevo_carrito rc)]> (ventas db) /\
       pagos db !! next_pk (pagos db) = None /\
       pagos db' = <[next_pk (pagos db) :=
         mkPago venta (fst (rc_tienda rc)) (ped_stripe_payment_id ped)
           (ped_total_pagado ped) "COMPLETADO"]> (pagos db) /\
       envios db !! next_pk (envios db) = None /\
       envios db' = <[next_pk (envios db) :=
         mkEnvio venta (fst (rc_tienda rc)) (ped_direccion_entrega ped)
           "EN_PREPARACION"]> (envios db) /\
       carritos db' = <[rc_nuevo_carrito rc :=
         mkCarrito (fst (rc_cliente rc)) (fst (rc_tienda rc))
           (ped_total_pagado ped)]> (carritos db) /\
       detalles_carrito db' = detalles_carrito db ++ rc_detalles_carrito rc /\
       length (detalles_venta db') =
         (length (detalles_venta db) + length (rc_detalles_carrito rc))%nat).
Proof.
  rewrite verificar_sesion_checkout_run.
  split; [|split].
  - intros ped e parcial -> ->. reflexivity.
  - destruct (preparar env req) as [r|ped]; [reflexivity|].
    destruct (materializar env ped db) as [[e|[]] db']; cbn; [reflexivity|lia].
  - destruct (preparar env req) as [r|ped] eqn:Ep.
    { cbn. intros Hs. apply preparar_error in Ep. lia. }
    destruct (materializar env ped db) as [[e|[]] db'] eqn:Em; cbn [fst snd status];
      [intros Hs; lia|intros _].
    destruct (materializar_ok _ _ _ Em) as (rc & dbr & a & b & Hr & _ & _ & _ & Hp).
    exists ped, rc, dbr. split; [reflexivity|]. split; [exact Em|].
    split; [exact Hr|].
    destruct (recalcular_ok _ _ _ _ Hr)
      as (cid & cli & tid & tnd & items & lineas & costo & _ & _ & _ & _ & _ & _ & _ & _ & -> & ->).
    destruct (persistir_ok ped
      (mkRecalculo (cid, cli) (tid, tnd) (next_pk (carritos db))
         (map (detalle_de (next_pk (carritos db))) lineas) (map objeto_de lineas)
         (fold_left sumar_linea lineas (Dec 0 (-2)))
         (add (fold_left sumar_linea lineas (Dec 0 (-2))) costo))
      (set_carritos (insert (next_pk (carritos db)) (mkCarrito cid tid (ped_total_pagado ped)))
         (set_tienda_clientes (asociar tid cid) db)))
      as (db'' & Hp' & Hv & Hpg & Hen & Hdc & Hdv & _ & _ & Hca & _).
    rewrite Hp in Hp'. inversion Hp'; subst db''. clear Hp'.
    cbn [rc_cliente rc_tienda rc_nuevo_carrito rc_detalles_carrito fst snd
         ventas pagos envios carritos detalles_carrito detalles_venta
         set_carritos set_tienda_clientes] in *.
    repeat split; try apply next_pk_fresh; try assumption.
    rewrite Hdv, length_app, length_map. reflexivity.
Qed.

(** *** The discrepancy of totals *)

(** C2: at confirmation the total is re-derived from the rows of the
    products as they are now (the sum over the lines of price times
    quantity, plus the shipping cost of that sum) and compared at two
    decimal places with the amount Stripe charged.  For every run that
    reaches the comparison: when the two quantized amounts differ, the
    view answers with the discrepancy error and the database is as
    before; only when they are equal does the confirmation go on to
    create the order. *)
Theorem verificar_sesion_checkout_discrepancy (req : Request) (db dbr : DB)
    (ped : Pedido) (rc : Recalculo) (calculado cobrado : Decimal)
    (Hprep : preparar env req = inr ped)
    (Hrec : recalcular env ped db = (inr rc, dbr))
    (Hcalc : quantize (rc_total_final_seguro rc) (Dec 1 (-2)) = Some calculado)
    (Hcob : quantize (ped_total_pagado ped) (Dec 1 (-2)) = Some cobrado) :
  (exists items lineas costo,
     py_iter (ped_items_data ped) = inr items /\
     Forall2 (linea_valida env (productos db)) items lineas /\
     rc_subtotal_seguro rc = fold_left sumar_linea lineas (Dec 0 (-2)) /\
     calcular_costo_envio (rc_subtotal_seguro rc) = Some costo /\
     rc_total_final_seguro rc = add (rc_subtotal_seguro rc) costo) /\
  expo calculado = -2 /\ expo cobrado = -2 /\
  eqb calculado cobrado = (coef calculado =? coef cobrado) /\
  (eqb calculado cobrado = false ->
     verificar_sesion_checkout env req db =
       (mkResponse 500
          (ErrProcesarPedido
             (DiscrepanciaTotal (ped_total_pagado ped) (rc_total_final_seguro rc))),
        db)) /\
  (status (fst (verificar_sesion_checkout env req db)) = 200 ->
     eqb calculado cobrado = true).
Proof.
  split; [|split; [|split; [|split; [|split]]]].
  - destruct (recalcular_ok _ _ _ _ Hrec)
      as (cid & cli & tid & tnd & items & lineas & costo
          & _ & _ & _ & _ & _ & Hi & HF & Hco & -> & _).
    exists items, lineas, costo. cbn [rc_subtotal_seguro rc_total_final_seguro]. auto.
  - apply (quantize_expo _ _ _ Hcalc).
  - apply (quantize_expo _ _ _ Hcob).
  - pose proof (quantize_expo _ _ _ Hcalc) as E1.
    pose proof (quantize_expo _ _ _ Hcob) as E2.
    destruct calculado as [a ea], cobrado as [b eb]. cbn [expo coef] in *.
    subst ea eb. apply eqb_same_expo.
  - intros Hne. rewrite verificar_sesion_checkout_run, Hprep.
    rewrite (materializar_discrepancia _ _ _ _ _ _ Hrec Hcalc Hcob Hne). reflexivity.
  - rewrite verificar_sesion_checkout_run, Hprep.
    destruct (materializar env ped db) as [[e|[]] db'] eqn:Em; cbn [fst status];
      [intros Hs; lia|intros _].
    destruct (materializar_ok _ _ _ Em) as (rc' & dbr' & a & b & Hr & Ha & Hb & Hab & _).
    rewrite Hrec in Hr. inversion Hr; subst rc' dbr'.
    rewrite Hcalc in Ha. rewrite Hcob in Hb. inversion Ha; inversion Hb; subst.
    exact Hab.
Qed.

(** *** The stock *)

(** What a committed confirmation does to the table of products: every
    line was read from the table as it was before the confirmation and
    had at least its quantity in stock, and the row of a product is the
    one of its first line, with the stock less the quantity of that
    line. *)
Lemma verificar_sesion_checkout_productos (req : Request) (db : DB) :
  status (fst (verificar_sesion_checkout env req db)) = 200 ->
  exists ped items lineas,
    preparar env req = inr ped /\
    py_iter (ped_items_data ped) = inr items /\
    Forall2 (linea_valida env (productos db)) items lineas /\
    forall k,
      productos (snd (verificar_sesion_checkout env req db)) !! k =
      match primera_linea k lineas with
      | Some l =>
          Some (con_stock (prod_stock (lin_producto l) - lin_cantidad l)
                  (lin_producto l))
      | None => productos db !! k
      end.
Proof.
  intros Hs.
  destruct (verificar_sesion_checkout_casos req db) as (_ & Hok).
  destruct (Hok Hs) as (ped & rc & dbr & Hp & Hm & Hr).
  destruct (materializar_ok _ _ _ Hm) as (rc' & dbr' & a & b & Hr' & _ & _ & _ & Hpe).
  rewrite Hr in Hr'. inversion Hr'; subst rc' dbr'. clear Hr'.
  destruct (recalcular_ok _ _ _ _ Hr)
    as (cid & cli & tid & tnd & items & lineas & costo
        & _ & _ & _ & _ & _ & Hi & HF & _ & -> & ->).
  exists ped, items, lineas. repeat (split; [assumption|]).
  intros k.
  match type of Hpe with persistir ?p ?r ?d = _ =>
    destruct (persistir_ok p r d) as (db'' & Hp' & _ & _ & _ & _ & _ & Hprod & _) end.
  rewrite Hpe in Hp'. inversion Hp' as [Hdb]. rewrite Hdb. rewrite Hprod.
  cbn [rc_para_stock productos set_carritos set_tienda_clientes].
  rewrite producto_bulk_update_stock_lookup.
  destruct (primera_linea k lineas) as [l|] eqn:El; [|reflexivity].
  apply primera_linea_elem in El as [Hin <-].
  destruct (Forall2_linea_valida_elem _ _ _ _ HF Hin) as [-> _]. reflexivity.
Qed.

(** X1: a confirmation keeps every stock at zero or above.  If no
    product has a negative stock before the view runs, none has one
    after it, whatever the request and whether the confirmation commits
    or not. *)
Lemma verificar_sesion_checkout_stock_no_negativo (req : Request) (db : DB) :
  stock_no_negativo db ->
  stock_no_negativo (snd (verificar_sesion_checkout env req db)).
Proof.
  intros Hinv.
  destruct (Z.eq_dec (status (fst (verificar_sesion_checkout env req db))) 200)
    as [Hs|Hs].
  - destruct (verificar_sesion_checkout_productos req db Hs)
      as (ped & items & lineas & _ & _ & HF & Hk).
    intros k p Hp. rewrite Hk in Hp.
    destruct (primera_linea k lineas) as [l|] eqn:El.
    + apply primera_linea_elem in El as [Hin _].
      destruct (Forall2_linea_valida_elem _ _ _ _ HF Hin) as [_ Hq].
      inversion Hp; subst. cbn [con_stock prod_stock]. lia.
    + exact (Hinv k p Hp).
  - destruct (verificar_sesion_checkout_casos req db) as (Hfail & _).
    rewrite (Hfail Hs). exact Hinv.
Qed.

(** X2: a line whose product has less stock than its quantity fails the
    whole confirmation, wherever the line stands among the items: the
    answer is 500 and the database is the one the view found. *)
Lemma verificar_sesion_checkout_stock_insuficiente (req : Request) (db : DB)
    (ped : Pedido) (items : list json) (item : json) (l : Linea) :
  preparar env req = inr ped ->
  py_iter (ped_items_data ped) = inr items ->
  item ∈ items ->
  leer_linea env (productos db) item = inr l ->
  prod_stock (lin_producto l) < lin_cantidad l ->
  status (fst (verificar_sesion_checkout env req db)) = 500 /\
  snd (verificar_sesion_checkout env req db) = db.
Proof.
  intros Hp Hi Hin Hl Hlt.
  destruct (Z.eq_dec (status (fst (verificar_sesion_checkout env req db))) 200)
    as [Hs|Hs].
  - exfalso.
    destruct (verificar_sesion_checkout_productos req db Hs)
      as (ped' & items' & lineas & Hp' & Hi' & HF & _).
    rewrite Hp in Hp'. inversion Hp'; subst ped'.
    rewrite Hi in Hi'. inversion Hi'; subst items'.
    apply list_elem_of_lookup in Hin as [i Hin].
    destruct (Forall2_lookup_l _ _ _ _ _ HF Hin) as (l' & _ & Hl' & Hq).
    rewrite Hl in Hl'. inversion Hl'; subst. lia.
  - destruct (verificar_sesion_checkout_casos req db) as (Hfail & _).
    split; [|exact (Hfail Hs)].
    revert Hs. rewrite verificar_sesion_checkout_run, Hp.
    destruct (materializar env ped db) as [[e|[]] db']; cbn; [reflexivity|lia].
Qed.

(** X3: with no product in two lines, a committed confirmation takes
    from the stock of the product of every line exactly the quantity of
    the line, and leaves the name and the price of the product. *)
Lemma verificar_sesion_checkout_stock_exacto (req : Request) (db : DB) :
  status (fst (verificar_sesion_checkout env req db)) = 200 ->
  exists ped items lineas,
    preparar env req = inr ped /\
    py_iter (ped_items_data ped) = inr items /\
    Forall2 (linea_valida env (productos db)) items lineas /\
    (NoDup (map lin_pid lineas) ->
     forall l, l ∈ lineas ->
       productos (snd (verificar_sesion_checkout env req db)) !! lin_pid l =
       Some (con_stock (prod_stock (lin_producto l) - lin_cantidad l)
               (lin_producto l))).
Proof.
  intros Hs.
  destruct (verificar_sesion_checkout_productos req db Hs)
    as (ped & items & lineas & Hp & Hi & HF & Hk).
  exists ped, items, lineas. repeat (split; [assumption|]).
  intros Hnd l Hin. rewrite Hk.
  destruct (primera_linea (lin_pid l) lineas) as [l'|] eqn:El.
  - apply primera_linea_elem in El as [Hin' Hpid].
    assert (l' = l); [|subst; reflexivity].
    apply list_elem_of_lookup in Hin as [i Hi1].
    apply list_elem_of_lookup in Hin' as [j Hj].
    assert (i = j); [|congruence].
    eapply (NoDup_lookup _ i j (lin_pid l) Hnd); rewrite list_lookup_fmap.
    + rewrite Hi1. reflexivity.
    + rewrite Hj. cbn. rewrite Hpid. reflexivity.
  - exfalso. exact (primera_linea_None _ _ _ El Hin eq_refl).
Qed.

(** *** The points *)


(** *** The association of store and customer *)

Lemma asociaciones_asociar (t c t' c' : Z) (db : DB) :
  (asociaciones t' c' (set_tienda_clientes (asociar t c) db)
   <= Nat.max 1 (asociaciones t' c' db))%nat /\
  ((asociaciones t c db <= 1)%nat ->
   asociaciones t c (set_tienda_clientes (asociar t c) db) = 1%nat).
Proof.
  unfold asociaciones, set_tienda_clientes, asociar. cbn [tienda_clientes].
  destruct (List.filter (es_asociacion t c) (tienda_clientes db)) as [|x l] eqn:E.
  - rewrite !List.filter_app, E, !length_app. cbn [List.filter].
    unfold es_asociacion at 2 4. cbn [tc_tienda tc_cliente].
    rewrite !Z.eqb_refl. cbn [andb length app].
    split; [|reflexivity].
    destruct ((t =? t') && (c =? c')) eqn:Eq; cbn [length]; [|lia].
    apply andb_prop in Eq as [->%Z.eqb_eq ->%Z.eqb_eq].
    rewrite E. cbn. lia.
  - rewrite E. cbn [length]. split; [lia|]. lia.
Qed.

(** A confirmation adds no association row to a pair that has one. *)
Lemma verificar_sesion_checkout_asociaciones (req : Request) (db : DB) (t c : Z) :
  (asociaciones t c (snd (verificar_sesion_checkout env req db))
   <= Nat.max 1 (asociaciones t c db))%nat.
Proof.
  destruct (Z.eq_dec (status (fst (verificar_sesion_checkout env req db))) 200)
    as [Hs|Hs].
  - destruct (verificar_sesion_checkout_casos req db) as (_ & Hok).
    destruct (Hok Hs) as (ped & rc & dbr & Hp & Hm & Hr).
    destruct (materializar_ok _ _ _ Hm) as (rc' & dbr' & a & b & Hr' & _ & _ & _ & Hpe).
    rewrite Hr in Hr'. inversion Hr'; subst rc' dbr'. clear Hr'.
    destruct (recalcular_ok _ _ _ _ Hr)
      as (cid & cli & tid & tnd & items & lineas & costo
          & _ & _ & _ & _ & _ & _ & _ & _ & -> & ->).
    match type of Hpe with persistir ?p ?r ?d = _ =>
      destruct (persistir_ok p r d)
        as (db'' & Hp' & _ & _ & _ & _ & _ & _ & _ & _ & _ & Htc & _) end.
    rewrite Hpe in Hp'. inversion Hp' as [Hdb]. rewrite Hdb.
    unfold asociaciones at 1. rewrite Htc.
    apply (asociaciones_asociar tid cid t c db).
  - destruct (verificar_sesion_checkout_casos req db) as (Hfail & _).
    rewrite (Hfail Hs). lia.
Qed.

(** C8: ensuring the association is idempotent.  For a store and a
    customer with at most one association row, [get_or_create] does not
    raise, whether the row is absent (it is created) or there (it is
    returned); afterwards the pair has exactly one row, and a second call
    returns that row and writes nothing.  No two confirmations, whatever
    their requests, leave a pair with more rows than it had, unless it had
    none and now has one. *)
Theorem tienda_cliente_get_or_create_idempotent (tienda cliente : Z)
    (user_id : string) (db : DB)
    (Hpk : pk_de env (JStr user_id) = inr (Some cliente))
    (Huna : (asociaciones tienda cliente db <= 1)%nat) :
  (exists tc creado db1,
     tienda_cliente_get_or_create env tienda user_id db = (inr (tc, creado), db1) /\
     creado = Nat.eqb (asociaciones tienda cliente db) 0 /\
     (creado = false -> db1 = db) /\
     asociaciones tienda cliente db1 = 1%nat /\
     tienda_cliente_get_or_create env tienda user_id db1 = (inr (tc, false), db1)) /\
  (forall req1 req2 t c,
     (asociaciones t c
        (snd (verificar_sesion_checkout env req2
                (snd (verificar_sesion_checkout env req1 db))))
      <= Nat.max 1 (asociaciones t c db))%nat).
Proof.
  split.
  - rewrite tienda_cliente_get_or_create_run, Hpk.
    unfold asociaciones in *.
    destruct (List.filter (es_asociacion tienda cliente) (tienda_clientes db))
      as [|tc [|tc' l]] eqn:E; cbn [length] in Huna; [| |lia].
    + eexists _, _, _. split; [reflexivity|]. cbn [length Nat.eqb].
      split; [reflexivity|]. split; [discriminate|].
      assert (E' : List.filter (es_asociacion tienda cliente)
                (tienda_clientes
                   (set_tienda_clientes
                      (fun l => l ++ [mkTiendaCliente tienda cliente]) db)) =
              [mkTiendaCliente tienda cliente]).
      { cbn [set_tienda_clientes tienda_clientes].
        rewrite List.filter_app, E. cbn [List.filter app].
        unfold es_asociacion. cbn [tc_tienda tc_cliente].
        rewrite !Z.eqb_refl. reflexivity. }
      split; [rewrite E'; reflexivity|].
      rewrite tienda_cliente_get_or_create_run, Hpk, E'. reflexivity.
    + eexists _, _, _. split; [reflexivity|]. cbn [length Nat.eqb].
      split; [reflexivity|]. split; [reflexivity|].
      split; [rewrite E; reflexivity|].
      rewrite tienda_cliente_get_or_create_run, Hpk, E. reflexivity.
  - intros req1 req2 t c.
    etransitivity; [apply verificar_sesion_checkout_asociaciones|].
    pose proof (verificar_sesion_checkout_asociaciones req1 db t c). lia.
Qed.

(** *** Before the transaction *)

(** C9: a request that fails before the transaction (no [session_id];
    a session that is not complete; the user id, the store id, the
    delivery address or the items missing from the metadata, or the
    payment reference missing from the session; items that are not valid
    JSON) is answered with an error, and the database is the one it
    found. *)
Theorem verificar_sesion_checkout_fallo_previo (req : Request) (db : DB) :
  let session_id := dict_get (req_data req) "session_id" in
  (truthy session_id = false \/
   (exists session, stripe_retrieve env session_id = inr session /\
      (ses_status session <> "complete" \/
       presente (ses_metadata session !! "user_id") = false \/
       presente (ses_metadata session !! "tienda_id") = false \/
       presente (ses_metadata session !! "direccion_entrega") = false \/
       presente (ses_metadata session !! "items_data") = false \/
       presente (ses_payment_intent session) = false \/
       (exists items, ses_metadata session !! "items_data" = Some items /\
                      json_loads env items = None)))) ->
  exists respuesta,
    verificar_sesion_checkout env req db = (respuesta, db) /\
    (status respuesta = 400 \/ status respuesta = 500).
Proof.
  intros session_id Hfalla.
  assert (Hprep : exists r, preparar env req = inl r).
  { unfold preparar. fold session_id.
    destruct Hfalla as [Ht|(session & Hr & Hs)].
    { rewrite Ht. cbn. eauto. }
    destruct (truthy session_id); cbn [negb]; [|eauto].
    rewrite Hr.
    destruct (String.eqb_spec (ses_status session) "complete") as [Ec|Ec];
      cbn [negb]; [|eauto].
    destruct Hs as [Hs|Hs]; [contradiction|].
    destruct (ses_amount_total session); [|eauto].
    destruct (div _ _); [|eauto].
    destruct (ses_metadata session !! "user_id") as [u|] eqn:Eu; [|eauto].
    destruct (ses_metadata session !! "tienda_id") as [t|] eqn:Et; [|eauto].
    destruct (ses_metadata session !! "direccion_entrega") as [dir|] eqn:Ed; [|eauto].
    destruct (ses_metadata session !! "items_data") as [i|] eqn:Ei; [|eauto].
    destruct (ses_payment_intent session) as [s|] eqn:Es; [|eauto].
    destruct Hs as [Hs|[Hs|[Hs|[Hs|[Hs|Hs]]]]];
      try (rewrite Hs, ?andb_false_r; cbn [andb]; eauto; fail).
    destruct Hs as (items & Hi & Hj). inversion Hi; subst.
    rewrite Hj. destruct (_ && _); eauto. }
  destruct Hprep as [r Hr]. exists r.
  unfold verificar_sesion_checkout. rewrite Hr.
  split; [reflexivity|]. apply (preparar_error _ _ Hr).
Qed.

End HechosVerificar.

(** ** The staff view *)

Section HechosPartialUpdate.

Variable env : Entorno.

(** *** The first row by key *)

Lemma foldr_menor_None {A} (l : list (Z * A)) :
  foldr menor None l = None -> l = [].
Proof.
  destruct l as [|x l]; [reflexivity|]. cbn [foldr]. unfold menor at 1.
  destruct (foldr menor None l); [destruct (_ <? _)|]; discriminate.
Qed.

Lemma foldr_menor_elem {A} (l : list (Z * A)) (x : Z * A) :
  foldr menor None l = Some x -> x ∈ l.
Proof.
  revert x. induction l as [|y l IH]; intros x; [discriminate|].
  cbn [foldr]. unfold menor at 1.
  destruct (foldr menor None l) as [z|].
  - destruct (_ <? _); intros H; inversion H; subst.
    + apply elem_of_cons. auto.
    + apply elem_of_cons. right. apply IH. reflexivity.
  - intros H. inversion H; subst. apply elem_of_cons. auto.
Qed.

(** [primero] finds a row of the table that satisfies the predicate... *)
Lemma primero_Some {A} (P : A -> bool) (tabla : gmap Z A) (k : Z) (a : A) :
  primero P tabla = Some (k, a) -> tabla !! k = Some a /\ P a = true.
Proof.
  unfold primero. intros H. apply foldr_menor_elem in H.
  apply list_elem_of_filter in H as [HP Hin]. cbn in HP.
  apply elem_of_map_to_list in Hin. auto.
Qed.

(** ... and finds none only when there is none. *)
Lemma primero_None {A} (P : A -> bool) (tabla : gmap Z A) :
  primero P tabla = None -> forall k a, tabla !! k = Some a -> P a = false.
Proof.
  unfold primero. intros H k a Hk. apply foldr_menor_None in H.
  destruct (P a) eqn:HP; [exfalso|reflexivity].
  assert (Hin : (k, a) ∈ filter (fun kv : Z * A => P (snd kv) = true) (map_to_list tabla)).
  { apply list_elem_of_filter. split; [exact HP|]. apply elem_of_map_to_list. exact Hk. }
  rewrite H in Hin. inversion Hin.
Qed.

(** The accessors give a row of the order; the payment is missing, and
    the shipment raises, only when the order has none. *)
Lemma pago_principal_Some (id : Z) (db : DB) (k : Z) (p : Pago) :
  pago_principal id db = Some (k, p) -> pagos db !! k = Some p /\ pago_venta p = id.
Proof.
  intros H. apply primero_Some in H as [H1 H2]. split; [exact H1|lia].
Qed.

Lemma pago_principal_None (id : Z) (db : DB) :
  pago_principal id db = None ->
  forall k p, pagos db !! k = Some p -> pago_venta p <> id.
Proof.
  intros H k p Hk. pose proof (primero_None _ _ H k p Hk) as Hf. cbn in Hf. lia.
Qed.

Lemma envio_de_inr (id : Z) (db : DB) (k : Z) (e : Envio) :
  envio_de id db = inr (k, e) -> envios db !! k = Some e /\ envio_venta e = id.
Proof.
  unfold envio_de. intros H.
  destruct (primero _ (envios db)) as [[k' e']|] eqn:E; [|discriminate].
  inversion H; subst. apply primero_Some in E as [H1 H2]. split; [exact H1|lia].
Qed.

Lemma envio_de_inl (id : Z) (db : DB) (ex : Exn) :
  envio_de id db = inl ex ->
  ex = RelatedObjectDoesNotExist "Envio" /\
  forall k e, envios db !! k = Some e -> envio_venta e <> id.
Proof.
  unfold envio_de. intros H.
  destruct (primero _ (envios db)) as [fila|] eqn:E; [discriminate|].
  inversion H; subst. split; [reflexivity|].
  intros k e Hk. pose proof (primero_None _ _ E k e Hk) as Hf. cbn in Hf. lia.
Qed.

(** *** The three steps *)

Lemma get_object_run (req : Request) (db : DB) (instance : Venta) :
  ventas db !! req_pk req = Some instance ->
  venta_tienda instance = req_tienda req ->
  get_object req db = (inr (req_pk req, instance), db).
Proof.
  intros H1 H2. unfold get_object, mbind, M_bind, leer. rewrite H1, H2, Z.eqb_refl.
  reflexivity.
Qed.

Lemma actualizar_venta_run (req : Request) (id : Z) (instance : Venta) (db : DB) :
  actualizar_venta env req id instance db =
  let valor := dict_get (req_data req) "estado" in
  if truthy valor then
    match codigo_valido valor (ESTADOS_VENTA env) with
    | None => (inl (inr (mkResponse 400 (ErrEstadoVenta valor))), db)
    | Some estado =>
        (inr (con_estado_venta estado instance),
         set_bitacora (fun l => l ++ [mkBitacora (req_usuario req) (ActualizoVenta id estado)])
           (set_ventas (alter (con_estado_venta estado) id) db))
    end
  else (inr instance, db).
Proof.
  unfold actualizar_venta. cbv zeta.
  destruct (truthy _); [|reflexivity].
  destruct (codigo_valido _ _); reflexivity.
Qed.

Lemma actualizar_pago_run (req : Request) (id : Z) (db : DB) :
  actualizar_pago env req id db =
  let valor := dict_get (req_data req) "pago_estado" in
  if truthy valor then
    match pago_principal id db with
    | None => (inl (inr (mkResponse 404 ErrSinPago)), db)
    | Some (pago_id, _) =>
        match codigo_valido valor (ESTADOS_PAGO env) with
        | None => (inl (inr (mkResponse 400 (ErrEstadoPago valor))), db)
        | Some estado =>
            (inr tt,
             set_bitacora
               (fun l => l ++ [mkBitacora (req_usuario req) (ActualizoPago pago_id id estado)])
               (set_pagos (alter (con_estado_pago estado) pago_id) db))
        end
    end
  else (inr tt, db).
Proof.
  unfold actualizar_pago. cbv zeta.
  destruct (truthy _); [|reflexivity].
  unfold mbind, M_bind, leer.
  destruct (pago_principal _ _) as [[pid p]|]; [|reflexivity].
  destruct (codigo_valido _ _); reflexivity.
Qed.

Lemma actualizar_envio_run (req : Request) (id : Z) (db : DB) :
  actualizar_envio env req id db =
  let valor := dict_get (req_data req) "envio_estado" in
  if truthy valor then
    match envio_de id db with
    | inl e => (inl (inl e), db)
    | inr (envio_id, _) =>
        match codigo_valido valor (ESTADOS_ENVIO env) with
        | None => (inl (inr (mkResponse 400 (ErrEstadoEnvio valor))), db)
        | Some estado =>
            (inr tt,
             set_bitacora
               (fun l => l ++ [mkBitacora (req_usuario req) (ActualizoEnvio envio_id id estado)])
               (set_envios (alter (con_estado_envio estado) envio_id) db))
        end
    end
  else (inr tt, db).
Proof.
  unfold actualizar_envio. cbv zeta.
  destruct (truthy _); [|reflexivity].
  unfold mbind, M_bind, leer.
  destruct (envio_de _ _) as [e|[eid e]]; [reflexivity|].
  destruct (codigo_valido _ _); reflexivity.
Qed.

(** The view as the three steps in a row. *)
Lemma partial_update_run (req : Request) (db : DB) (instance : Venta) :
  ventas db !! req_pk req = Some instance ->
  venta_tienda instance = req_tienda req ->
  partial_update env req db =
  match actualizar_venta env req (req_pk req) instance db with
  | (inl s, db1) => salida env db s db1
  | (inr instance', db1) =>
      match actualizar_pago env req (req_pk req) db1 with
      | (inl s, db2) => salida env db s db2
      | (inr _, db2) =>
          match actualizar_envio env req (req_pk req) db2 with
          | (inl s, db3) => salida env db s db3
          | (inr _, db3) =>
              (inr (mkResponse 200 (VentaSerializada (req_pk req) instance')), db3)
          end
      end
  end.
Proof.
  intros H1 H2. unfold partial_update, mbind, M_bind.
  rewrite (get_object_run req db instance H1 H2).
  destruct (actualizar_venta env req (req_pk req) instance db) as [[r|i] db1];
    [reflexivity|].
  destruct (actualizar_pago env req (req_pk req) db1) as [[r|[]] db2]; [reflexivity|].
  destruct (actualizar_envio env req (req_pk req) db2) as [[r|[]] db3]; reflexivity.
Qed.

(** *** Validation and partial application *)

Ltac casos_partial_update req db :=
  rewrite actualizar_venta_run; cbv zeta;
  destruct (truthy (dict_get (req_data req) "estado")) eqn:Tv;
  [destruct (codigo_valido (dict_get (req_data req) "estado") (ESTADOS_VENTA env))
     as [ev|] eqn:Cv|];
  cbv iota beta;
  try (rewrite actualizar_pago_run; cbv zeta; unfold pago_principal;
       cbn [pagos envios ventas set_bitacora set_ventas set_pagos set_envios];
       destruct (truthy (dict_get (req_data req) "pago_estado")) eqn:Tp;
       [destruct (primero (fun p => pago_venta p =? req_pk req) (pagos db))
          as [[pid pg]|] eqn:Pp;
        [destruct (codigo_valido (dict_get (req_data req) "pago_estado")
                     (ESTADOS_PAGO env)) as [ep|] eqn:Cp|]|];
       cbv iota beta);
  try (rewrite actualizar_envio_run; cbv zeta; unfold envio_de;
       cbn [pagos envios ventas set_bitacora set_ventas set_pagos set_envios];
       destruct (truthy (dict_get (req_data req) "envio_estado")) eqn:Te;
       [destruct (primero (fun e => envio_venta e =? req_pk req) (envios db))
          as [[eid en]|] eqn:Pe;
        [destruct (codigo_valido (dict_get (req_data req) "envio_estado")
                     (ESTADOS_ENVIO env)) as [ee|] eqn:Ce|]|];
       cbv iota beta);
  unfold salida;
  try match goal with
    | |- context [ATOMIC_REQUESTS env] => destruct (ATOMIC_REQUESTS env) eqn:Ha
    end;
  cbn [fst snd status pagos envios ventas set_bitacora set_ventas set_pagos set_envios].


(** *** No transaction around the three fields *)

(** X21: the staff update is not atomic across its fields when it
    returns an error.  When the order status was provided with a valid
    code and a later field is answered with an error response (the
    payment is missing, or the value of the payment or of the shipment is
    not one of the codes), the order keeps the new status; likewise a
    payment status that was saved stays saved when the shipment status
    is refused.  This holds with and without [ATOMIC_REQUESTS], as a
    returned response commits.  When the order has no shipment, reading
    it raises: no response is returned, and the earlier writes are kept
    without [ATOMIC_REQUESTS] and undone with it. *)
Theorem partial_update_not_atomic (req : Request) (db : DB) (instance : Venta)
    (Hobj : ventas db !! req_pk req = Some instance)
    (Htienda : venta_tienda instance = req_tienda req) :
  let estado := dict_get (req_data req) "estado" in
  let pago_estado := dict_get (req_data req) "pago_estado" in
  let envio_estado := dict_get (req_data req) "envio_estado" in
  let pago := pago_principal (req_pk req) db in
  let envio := envio_de (req_pk req) db in
  let respuesta := fst (partial_update env req db) in
  let db' := snd (partial_update env req db) in
  (forall e,
     truthy estado = true -> codigo_valido estado (ESTADOS_VENTA env) = Some e ->
     truthy pago_estado = true ->
     pago = None \/ codigo_valido pago_estado (ESTADOS_PAGO env) = None ->
     (respuesta = inr (mkResponse 404 ErrSinPago) \/
      respuesta = inr (mkResponse 400 (ErrEstadoPago pago_estado))) /\
     ventas db' !! req_pk req = Some (con_estado_venta e instance)) /\
  (forall e,
     truthy estado = true -> codigo_valido estado (ESTADOS_VENTA env) = Some e ->
     truthy pago_estado = false \/
       (is_Some pago /\ is_Some (codigo_valido pago_estado (ESTADOS_PAGO env))) ->
     truthy envio_estado = true ->
     (exists fila, envio = inr fila) ->
     codigo_valido envio_estado (ESTADOS_ENVIO env) = None ->
     respuesta = inr (mkResponse 400 (ErrEstadoEnvio envio_estado)) /\
     ventas db' !! req_pk req = Some (con_estado_venta e instance)) /\
  (forall e pago_id fila,
     truthy estado = false \/ is_Some (codigo_valido estado (ESTADOS_VENTA env)) ->
     truthy pago_estado = true -> pago = Some (pago_id, fila) ->
     codigo_valido pago_estado (ESTADOS_PAGO env) = Some e ->
     truthy envio_estado = true ->
     (exists fila', envio = inr fila') ->
     codigo_valido envio_estado (ESTADOS_ENVIO env) = None ->
     respuesta = inr (mkResponse 400 (ErrEstadoEnvio envio_estado)) /\
     pagos db' !! pago_id = Some (con_estado_pago e fila)) /\
  (forall e,
     truthy estado = true -> codigo_valido estado (ESTADOS_VENTA env) = Some e ->
     truthy pago_estado = false \/
       (is_Some pago /\ is_Some (codigo_valido pago_estado (ESTADOS_PAGO env))) ->
     truthy envio_estado = true ->
     envio = inl (RelatedObjectDoesNotExist "Envio") ->
     respuesta = inl (RelatedObjectDoesNotExist "Envio") /\
     (ATOMIC_REQUESTS env = true -> db' = db) /\
     (ATOMIC_REQUESTS env = false ->
      ventas db' !! req_pk req = Some (con_estado_venta e instance))).
Proof.
  cbv zeta. unfold pago_principal, envio_de.
  rewrite (partial_update_run req db instance Hobj Htienda).
  casos_partial_update req db;
    repeat split; intros;
    repeat match goal with
      | H : _ \/ _ |- _ => destruct H
      | H : _ /\ _ |- _ => destruct H
      | H : exists _, _ |- _ => destruct H
      | H : is_Some None |- _ => destruct H as [? H]; discriminate H
      | H : inl _ = inr _ |- _ => discriminate H
      | H : inr _ = inl _ |- _ => discriminate H
      | H : Some _ = Some _ |- _ => inversion H; subst; clear H
      | H : primero _ _ = Some _ |- _ => apply primero_Some in H as [H _]
      end;
    try congruence; eauto;
    try (rewrite lookup_alter_eq, Hobj; reflexivity);
    try (rewrite lookup_alter_eq;
         match goal with H : pagos db !! _ = Some _ |- _ => rewrite H end;
         reflexivity).
Qed.

End HechosPartialUpdate.

(** ** The claims on the example store *)

Section Ejemplos.

Import Ejemplo.

(** The rollback is not idle: when the confirmation of [cs_corto] meets
    the discrepancy, the block has already created the cart and the
    association, and the view still hands back the store it found. *)
Example materializar_escribe_antes_de_fallar :
  exists ped e parcial,
    preparar env0 (confirmar "cs_corto") = inr ped /\
    materializar env0 ped db0 = (inl e, parcial) /\
    carritos parcial <> carritos db0 /\
    tienda_clientes parcial <> tienda_clientes db0 /\
    snd (verificar_sesion_checkout env0 (confirmar "cs_corto") db0) = db0.
Proof.
  eexists _, _, _. split; [vm_compute; reflexivity|].
  split; [vm_compute; reflexivity|].
  split; [vm_compute; discriminate|].
  split; [vm_compute; discriminate|].
  vm_compute. reflexivity.
Qed.

Lemma verificar_sesion_checkout_discrepancy_witness :
  verificar_sesion_checkout env0 (confirmar "cs_corto") db0 =
    (mkResponse 500
       (ErrProcesarPedido (DiscrepanciaTotal (Dec 100 0) (Dec 11000 (-2)))),
     db0).
Proof.
  edestruct (verificar_sesion_checkout_discrepancy env0 (confirmar "cs_corto") db0)
    as (_ & _ & _ & _ & Hd & _).
  - vm_compute. reflexivity.
  - vm_compute. reflexivity.
  - vm_compute. reflexivity.
  - vm_compute. reflexivity.
  - apply Hd. vm_compute. reflexivity.
Defined.

(** C3 on a cart that names one product in two lines.  Product 3 has 5
    units; the cart asks for 3 units and again for 3 units, and 330.00
    was paid.  Each line is checked against the 5 units of the row as the
    database has it, since the first decrement is not written before the
    loop ends; the confirmation commits, the order holds two lines of 3
    units, and the stock is 2: it went down by 3 for the 6 units sold. *)
Theorem verificar_sesion_checkout_producto_repetido :
  let r := verificar_sesion_checkout env0 (confirmar "cs_doble") db0 in
  prod_stock <$> productos db0 !! 3 = Some 5 /\
  status (fst r) = 200 /\
  map (fun d => (dv_producto d, dv_cantidad d)) (detalles_venta (snd r)) =
    [(3, 3); (3, 3)] /\
  prod_stock <$> productos (snd r) !! 3 = Some 2.
Proof. vm_compute. repeat split; reflexivity. Qed.

Lemma calcular_costo_envio_half_even_witness :
  0 <= coef (Dec 10005 (-2)) /\ ndigits (coef (Dec 10005 (-2))) <= 26 /\
  tasa_spec (Dec 10005 (-2)) = Some 10 /\
  exists q, calcular_costo_envio (Dec 10005 (-2)) = Some (Dec q (-2)) /\
    nearest_even (cents_num (Dec 10005 (-2)) 10) (cents_den (Dec 10005 (-2))) q.
Proof.
  assert (H1 : 0 <= coef (Dec 10005 (-2))) by (cbn; lia).
  assert (H2 : ndigits (coef (Dec 10005 (-2))) <= 26) by (vm_compute; discriminate).
  split; [exact H1|]. split; [exact H2|].
  destruct (calcular_costo_envio_half_even (Dec 10005 (-2)) H1 H2) as (Ht & Hq & _).
  split; [exact Ht|exact Hq].
Defined.



Lemma tienda_cliente_get_or_create_idempotent_witness :
  exists tc db1,
    tienda_cliente_get_or_create env0 1 "7" db0 = (inr (tc, true), db1) /\
    asociaciones 1 7 db1 = 1%nat /\
    tienda_cliente_get_or_create env0 1 "7" db1 = (inr (tc, false), db1).
Proof.
  destruct (tienda_cliente_get_or_create_idempotent env0 1 7 "7" db0)
    as ((tc & creado & db1 & H1 & H2 & _ & H3 & H4) & _).
  - vm_compute. reflexivity.
  - vm_compute. lia.
  - exists tc, db1. vm_compute in H2. subst creado. auto.
Defined.

Lemma verificar_sesion_checkout_fallo_previo_witness :
  verificar_sesion_checkout env0 (confirmar "cs_abierta") db0 =
    (mkResponse 400 ErrSesionNoCompletada, db0) /\
  verificar_sesion_checkout env0 (confirmar "cs_roto") db0 =
    (mkResponse 400 Vacio, db0).
Proof.
  split.
  - destruct (verificar_sesion_checkout_fallo_previo env0 (confirmar "cs_abierta") db0)
      as (r & Hr & _).
    + right. eexists. split; [vm_compute; reflexivity|].
      left. vm_compute. discriminate.
    + rewrite Hr. f_equal. vm_compute in Hr. inversion Hr. reflexivity.
  - destruct (verificar_sesion_checkout_fallo_previo env0 (confirmar "cs_roto") db0)
      as (r & Hr & _).
    + right. eexists. split; [vm_compute; reflexivity|].
      do 6 right. eexists. split; vm_compute; reflexivity.
    + rewrite Hr. f_equal. vm_compute in Hr. inversion Hr. reflexivity.
Defined.



(** C10 on an order without a shipment.  Order 1 is PROCESADA and its
    shipment is gone; the request gives the order a valid status and the
    shipment a valid status.  The order status is saved, and then reading
    [instance.envio] raises at line 459, before the guard that was to
    answer 404: the view returns no error response.  Without
    [ATOMIC_REQUESTS] the order is left CANCELADA; with it the request is
    rolled back and the database is as before. *)
Theorem partial_update_sin_envio_lanza :
  let req := cambiar [("estado", JStr "CANCELADA"); ("envio_estado", JStr "ENVIADO")] in
  venta_estado <$> ventas db1_sin_envio !! req_pk req = Some "PROCESADA" /\
  codigo_valido (dict_get (req_data req) "estado") (ESTADOS_VENTA env0) = Some "CANCELADA" /\
  codigo_valido (dict_get (req_data req) "envio_estado") (ESTADOS_ENVIO env0) =
    Some "ENVIADO" /\
  envio_de (req_pk req) db1_sin_envio = inl (RelatedObjectDoesNotExist "Envio") /\
  fst (partial_update env0 req db1_sin_envio) = inl (RelatedObjectDoesNotExist "Envio") /\
  venta_estado <$> ventas (snd (partial_update env0 req db1_sin_envio)) !! req_pk req =
    Some "CANCELADA" /\
  partial_update env0_atomico req db1_sin_envio =
    (inl (RelatedObjectDoesNotExist "Envio"), db1_sin_envio).
Proof. vm_compute. repeat split; reflexivity. Qed.

Lemma partial_update_not_atomic_witness :
  let req := cambiar [("estado", JStr "CANCELADA"); ("envio_estado", JStr "PERDIDO")] in
  fst (partial_update env0 req db1) = inr (mkResponse 400 (ErrEstadoEnvio (JStr "PERDIDO"))) /\
  venta_estado <$> ventas db1 !! 1 = Some "PROCESADA" /\
  venta_estado <$> ventas (snd (partial_update env0 req db1)) !! 1 = Some "CANCELADA".
Proof.
  cbv zeta.
  edestruct (partial_update_not_atomic env0
               (cambiar [("estado", JStr "CANCELADA"); ("envio_estado", JStr "PERDIDO")]) db1)
    as (_ & H & _).
  - vm_compute. reflexivity.
  - vm_compute. reflexivity.
  - edestruct H as [Hr Hv].
    + vm_compute. reflexivity.
    + vm_compute. reflexivity.
    + left. vm_compute. reflexivity.
    + vm_compute. reflexivity.
    + eexists. vm_compute. reflexivity.
    + vm_compute. reflexivity.
    + split; [|split].
      * exact Hr.
      * vm_compute. reflexivity.
      * cbn [req_pk cambiar] in Hv. rewrite Hv. reflexivity.
Defined.

End Ejemplos.

(** * More about the views *)

(** ** The confirmation, table by table *)

Section HechosConfirmacion.

Variable env : Entorno.

(** The database a committed confirmation leaves, table by table. *)
Lemma verificar_sesion_checkout_exito (req : Request) (db : DB) :
  status (fst (verificar_sesion_checkout env req db)) = 200 ->
  exists ped cid cli tid tnd items lineas costo,
    preparar env req = inr ped /\
    pk_de env (JStr (ped_user_id ped)) = inr (Some cid) /\
    clientes db !! cid = Some cli /\
    pk_de env (JStr (ped_tienda_id ped)) = inr (Some tid) /\
    tiendas db !! tid = Some tnd /\
    py_iter (ped_items_data ped) = inr items /\
    Forall2 (linea_valida env (productos db)) items lineas /\
    calcular_costo_envio (fold_left sumar_linea lineas (Dec 0 (-2))) = Some costo /\
    let db' := snd (verificar_sesion_checkout env req db) in
    let venta := next_pk (ventas db) in
    let carrito := next_pk (carritos db) in
    ventas db' =
      <[venta := mkVenta (ped_total_pagado ped) "PROCESADA" tid cid carrito]>
        (ventas db) /\
    pagos db' =
      <[next_pk (pagos db) :=
          mkPago venta tid (ped_stripe_payment_id ped) (ped_total_pagado ped)
            "COMPLETADO"]> (pagos db) /\
    envios db' =
      <[next_pk (envios db) :=
          mkEnvio venta tid (ped_direccion_entrega ped) "EN_PREPARACION"]>
        (envios db) /\
    carritos db' =
      <[carrito := mkCarrito cid tid (ped_total_pagado ped)]> (carritos db) /\
    detalles_carrito db' = detalles_carrito db ++ map (detalle_de carrito) lineas /\
    detalles_venta db' = detalles_venta db ++
      map (fun l => mkDetalle_Venta venta (lin_pid l) (lin_cantidad l)
                      (prod_precio (lin_producto l))) lineas /\
    productos db' = producto_bulk_update_stock (map objeto_de lineas) (productos db) /\
    clientes db' =
      alter (fun _ => mkCliente
               (add (puntos_acumulados cli) (mul (ped_total_pagado ped) (Dec 5 (-4)))))
        cid (clientes db) /\
    tiendas db' = tiendas db /\
    tienda_clientes db' = asociar tid cid (tienda_clientes db) /\
    bitacora db' = bitacora db ++
      [mkBitacora cid
         (CompraProcesada venta (ped_total_pagado ped) (tienda_nombre tnd))].
Proof.
  intros Hs.
  destruct (verificar_sesion_checkout_casos env req db) as (_ & Hok).
  destruct (Hok Hs) as (ped & rc & dbr & Hp & Hm & Hr).
  destruct (materializar_ok _ _ _ _ Hm) as (rc' & dbr' & a & b & Hr' & _ & _ & _ & Hpe).
  rewrite Hr in Hr'. inversion Hr'; subst rc' dbr'. clear Hr'.
  destruct (recalcular_ok _ _ _ _ _ Hr)
    as (cid & cli & tid & tnd & items & lineas & costo
        & Hpc & Hcli & Hpt & Htnd & _ & Hi & HF & Hco & -> & ->).
  exists ped, cid, cli, tid, tnd, items, lineas, costo.
  repeat (split; [assumption|]).
  match type of Hpe with persistir ?p ?r ?d = _ =>
    destruct (persistir_ok p r d)
      as (db'' & Hp' & Hv & Hpg & Hen & Hdc & Hdv & Hpr & Hcl & Hca & Hti & Htc & Hbi) end.
  rewrite Hpe in Hp'. inversion Hp' as [Hdb]. clear Hp'. subst db''.
  cbn [rc_cliente rc_tienda rc_nuevo_carrito rc_detalles_carrito rc_para_stock
       fst snd productos clientes tiendas tienda_clientes carritos
       detalles_carrito ventas detalles_venta pagos envios bitacora
       set_carritos set_tienda_clientes] in *.
  cbv zeta. repeat split; try assumption.
  rewrite Hdv, map_map. reflexivity.
Qed.

(** *** What a confirmation never touches *)

(** X4: whatever its outcome, a confirmation writes of the products only
    the stock: every product keeps its name and its price, no product is
    added and none is removed; the stores are as before, and no customer
    is added or removed. *)
Theorem verificar_sesion_checkout_catalogo (req : Request) (db : DB) :
  let db' := snd (verificar_sesion_checkout env req db) in
  (forall k, con_stock 0 <$> productos db' !! k = con_stock 0 <$> productos db !! k) /\
  tiendas db' = tiendas db /\
  (forall k, is_Some (clientes db' !! k) <-> is_Some (clientes db !! k)).
Proof.
  cbv zeta.
  destruct (Z.eq_dec (status (fst (verificar_sesion_checkout env req db))) 200)
    as [Hs|Hs].
  - split; [|split].
    + intros k.
      destruct (verificar_sesion_checkout_productos env req db Hs)
        as (ped & items & lineas & _ & _ & HF & Hk).
      rewrite Hk.
      destruct (primera_linea k lineas) as [l|] eqn:El; [|reflexivity].
      apply primera_linea_elem in El as [Hin <-].
      destruct (Forall2_linea_valida_elem _ _ _ _ _ HF Hin) as [-> _].
      reflexivity.
    + destruct (verificar_sesion_checkout_exito req db Hs)
        as (ped & cid & cli & tid & tnd & items & lineas & costo & H).
      apply H.
    + intros k.
      destruct (verificar_sesion_checkout_exito req db Hs)
        as (ped & cid & cli & tid & tnd & items & lineas & costo & H).
      cbv zeta in H.
      destruct H as (_ & _ & _ & _ & _ & _ & _ & _ & _ & _ & _ & _ & _ & _ & _ & -> & _).
      destruct (Z.eq_dec k cid) as [->|Hne].
      * rewrite lookup_alter_eq. rewrite <- !not_eq_None_Some.
        destruct (clientes db !! cid); cbn; split; congruence.
      * rewrite lookup_alter_ne by congruence. reflexivity.
  - destruct (verificar_sesion_checkout_casos env req db) as (Hfail & _).
    rewrite (Hfail Hs). auto.
Qed.

(** X5: a confirmation only adds rows to the orders, the payments, the
    shipments, the carts, the detail rows, the associations and the audit
    log: whatever its outcome, every row these tables had is still there
    under its key and unchanged, and the lists are extended at their
    end. *)
Theorem verificar_sesion_checkout_solo_agrega (req : Request) (db : DB) :
  let db' := snd (verificar_sesion_checkout env req db) in
  ventas db ⊆ ventas db' /\ pagos db ⊆ pagos db' /\
  envios db ⊆ envios db' /\ carritos db ⊆ carritos db' /\
  detalles_carrito db `prefix_of` detalles_carrito db' /\
  detalles_venta db `prefix_of` detalles_venta db' /\
  tienda_clientes db `prefix_of` tienda_clientes db' /\
  bitacora db `prefix_of` bitacora db'.
Proof.
  cbv zeta.
  destruct (Z.eq_dec (status (fst (verificar_sesion_checkout env req db))) 200)
    as [Hs|Hs].
  - destruct (verificar_sesion_checkout_exito req db Hs)
      as (ped & cid & cli & tid & tnd & items & lineas & costo & H).
    cbv zeta in H.
    destruct H as (_ & _ & _ & _ & _ & _ & _ & _ & -> & -> & -> & -> & -> & -> & _
                   & _ & _ & -> & ->).
    repeat split; try (apply insert_subseteq, next_pk_fresh);
      try (eexists; reflexivity).
    unfold asociar. destruct (List.filter _ _); [eexists; reflexivity|reflexivity].
  - destruct (verificar_sesion_checkout_casos env req db) as (Hfail & _).
    rewrite (Hfail Hs). repeat split; reflexivity.
Qed.

(** *** The lines of the order *)

(** X6: a committed confirmation appends one cart line and one order
    line per line of the session's items, in their order; both record the
    product and the quantity of the line and, as the unit price, the price
    the product has in the table when the session is confirmed. *)
Theorem verificar_sesion_checkout_detalles (req : Request) (db : DB) :
  status (fst (verificar_sesion_checkout env req db)) = 200 ->
  let db' := snd (verificar_sesion_checkout env req db) in
  exists ped items lineas,
    preparar env req = inr ped /\
    py_iter (ped_items_data ped) = inr items /\
    Forall2 (fun item l => leer_linea env (productos db) item = inr l) items lineas /\
    (forall l, l ∈ lineas ->
       prod_precio <$> productos db !! lin_pid l = Some (prod_precio (lin_producto l))) /\
    detalles_carrito db' = detalles_carrito db ++
      map (fun l => mkDetalle_Carrito (next_pk (carritos db)) (lin_pid l)
                      (lin_cantidad l) (prod_precio (lin_producto l))) lineas /\
    detalles_venta db' = detalles_venta db ++
      map (fun l => mkDetalle_Venta (next_pk (ventas db)) (lin_pid l)
                      (lin_cantidad l) (prod_precio (lin_producto l))) lineas.
Proof.
  intros Hs. cbv zeta.
  destruct (verificar_sesion_checkout_exito req db Hs)
    as (ped & cid & cli & tid & tnd & items & lineas & costo & H).
  cbv zeta in H.
  destruct H as (Hp & _ & _ & _ & _ & Hi & HF & _ & _ & _ & _ & _ & Hdc & Hdv & _).
  exists ped, items, lineas. split; [exact Hp|]. split; [exact Hi|].
  split; [|split; [|split]].
  - eapply Forall2_impl; [exact HF|]. intros item l [Hl _]. exact Hl.
  - intros l Hin.
    destruct (Forall2_linea_valida_elem _ _ _ _ _ HF Hin) as [-> _]. reflexivity.
  - exact Hdc.
  - exact Hdv.
Qed.

(** *** The same session twice *)

(** X7: the view does not look for an earlier payment of the session.
    When the same request is confirmed again and both confirmations
    commit, the second one creates a second order with a payment of its
    own, and the two payments carry the same payment intent of Stripe. *)
Theorem verificar_sesion_checkout_repetida (req : Request) (db : DB) :
  let r1 := verificar_sesion_checkout env req db in
  let r2 := verificar_sesion_checkout env req (snd r1) in
  status (fst r1) = 200 -> status (fst r2) = 200 ->
  exists v1 v2 k1 k2 p1 p2,
    v1 <> v2 /\ k1 <> k2 /\
    ventas db !! v1 = None /\ ventas db !! v2 = None /\
    is_Some (ventas (snd r2) !! v1) /\ is_Some (ventas (snd r2) !! v2) /\
    pagos (snd r2) !! k1 = Some p1 /\ pagos (snd r2) !! k2 = Some p2 /\
    pago_venta p1 = v1 /\ pago_venta p2 = v2 /\
    stripe_payment_intent_id p1 = stripe_payment_intent_id p2.
Proof.
  cbv zeta. intros Hs1 Hs2.
  destruct (verificar_sesion_checkout_exito req db Hs1)
    as (ped & cid & cli & tid & tnd & items & lineas & costo & H).
  cbv zeta in H.
  destruct H as (Hp & _ & _ & _ & _ & _ & _ & _ & Hv & Hpg & _).
  destruct (verificar_sesion_checkout_exito req _ Hs2)
    as (ped' & cid' & cli' & tid' & tnd' & items' & lineas' & costo' & H').
  cbv zeta in H'.
  destruct H' as (Hp' & _ & _ & _ & _ & _ & _ & _ & Hv' & Hpg' & _).
  rewrite Hp in Hp'. inversion Hp'; subst ped'. clear Hp'.
  set (db1 := snd (verificar_sesion_checkout env req db)) in *.
  assert (Nv : next_pk (ventas db1) <> next_pk (ventas db)).
  { intros E. pose proof (next_pk_fresh (ventas db1)) as F.
    rewrite E, Hv, lookup_insert_eq in F. discriminate. }
  assert (Np : next_pk (pagos db1) <> next_pk (pagos db)).
  { intros E. pose proof (next_pk_fresh (pagos db1)) as F.
    rewrite E, Hpg, lookup_insert_eq in F. discriminate. }
  eexists (next_pk (ventas db)), (next_pk (ventas db1)),
          (next_pk (pagos db)), (next_pk (pagos db1)), _, _.
  split; [congruence|]. split; [congruence|].
  split; [apply next_pk_fresh|].
  split.
  { generalize (next_pk_fresh (ventas db1)), Nv.
    generalize (next_pk (ventas db1)). intros k F Hk.
    rewrite Hv, lookup_insert_ne in F by congruence. exact F. }
  rewrite Hv', Hpg'.
  split.
  { rewrite lookup_insert_ne by exact Nv. rewrite Hv, lookup_insert_eq. eauto. }
  split; [rewrite lookup_insert_eq; eauto|].
  split.
  { rewrite lookup_insert_ne by exact Np. rewrite Hpg, lookup_insert_eq. reflexivity. }
  split; [rewrite lookup_insert_eq; reflexivity|].
  repeat split.
Qed.

(** *** The stock and the first line of a product *)

(** X20: what a committed confirmation takes from the stock.  The order
    gets one line per item, each with its quantity, but the stock of a
    product goes down by the quantity of the first line that names it,
    and by nothing for the later lines of the same product (each line
    is checked, and its new stock computed, against the stored row, and
    [bulk_update] keeps the first object of a key); a product no line
    names keeps its row. *)
Theorem verificar_sesion_checkout_primera_linea (req : Request) (db : DB) :
  status (fst (verificar_sesion_checkout env req db)) = 200 ->
  let db' := snd (verificar_sesion_checkout env req db) in
  exists ped items lineas,
    preparar env req = inr ped /\
    py_iter (ped_items_data ped) = inr items /\
    Forall2 (linea_valida env (productos db)) items lineas /\
    map (fun d => (dv_producto d, dv_cantidad d))
      (drop (length (detalles_venta db)) (detalles_venta db')) =
      map (fun l => (lin_pid l, lin_cantidad l)) lineas /\
    forall k p, productos db !! k = Some p ->
      productos db' !! k =
      Some (con_stock
              (prod_stock p - default 0 (lin_cantidad <$> primera_linea k lineas)) p).
Proof.
  intros Hs. cbv zeta.
  destruct (verificar_sesion_checkout_exito req db Hs)
    as (ped & cid & cli & tid & tnd & items & lineas & costo & H).
  cbv zeta in H.
  destruct H as (Hp & _ & _ & _ & _ & Hi & HF & _ & _ & _ & _ & _ & _ & Hdv & Hpr & _).
  exists ped, items, lineas. repeat (split; [assumption|]). split.
  - rewrite Hdv, drop_app_length, map_map. reflexivity.
  - intros k p Hk. rewrite Hpr, producto_bulk_update_stock_lookup.
    destruct (primera_linea k lineas) as [l|] eqn:El;
      cbn [fmap option_fmap option_map default].
    + apply primera_linea_elem in El as [Hin <-].
      destruct (Forall2_linea_valida_elem _ _ _ _ _ HF Hin) as [Hl _].
      rewrite Hk in Hl. inversion Hl; subst p. rewrite Hk. reflexivity.
    + rewrite Hk, Z.sub_0_r. destruct p; reflexivity.
Qed.

End HechosConfirmacion.


(** ** The staff view, field by field *)

Section HechosEstados.

Variable env : Entorno.

(** *** The least key *)

Lemma foldr_menor_min {A} (l : list (Z * A)) (x : Z * A) :
  foldr menor None l = Some x -> forall y, y ∈ l -> fst x <= fst y.
Proof.
  revert x. induction l as [|z l IH]; intros x H y Hy; [inversion Hy|].
  cbn [foldr] in H. unfold menor at 1 in H.
  destruct (foldr menor None l) as [w|] eqn:E.
  - specialize (IH w eq_refl).
    destruct (Z.ltb_spec (fst z) (fst w)) as [Hlt|Hge]; inversion H; subst;
      apply elem_of_cons in Hy as [->|Hy]; try lia.
    + specialize (IH y Hy). lia.
    + exact (IH y Hy).
  - apply foldr_menor_None in E. subst l. inversion H; subst.
    apply elem_of_cons in Hy as [->|Hy]; [lia|inversion Hy].
Qed.

Lemma primero_min {A} (P : A -> bool) (tabla : gmap Z A) (k : Z) (a : A) :
  primero P tabla = Some (k, a) ->
  forall k' a', tabla !! k' = Some a' -> P a' = true -> k <= k'.
Proof.
  intros H k' a' Hk' HP'. unfold primero in H.
  apply (foldr_menor_min _ _ H (k', a')).
  apply list_elem_of_filter. split; [exact HP'|].
  apply elem_of_map_to_list. exact Hk'.
Qed.

(** [primero] is the row of least key among those that satisfy the
    predicate. *)
Lemma primero_spec {A} (P : A -> bool) (tabla : gmap Z A) (k : Z) (a : A) :
  primero P tabla = Some (k, a) <->
  tabla !! k = Some a /\ P a = true /\
  forall k' a', tabla !! k' = Some a' -> P a' = true -> k <= k'.
Proof.
  split.
  - intros H. destruct (primero_Some _ _ _ _ H) as [Hk HP].
    split; [exact Hk|]. split; [exact HP|]. exact (primero_min _ _ _ _ H).
  - intros (Hk & HP & Hmin).
    destruct (primero P tabla) as [[k0 a0]|] eqn:E.
    + destruct (primero_Some _ _ _ _ E) as [Hk0 HP0].
      pose proof (primero_min _ _ _ _ E k a Hk HP).
      pose proof (Hmin k0 a0 Hk0 HP0).
      assert (k0 = k) as -> by lia. congruence.
    + pose proof (primero_None _ _ E k a Hk). congruence.
Qed.

(** A write that keeps the predicate of every row keeps the first row
    where it is. *)
Lemma primero_alter {A} (P : A -> bool) (f : A -> A) (tabla : gmap Z A) (i : Z) :
  (forall a, P (f a) = P a) ->
  primero P (alter f i tabla) =
  (fun kv : Z * A => (fst kv, if decide (fst kv = i) then f (snd kv) else snd kv))
    <$> primero P tabla.
Proof.
  intros HPf. destruct (primero P tabla) as [[k a]|] eqn:E; cbn [fmap option_fmap option_map fst snd].
  - apply primero_spec in E as (Hk & HP & Hmin). apply primero_spec.
    split; [|split].
    + destruct (decide (k = i)) as [->|Hne].
      * rewrite lookup_alter_eq, Hk. reflexivity.
      * rewrite lookup_alter_ne by congruence. exact Hk.
    + destruct (decide (k = i)); [rewrite HPf|]; exact HP.
    + intros k' a' Hk' HP'.
      destruct (decide (k' = i)) as [->|Hne].
      * rewrite lookup_alter_eq in Hk'.
        destruct (tabla !! i) as [a0|] eqn:E0; [|discriminate].
        cbn in Hk'. inversion Hk'; subst a'. rewrite HPf in HP'.
        exact (Hmin i a0 E0 HP').
      * rewrite lookup_alter_ne in Hk' by congruence. exact (Hmin k' a' Hk' HP').
  - destruct (primero P (alter f i tabla)) as [[k a]|] eqn:E'; [exfalso|reflexivity].
    apply primero_Some in E' as [Hk HP].
    destruct (decide (k = i)) as [->|Hne].
    + rewrite lookup_alter_eq in Hk.
      destruct (tabla !! i) as [a0|] eqn:E0; [|discriminate].
      cbn in Hk. inversion Hk; subst a. rewrite HPf in HP.
      pose proof (primero_None _ _ E i a0 E0). congruence.
    + rewrite lookup_alter_ne in Hk by congruence.
      pose proof (primero_None _ _ E k a Hk). congruence.
Qed.

Lemma alter_alter_idemp {A} (f : A -> A) (i : Z) (tabla : gmap Z A) :
  (forall a, f (f a) = f a) -> alter f i (alter f i tabla) = alter f i tabla.
Proof.
  intros Hf. apply map_eq. intros k.
  destruct (decide (k = i)) as [->|Hne].
  - rewrite !lookup_alter_eq. destruct (tabla !! i); cbn; [rewrite Hf|]; reflexivity.
  - rewrite !lookup_alter_ne by congruence. reflexivity.
Qed.

Lemma lookup_alter_fmap {A B} (f : A -> A) (g : A -> B) (i k : Z) (tabla : gmap Z A) :
  (forall a, g (f a) = g a) -> g <$> alter f i tabla !! k = g <$> tabla !! k.
Proof.
  intros Hg. destruct (decide (k = i)) as [->|Hne].
  - rewrite lookup_alter_eq. destruct (tabla !! i); cbn; [rewrite Hg|]; reflexivity.
  - rewrite lookup_alter_ne by congruence. reflexivity.
Qed.

(** The view on an order that is not among those of the store. *)
Lemma partial_update_no_encontrado (req : Request) (db : DB) :
  (forall v, ventas db !! req_pk req = Some v -> venta_tienda v <> req_tienda req) ->
  partial_update env req db = (inr (mkResponse 404 NoEncontrado), db).
Proof.
  intros H. unfold partial_update, get_object, mbind, M_bind, leer.
  destruct (ventas db !! req_pk req) as [v|] eqn:E; [|reflexivity].
  destruct (Z.eqb_spec (venta_tienda v) (req_tienda req)) as [Heq|Hne]; [|reflexivity].
  exfalso. exact (H v eq_refl Heq).
Qed.

Ltac casos_estados req db :=
  rewrite actualizar_venta_run; cbv zeta;
  destruct (truthy (dict_get (req_data req) "estado")) eqn:Tv;
  [destruct (codigo_valido (dict_get (req_data req) "estado") (ESTADOS_VENTA env))
     as [ev|] eqn:Cv|];
  cbv iota beta;
  try (rewrite actualizar_pago_run; cbv zeta; unfold pago_principal;
       cbn [pagos envios ventas set_bitacora set_ventas set_pagos set_envios];
       destruct (truthy (dict_get (req_data req) "pago_estado")) eqn:Tp;
       [destruct (primero (fun p => pago_venta p =? req_pk req) (pagos db))
          as [[pid pg]|] eqn:Pp;
        [destruct (codigo_valido (dict_get (req_data req) "pago_estado")
                     (ESTADOS_PAGO env)) as [ep|] eqn:Cp|]|];
       cbv iota beta);
  try (rewrite actualizar_envio_run; cbv zeta; unfold envio_de;
       cbn [pagos envios ventas set_bitacora set_ventas set_pagos set_envios];
       destruct (truthy (dict_get (req_data req) "envio_estado")) eqn:Te;
       [destruct (primero (fun e => envio_venta e =? req_pk req) (envios db))
          as [[eid en]|] eqn:Pe;
        [destruct (codigo_valido (dict_get (req_data req) "envio_estado")
                     (ESTADOS_ENVIO env)) as [ee|] eqn:Ce|]|];
       cbv iota beta);
  unfold salida;
  try match goal with
    | |- context [ATOMIC_REQUESTS env] => destruct (ATOMIC_REQUESTS env) eqn:Ha
    end;
  cbn [fst snd status productos clientes tiendas tienda_clientes carritos
       detalles_carrito ventas detalles_venta pagos envios bitacora
       set_bitacora set_ventas set_pagos set_envios].

(** *** A request without statuses *)

(** X8: a request that provides none of the three statuses (each is
    absent, null or empty) is answered with the order as it is, and
    nothing is written, not even to the audit log. *)
Theorem partial_update_sin_cambios (req : Request) (db : DB) (instance : Venta)
    (Hobj : ventas db !! req_pk req = Some instance)
    (Htienda : venta_tienda instance = req_tienda req)
    (Hv : truthy (dict_get (req_data req) "estado") = false)
    (Hp : truthy (dict_get (req_data req) "pago_estado") = false)
    (He : truthy (dict_get (req_data req) "envio_estado") = false) :
  partial_update env req db =
    (inr (mkResponse 200 (VentaSerializada (req_pk req) instance)), db).
Proof.
  rewrite (partial_update_run env req db instance Hobj Htienda).
  rewrite actualizar_venta_run. cbv zeta. rewrite Hv.
  rewrite actualizar_pago_run. cbv zeta. rewrite Hp.
  rewrite actualizar_envio_run. cbv zeta. rewrite He. reflexivity.
Qed.

(** *** What the view can write *)

(** X9: whatever the request and its outcome, the staff update writes
    nothing but status columns: products, customers, stores,
    associations, carts and detail rows are as before; the orders, the
    payments and the shipments keep their keys and every column but the
    status; no order but the one of the URL changes, and no payment or
    shipment of another order; the audit log is only extended. *)
Theorem partial_update_solo_estados (req : Request) (db : DB) :
  let db' := snd (partial_update env req db) in
  productos db' = productos db /\ clientes db' = clientes db /\
  tiendas db' = tiendas db /\ tienda_clientes db' = tienda_clientes db /\
  carritos db' = carritos db /\ detalles_carrito db' = detalles_carrito db /\
  detalles_venta db' = detalles_venta db /\
  (forall k, con_estado_venta "" <$> ventas db' !! k =
             con_estado_venta "" <$> ventas db !! k) /\
  (forall k, con_estado_pago "" <$> pagos db' !! k =
             con_estado_pago "" <$> pagos db !! k) /\
  (forall k, con_estado_envio "" <$> envios db' !! k =
             con_estado_envio "" <$> envios db !! k) /\
  (forall k, k <> req_pk req -> ventas db' !! k = ventas db !! k) /\
  (forall k p, pagos db !! k = Some p -> pago_venta p <> req_pk req ->
     pagos db' !! k = Some p) /\
  (forall k e, envios db !! k = Some e -> envio_venta e <> req_pk req ->
     envios db' !! k = Some e) /\
  bitacora db `prefix_of` bitacora db'.
Proof.
  cbv zeta.
  destruct (ventas db !! req_pk req) as [instance|] eqn:Hobj.
  2: { rewrite partial_update_no_encontrado by (intros v Hv; congruence).
       cbn [snd]. repeat split; intros; try assumption; reflexivity. }
  destruct (Z.eq_dec (venta_tienda instance) (req_tienda req)) as [Htienda|Htienda].
  2: { rewrite partial_update_no_encontrado by (intros v Hv; congruence).
       cbn [snd]. repeat split; intros; try assumption; reflexivity. }
  rewrite (partial_update_run env req db instance Hobj Htienda).
  casos_estados req db;
    repeat match goal with
      | H : primero _ _ = Some _ |- _ => apply primero_Some in H as [? ?]
      end;
    repeat split; intros;
    try reflexivity; try assumption;
    try (apply lookup_alter_fmap; intros []; reflexivity);
    try (rewrite lookup_alter_ne by congruence; reflexivity);
    try (rewrite <- ?app_assoc; eexists; reflexivity);
    try (rewrite lookup_alter_ne; [assumption|]; intros <-;
         match goal with
         | H1 : ?m !! ?k = Some ?a, H2 : ?m !! ?k = Some ?b |- _ =>
             rewrite H1 in H2; inversion H2; subst; lia
         end).
Qed.

(** *** The three statuses at once *)

(** X10: when the request provides the three statuses, each with one of
    the codes of its field, and the order has a payment and a shipment,
    the answer is 200 with the order under its new status; the order, its
    first payment and its shipment carry the new statuses, and the audit
    log gains three entries, in the order order, payment, shipment. *)
Theorem partial_update_completo (req : Request) (db : DB) (instance : Venta)
    (pid eid : Z) (pg : Pago) (en : Envio) (ev ep ee : string)
    (Hobj : ventas db !! req_pk req = Some instance)
    (Htienda : venta_tienda instance = req_tienda req)
    (Tv : truthy (dict_get (req_data req) "estado") = true)
    (Cv : codigo_valido (dict_get (req_data req) "estado") (ESTADOS_VENTA env) = Some ev)
    (Tp : truthy (dict_get (req_data req) "pago_estado") = true)
    (Pp : pago_principal (req_pk req) db = Some (pid, pg))
    (Cp : codigo_valido (dict_get (req_data req) "pago_estado") (ESTADOS_PAGO env) = Some ep)
    (Te : truthy (dict_get (req_data req) "envio_estado") = true)
    (Pe : envio_de (req_pk req) db = inr (eid, en))
    (Ce : codigo_valido (dict_get (req_data req) "envio_estado") (ESTADOS_ENVIO env) = Some ee) :
  let db' := snd (partial_update env req db) in
  fst (partial_update env req db) =
    inr (mkResponse 200 (VentaSerializada (req_pk req) (con_estado_venta ev instance))) /\
  ventas db' !! req_pk req = Some (con_estado_venta ev instance) /\
  pagos db' !! pid = Some (con_estado_pago ep pg) /\
  envios db' !! eid = Some (con_estado_envio ee en) /\
  bitacora db' = bitacora db ++
    [mkBitacora (req_usuario req) (ActualizoVenta (req_pk req) ev);
     mkBitacora (req_usuario req) (ActualizoPago pid (req_pk req) ep);
     mkBitacora (req_usuario req) (ActualizoEnvio eid (req_pk req) ee)].
Proof.
  cbv zeta. rewrite (partial_update_run env req db instance Hobj Htienda).
  rewrite actualizar_venta_run. cbv zeta. rewrite Tv, Cv. cbv iota beta.
  rewrite actualizar_pago_run. cbv zeta. rewrite Tp.
  unfold pago_principal in *. cbn [pagos set_bitacora set_ventas].
  rewrite Pp, Cp. cbv iota beta.
  rewrite actualizar_envio_run. cbv zeta. rewrite Te.
  apply envio_de_inr in Pe as Hen. destruct Hen as [Hen _].
  unfold envio_de in *. cbn [envios set_bitacora set_ventas set_pagos].
  destruct (primero (fun e => envio_venta e =? req_pk req) (envios db))
    as [fila|]; [|discriminate].
  inversion Pe; subst fila. rewrite Ce. cbv iota beta.
  cbn [fst snd ventas pagos envios bitacora set_bitacora set_ventas set_pagos set_envios].
  apply primero_Some in Pp as [Hpg _].
  rewrite !lookup_alter_eq, Hobj, Hpg, Hen, <- !app_assoc. repeat split.
Qed.

(** *** The same request twice *)

Ltac segunda_vez req :=
  match goal with
  | |- context [partial_update env req ?d] =>
      erewrite (partial_update_run env req d);
      [|cbn [ventas set_bitacora set_ventas set_pagos set_envios];
        rewrite ?lookup_alter_eq;
        match goal with H : ventas _ !! _ = Some _ |- _ => rewrite H end;
        reflexivity
       |cbn [venta_tienda con_estado_venta]; assumption]
  end;
  rewrite actualizar_venta_run; cbv zeta;
  repeat match goal with
    | H : truthy (dict_get (req_data req) "estado") = _ |- _ => rewrite H
    | H : codigo_valido (dict_get (req_data req) "estado") _ = _ |- _ => rewrite H
    end;
  cbv iota beta;
  try (rewrite actualizar_pago_run; cbv zeta; unfold pago_principal;
       cbn [pagos envios ventas set_bitacora set_ventas set_pagos set_envios];
       rewrite ?primero_alter by (intros []; reflexivity);
       repeat match goal with
         | H : truthy (dict_get (req_data req) "pago_estado") = _ |- _ => rewrite H
         | H : primero _ (pagos _) = _ |- _ => rewrite H
         end;
       cbn [fmap option_fmap option_map fst snd];
       repeat match goal with
         | H : codigo_valido (dict_get (req_data req) "pago_estado") _ = _ |- _ => rewrite H
         end;
       cbv iota beta);
  try (rewrite actualizar_envio_run; cbv zeta; unfold envio_de;
       cbn [pagos envios ventas set_bitacora set_ventas set_pagos set_envios];
       rewrite ?primero_alter by (intros []; reflexivity);
       repeat match goal with
         | H : truthy (dict_get (req_data req) "envio_estado") = _ |- _ => rewrite H
         | H : primero _ (envios _) = _ |- _ => rewrite H
         end;
       cbn [fmap option_fmap option_map fst snd];
       repeat match goal with
         | H : codigo_valido (dict_get (req_data req) "envio_estado") _ = _ |- _ => rewrite H
         end;
       cbv iota beta);
  unfold salida;
  repeat match goal with
    | H : ATOMIC_REQUESTS env = _ |- _ => rewrite H
    end;
  cbn [fst snd ventas pagos envios set_bitacora set_ventas set_pagos set_envios].

(** X11: sending the same request again changes nothing more.  For an
    order of the store, the second run of a request gives the response of
    the first, and leaves the orders, the payments and the shipments as
    the first run left them (only the audit log grows again), whether the
    first run succeeded or stopped at an error. *)
Theorem partial_update_idempotent (req : Request) (db : DB) (instance : Venta)
    (Hobj : ventas db !! req_pk req = Some instance)
    (Htienda : venta_tienda instance = req_tienda req) :
  let r1 := partial_update env req db in
  let r2 := partial_update env req (snd r1) in
  fst r2 = fst r1 /\
  ventas (snd r2) = ventas (snd r1) /\
  pagos (snd r2) = pagos (snd r1) /\
  envios (snd r2) = envios (snd r1).
Proof.
  cbv zeta. rewrite (partial_update_run env req db instance Hobj Htienda).
  casos_estados req db; segunda_vez req;
    rewrite ?alter_alter_idemp by (intros []; reflexivity);
    repeat split.
Qed.

End HechosEstados.


(** ** The shipping cost: its ceiling, and its growth within a tier *)

(** The order of two decimals is the order of their amounts in
    hundredths. *)
Lemma cents_ratio_cmp (S S' : Decimal) :
  cmp S S' = (cents_num S 1 * cents_den S' ?= cents_num S' 1 * cents_den S).
Proof.
  destruct S as [c e], S' as [c' e'].
  set (m := Z.min (Z.min e e') 0).
  rewrite (cmp_align _ _ m) by (cbn [expo]; unfold m; lia).
  unfold align, cents_num, cents_den. cbn [coef expo].
  assert (Hid : forall x, m <= x -> m <= 0 ->
            10 ^ (x - m) * 10 ^ Z.max (- x) 0 = 10 ^ Z.max x 0 * 10 ^ (- m)).
  { intros x Hx Hm. destruct (Z.le_gt_cases 0 x).
    - rewrite (Z.max_r (- x)), (Z.max_l x) by lia.
      replace (x - m) with (x + - m) by lia. rewrite pow10_split by lia.
      change (10 ^ 0) with 1. ring.
    - rewrite (Z.max_l (- x)), (Z.max_r x) by lia.
      rewrite <- pow10_split by lia. change (10 ^ 0) with 1.
      replace (x - m + - x) with (- m) by lia. ring. }
  pose proof (Hid e ltac:(unfold m; lia) ltac:(unfold m; lia)) as He.
  pose proof (Hid e' ltac:(unfold m; lia) ltac:(unfold m; lia)) as He'.
  pose proof (pow10_pos (- m) ltac:(unfold m; lia)) as Hm.
  pose proof (pow10_pos (Z.max (- e) 0) ltac:(lia)) as Hd.
  pose proof (pow10_pos (Z.max (- e') 0) ltac:(lia)) as Hd'.
  rewrite <- (compare_mul_pos (c * 10 ^ (e - m)) (c' * 10 ^ (e' - m))
                (10 ^ Z.max (- e) 0 * 10 ^ Z.max (- e') 0)) by nia.
  rewrite <- (compare_mul_pos (c * 1 * 10 ^ Z.max e 0 * 10 ^ Z.max (- e') 0)
                (c' * 1 * 10 ^ Z.max e' 0 * 10 ^ Z.max (- e) 0) (10 ^ (- m))) by lia.
  f_equal.
  - replace (c * 10 ^ (e - m) * (10 ^ Z.max (- e) 0 * 10 ^ Z.max (- e') 0))
      with (c * (10 ^ (e - m) * 10 ^ Z.max (- e) 0) * 10 ^ Z.max (- e') 0) by ring.
    rewrite He. ring.
  - replace (c' * 10 ^ (e' - m) * (10 ^ Z.max (- e) 0 * 10 ^ Z.max (- e') 0))
      with (c' * (10 ^ (e' - m) * 10 ^ Z.max (- e') 0) * 10 ^ Z.max (- e) 0) by ring.
    rewrite He'. ring.
Qed.

Lemma cents_num_scale (S : Decimal) (p : Z) : cents_num S p = cents_num S 1 * p.
Proof. unfold cents_num. ring. Qed.

(** A subtotal below the integer [B] has fewer than [100 * B]
    hundredths. *)
Lemma ltb_of_int_cents (S : Decimal) (B : Z) :
  ltb S (of_int B) = true -> cents_num S 1 < B * cents_den S.
Proof.
  unfold ltb. rewrite cents_ratio_cmp.
  unfold cents_num at 2, cents_den at 1, of_int. cbn [coef expo].
  change (10 ^ Z.max (- 0) 0) with 1. change (10 ^ Z.max 0 0) with 1.
  destruct (Z.compare_spec (cents_num S 1 * 1) (B * 1 * 1 * cents_den S));
    [discriminate|lia|discriminate].
Qed.

(** Rounding to the nearest keeps the order of the fractions. *)
Lemma nearest_even_mono (n1 d1 q1 n2 d2 q2 : Z) :
  0 < d1 -> 0 < d2 -> n1 * d2 <= n2 * d1 ->
  nearest_even n1 d1 q1 -> nearest_even n2 d2 q2 -> q1 <= q2.
Proof.
  intros Hd1 Hd2 Hle H1 H2.
  apply (nearest_even_scale n1 d1 q1 d2 Hd2) in H1.
  apply (nearest_even_scale n2 d2 q2 d1 Hd1) in H2.
  replace (d2 * d1) with (d1 * d2) in H2 by ring.
  destruct (Z.le_gt_cases q1 q2) as [|Hgt]; [assumption|exfalso].
  assert (HD : 0 < d1 * d2) by nia.
  assert (E : n1 * d2 = n2 * d1).
  { destruct H1 as [B1 _], H2 as [B2 _].
    assert ((q2 + 1) * (d1 * d2) <= q1 * (d1 * d2)) by nia.
    lia. }
  rewrite E in H1.
  pose proof (nearest_even_unique _ _ _ _ HD H1 H2). lia.
Qed.

(** X12: the shipping cost never exceeds 50.00.  For every subtotal that
    is not negative (of at most 26 digits) the cost is a number of
    hundredths between 0 and 5000: the dearest carts are those just below
    500 at 10% and just below 1000 at 5%. *)
Theorem calcular_costo_envio_tope (S : Decimal)
    (Hpos : 0 <= coef S) (Hdig : ndigits (coef S) <= 26) :
  exists q, calcular_costo_envio S = Some (Dec q (-2)) /\ 0 <= q <= 5000.
Proof.
  destruct (calcular_costo_envio_cents S Hpos Hdig) as (q & Hq & Hn).
  exists q. split; [exact Hq|].
  pose proof (cents_den_pos S) as Hd.
  assert (Hnum : 0 <= cents_num S 1).
  { unfold cents_num. pose proof (pow10_pos (Z.max (expo S) 0) ltac:(lia)). nia. }
  assert (Hcota : 0 <= cents_num S (porcentaje_envio S) <= 5000 * cents_den S).
  { rewrite cents_num_scale. unfold porcentaje_envio.
    destruct (eqb S (of_int 0)); [lia|].
    destruct (ltb S (of_int 100)) eqn:E1.
    { apply ltb_of_int_cents in E1. nia. }
    destruct (ltb S (of_int 500)) eqn:E2.
    { apply ltb_of_int_cents in E2. nia. }
    destruct (ltb S (of_int 1000)) eqn:E3.
    { apply ltb_of_int_cents in E3. nia. }
    lia. }
  destruct Hn as [Hn _].
  split.
  - assert (-1 * cents_den S < q * cents_den S) by lia. nia.
  - assert (q * cents_den S < 5001 * cents_den S) by lia. nia.
Qed.

(** X13: within a tier a larger cart never ships for less.  For two
    subtotals that are not negative (of at most 26 digits) and fall in
    the same tier of the schedule, the cost of the smaller one is at most
    the cost of the larger one.  Across the tiers this fails: the cost
    of 99.99 is 15.00 and the cost of 100 is 10.00. *)
Theorem calcular_costo_envio_creciente (S1 S2 : Decimal)
    (Hpos : 0 <= coef S1) (Hdig1 : ndigits (coef S1) <= 26)
    (Hdig2 : ndigits (coef S2) <= 26)
    (Hle : leb S1 S2 = true)
    (Htier : porcentaje_envio S1 = porcentaje_envio S2) :
  (exists q1 q2,
     calcular_costo_envio S1 = Some (Dec q1 (-2)) /\
     calcular_costo_envio S2 = Some (Dec q2 (-2)) /\ q1 <= q2) /\
  ltb (Dec 9999 (-2)) (of_int 100) = true /\
  calcular_costo_envio (Dec 9999 (-2)) = Some (Dec 1500 (-2)) /\
  calcular_costo_envio (of_int 100) = Some (Dec 1000 (-2)).
Proof.
  split; [|vm_compute; repeat split; reflexivity].
  pose proof (cents_den_pos S1) as Hd1. pose proof (cents_den_pos S2) as Hd2.
  assert (Hord : cents_num S1 1 * cents_den S2 <= cents_num S2 1 * cents_den S1).
  { unfold leb in Hle. rewrite cents_ratio_cmp in Hle.
    destruct (Z.compare_spec (cents_num S1 1 * cents_den S2)
                (cents_num S2 1 * cents_den S1)); [lia|lia|discriminate]. }
  assert (Hnum1 : 0 <= cents_num S1 1).
  { unfold cents_num. pose proof (pow10_pos (Z.max (expo S1) 0) ltac:(lia)). nia. }
  assert (Hpos2 : 0 <= coef S2).
  { assert (0 <= cents_num S2 1) as H by nia.
    unfold cents_num in H.
    pose proof (pow10_pos (Z.max (expo S2) 0) ltac:(lia)). nia. }
  destruct (calcular_costo_envio_cents S1 Hpos Hdig1) as (q1 & Hq1 & Hn1).
  destruct (calcular_costo_envio_cents S2 Hpos2 Hdig2) as (q2 & Hq2 & Hn2).
  exists q1, q2. split; [exact Hq1|]. split; [exact Hq2|].
  rewrite <- Htier in Hn2.
  pose proof (porcentaje_envio_range S1) as Hp.
  refine (nearest_even_mono _ _ _ _ _ _ Hd1 Hd2 _ Hn1 Hn2).
  rewrite (cents_num_scale S1), (cents_num_scale S2). nia.
Qed.


(** ** The amount Stripe reports, in hundredths *)

(** The loop that strips trailing zeros stops at the ideal exponent or at
    a coefficient that does not end in zero, and keeps the value. *)
Lemma strip_zeros_spec (fuel : nat) :
  forall c e ideal,
    exists j, 0 <= j <= Z.of_nat fuel /\
      snd (strip_zeros fuel c e ideal) = e + j /\
      c = fst (strip_zeros fuel c e ideal) * 10 ^ j /\
      (snd (strip_zeros fuel c e ideal) < ideal ->
       fst (strip_zeros fuel c e ideal) mod 10 <> 0 \/ j = Z.of_nat fuel).
Proof.
  induction fuel as [|f IH]; intros c e ideal.
  - exists 0. cbn [strip_zeros fst snd]. change (10 ^ 0) with 1.
    repeat split; lia.
  - cbn [strip_zeros].
    destruct (Z.ltb_spec e ideal) as [Hlt|Hge]; cbn [andb].
    + destruct (Z.eqb_spec (c mod 10) 0) as [Hz|Hnz].
      * destruct (IH (c / 10) (e + 1) ideal) as (j & Hj & He & Hc & Hstop).
        exists (j + 1). split; [lia|]. split; [lia|]. split.
        -- rewrite pow10_split by lia. change (10 ^ 1) with 10.
           pose proof (Z.div_mod c 10 ltac:(lia)). lia.
        -- intros H. destruct (Hstop H) as [?|?]; [left; assumption|right; lia].
      * exists 0. cbn [fst snd]. change (10 ^ 0) with 1.
        repeat split; lia.
    + exists 0. cbn [fst snd]. change (10 ^ 0) with 1.
      repeat split; lia.
Qed.

Lemma div_eucl_mul (a b : Z) : 0 < b -> Z.div_eucl (a * b) b = (a, 0).
Proof.
  intros Hb. pose proof (Z.div_mul a b ltac:(lia)) as Hq.
  pose proof (Z.mod_mul a b ltac:(lia)) as Hr.
  unfold Z.div, Z.modulo in Hq, Hr.
  destruct (Z.div_eucl (a * b) b) as [q r]. cbn [fst snd] in *. congruence.
Qed.

(** [Decimal(n) / Decimal(100)] for a positive amount: the exact
    quotient, written with at most two decimals. *)
Lemma div_cien (n : Z) :
  0 < n < 10 ^ 28 ->
  exists c e, div (of_int n) (of_int 100) = Some (Dec c e) /\
    -2 <= e <= 0 /\ c * 10 ^ (e + 2) = n /\ 0 < c.
Proof.
  intros Hn. unfold div, of_int. cbn [coef expo].
  change (100 =? 0) with false. cbv iota.
  destruct (Z.eqb_spec n 0) as [?|_]; [lia|].
  change (ndigits 100) with 3. unfold prec.
  pose proof (ndigits_bounds n) as (Hd1 & _ & _).
  assert (Hd2 : ndigits n <= 28) by (apply ndigits_le_iff; lia).
  set (s := 3 - ndigits n + 28 + 1).
  assert (Hs : 4 <= s) by (unfold s; lia).
  destruct (Z.leb_spec 0 s) as [_|?]; [|lia].
  rewrite (Z.abs_eq n) by lia. change (Z.abs 100) with 100.
  replace (n * 10 ^ s) with (n * 10 ^ (s - 2) * 100).
  2: { replace s with ((s - 2) + 2) at 2 by lia. rewrite pow10_split by lia.
       change (10 ^ 2) with 100. ring. }
  rewrite div_eucl_mul by lia. cbv iota beta. change (0 =? 0) with true. cbv iota.
  replace (0 - 0 - (0 - 0 - s)) with s by lia.
  replace (0 - 0 - s) with (- s) by lia.
  destruct (strip_zeros_spec (Z.to_nat s) (n * 10 ^ (s - 2)) (- s) (0 - 0))
    as (j & Hj & He & Hc & Hstop).
  destruct (strip_zeros (Z.to_nat s) (n * 10 ^ (s - 2)) (- s) (0 - 0)) as [c e].
  cbn [fst snd] in *. rewrite Z2Nat.id in * by lia.
  rewrite (Z.sgn_pos n) by lia. change (Z.sgn 100) with 1.
  replace (1 * 1 * c) with c by ring.
  pose proof (pow10_pos j ltac:(lia)) as Hpj.
  pose proof (pow10_pos (s - 2) ltac:(lia)) as Hps.
  assert (Hcpos : 0 < c) by nia.
  assert (He2 : -2 <= e).
  { destruct (Z.le_gt_cases (-2) e) as [|Hlt]; [assumption|exfalso].
    assert (Hmod : c mod 10 <> 0) by (destruct Hstop as [?|?]; [lia|assumption|lia]).
    apply Hmod.
    assert (Hc' : c = n * 10 ^ (s - 3 - j) * 10).
    { replace (s - 2) with (j + ((s - 3 - j) + 1)) in Hc by lia.
      rewrite (pow10_split j) in Hc by lia.
      rewrite (pow10_split (s - 3 - j) 1) in Hc by lia.
      change (10 ^ 1) with 10 in Hc. nia. }
    rewrite Hc'. apply Z.mod_mul. lia. }
  assert (Hval : c * 10 ^ (e + 2) = n).
  { replace j with ((s - 2) + (e + 2)) in Hc by lia.
    rewrite pow10_split in Hc by lia.
    pose proof (pow10_pos (e + 2) ltac:(lia)). nia. }
  exists c, e. split; [|split; [lia|split; [exact Hval|exact Hcpos]]].
  f_equal. apply fix_small. cbn [coef].
  pose proof (pow10_pos (e + 2) ltac:(lia)). unfold prec.
  rewrite Z.abs_eq by lia. nia.
Qed.

(** An amount of [n] hundredths becomes a decimal of that value, and
    quantizing it to two places gives [n] hundredths, nothing rounded. *)
Lemma total_pagado_centavos (n : Z) :
  0 <= n < 10 ^ 28 ->
  exists t, div (of_int n) (of_int 100) = Some t /\
    quantize t (Dec 1 (-2)) = Some (Dec n (-2)) /\
    eqb t (Dec n (-2)) = true.
Proof.
  intros Hn. destruct (Z.eq_dec n 0) as [->|Hnz].
  { eexists. split; [vm_compute; reflexivity|]. split; vm_compute; reflexivity. }
  destruct (div_cien n ltac:(lia)) as (c & e & Hdiv & He & Hval & Hc).
  exists (Dec c e). split; [exact Hdiv|].
  pose proof (pow10_pos (e + 2) ltac:(lia)) as Hp.
  assert (Hdc : ndigits c <= 26 - e).
  { apply ndigits_le_iff; [lia|]. rewrite Z.abs_eq by lia.
    assert (10 ^ 28 = 10 ^ (26 - e) * 10 ^ (e + 2)) as E.
    { rewrite <- pow10_split by lia. f_equal. lia. }
    pose proof (pow10_pos (26 - e) ltac:(lia)). nia. }
  assert (Hdn : ndigits n <= 28) by (apply ndigits_le_iff; lia).
  split.
  - unfold quantize, rescale. cbn [coef expo].
    destruct (Z.eqb_spec c 0) as [?|_]; [lia|].
    unfold prec in *.
    destruct (Z.ltb_spec 28 (e + ndigits c - 1 - -2 + 1)) as [?|_]; [lia|].
    destruct (Z.leb_spec (-2) e) as [_|?]; [|lia].
    replace (e - -2) with (e + 2) by lia. rewrite Hval. cbn [coef].
    destruct (Z.ltb_spec 28 (ndigits n)) as [?|_]; [lia|].
    f_equal. apply fix_small. cbn [coef]. unfold prec. lia.
  - unfold eqb, cmp, align. cbn [coef expo].
    rewrite Z.min_r by lia.
    replace (e - -2) with (e + 2) by lia. rewrite Hval.
    change (-2 - -2) with 0. change (10 ^ 0) with 1.
    rewrite Z.mul_1_r, Z.compare_refl. reflexivity.
Qed.


Section HechosMonto.

Variable env : Entorno.

(** What the view has read when it reaches the transaction. *)
Lemma preparar_ok (req : Request) (ped : Pedido) :
  preparar env req = inr ped ->
  exists session items_data_str n,
    truthy (dict_get (req_data req) "session_id") = true /\
    stripe_retrieve env (dict_get (req_data req) "session_id") = inr session /\
    ses_status session = "complete" /\
    ses_metadata session !! "user_id" = Some (ped_user_id ped) /\
    ses_metadata session !! "tienda_id" = Some (ped_tienda_id ped) /\
    ses_metadata session !! "direccion_entrega" = Some (ped_direccion_entrega ped) /\
    ses_metadata session !! "items_data" = Some items_data_str /\
    json_loads env items_data_str = Some (ped_items_data ped) /\
    ses_payment_intent session = Some (ped_stripe_payment_id ped) /\
    ses_amount_total session = Some n /\
    div (of_int n) (of_int 100) = Some (ped_total_pagado ped).
Proof.
  unfold preparar. intros H.
  destruct (truthy (dict_get (req_data req) "session_id")) eqn:Ht;
    cbn [negb] in H; [|discriminate].
  destruct (stripe_retrieve env (dict_get (req_data req) "session_id"))
    as [e|session] eqn:Es; [destruct e; discriminate|].
  destruct (String.eqb_spec (ses_status session) "complete") as [Ec|Ec];
    cbn [negb] in H; [|discriminate].
  destruct (ses_amount_total session) as [n|] eqn:En; [|discriminate].
  destruct (div (of_int n) (of_int 100)) as [t|] eqn:Ed; [|discriminate].
  destruct (ses_metadata session !! "user_id") as [u|] eqn:Eu; [|discriminate].
  destruct (ses_metadata session !! "tienda_id") as [ti|] eqn:Et; [|discriminate].
  destruct (ses_metadata session !! "direccion_entrega") as [dir|] eqn:Edi;
    [|discriminate].
  destruct (ses_metadata session !! "items_data") as [i|] eqn:Ei; [|discriminate].
  destruct (ses_payment_intent session) as [s|] eqn:Ep; [|discriminate].
  destruct (_ && _); [|discriminate].
  destruct (json_loads env i) as [items|] eqn:Ej; [|discriminate].
  inversion H; subst ped. cbn.
  exists session, i, n. repeat split; assumption.
Qed.

(** X14: a confirmation commits only when the total it recomputes is, at
    two decimal places, exactly the number of hundredths Stripe reports
    in [amount_total].  For a reported amount from 0 up to 28 digits the
    conversion [Decimal(amount_total) / Decimal(100)] is exact and the
    quantization of either side rounds nothing away from that amount. *)
Theorem verificar_sesion_checkout_centavos (req : Request) (db : DB) :
  status (fst (verificar_sesion_checkout env req db)) = 200 ->
  exists session n ped items lineas costo,
    stripe_retrieve env (dict_get (req_data req) "session_id") = inr session /\
    ses_amount_total session = Some n /\
    preparar env req = inr ped /\
    py_iter (ped_items_data ped) = inr items /\
    Forall2 (linea_valida env (productos db)) items lineas /\
    calcular_costo_envio (fold_left sumar_linea lineas (Dec 0 (-2))) = Some costo /\
    (0 <= n < 10 ^ 28 ->
     eqb (ped_total_pagado ped) (Dec n (-2)) = true /\
     quantize (ped_total_pagado ped) (Dec 1 (-2)) = Some (Dec n (-2)) /\
     quantize (add (fold_left sumar_linea lineas (Dec 0 (-2))) costo) (Dec 1 (-2)) =
       Some (Dec n (-2))).
Proof.
  intros Hs.
  destruct (verificar_sesion_checkout_casos env req db) as (_ & Hok).
  destruct (Hok Hs) as (ped & rc & dbr & Hp & Hm & Hr).
  destruct (materializar_ok _ _ _ _ Hm) as (rc' & dbr' & a & b & Hr' & Ha & Hb & Hab & _).
  rewrite Hr in Hr'. inversion Hr'; subst rc' dbr'. clear Hr'.
  destruct (recalcular_ok _ _ _ _ _ Hr)
    as (cid & cli & tid & tnd & items & lineas & costo
        & _ & _ & _ & _ & _ & Hi & HF & Hco & -> & _).
  cbn [rc_total_final_seguro] in Ha.
  destruct (preparar_ok req ped Hp)
    as (session & i & n & _ & Hse & _ & _ & _ & _ & _ & _ & _ & Hn & Hd).
  exists session, n, ped, items, lineas, costo.
  repeat (split; [assumption|]).
  intros Hrango.
  destruct (total_pagado_centavos n Hrango) as (t & Hd' & Hq & He).
  rewrite Hd in Hd'. inversion Hd'; subst t. clear Hd'.
  split; [exact He|]. split; [exact Hq|].
  rewrite Hq in Hb. inversion Hb; subst b. clear Hb.
  pose proof (quantize_expo _ _ _ Ha) as Hea. cbn [expo] in Hea.
  destruct a as [ca ea]. cbn [expo] in Hea. subst ea.
  rewrite eqb_same_expo in Hab. apply Z.eqb_eq in Hab. subst ca. exact Ha.
Qed.

End HechosMonto.


(** ** The quote *)

Section HechosCotizacion.

Variable env : Entorno.
Variable ext : EntornoSesion.
Variable col : Columnas.

(** The lookup of the quote is the lookup of the confirmation, narrowed
    to the active products of the store. *)
Lemma producto_get_activo_inr (db : DB) (tienda : Z) (v : json) (k : Z) (p : Producto) :
  producto_get_activo env col db tienda v = inr (k, p) <->
  exists pk, pk_de env v = inr pk /\
    (pk ≫= fun k : Z => (fun p : Producto => (k, p)) <$> productos db !! k) = Some (k, p) /\
    prod_tienda col k = tienda /\ prod_estado col k = true.
Proof.
  unfold producto_get_activo. split.
  - destruct (pk_de env v) as [e|pk]; [discriminate|].
    destruct (pk ≫= fun k : Z => (fun p : Producto => (k, p)) <$> productos db !! k)
      as [[k' p']|] eqn:E3; [|discriminate].
    destruct (Z.eqb_spec (prod_tienda col k') tienda) as [Ht|Ht]; cbn [andb];
      [|discriminate].
    destruct (prod_estado col k') eqn:Ee; [|discriminate].
    intros H. inversion H; subst. exists pk. repeat split; auto.
  - intros (pk & -> & -> & Ht & Ee). rewrite Ht, Z.eqb_refl, Ee. reflexivity.
Qed.

(** When the loop of the quote ends without an exception, every line was
    read from the table, belongs to an active product of the store and
    passed the stock check; the accumulators hold what the lines add. *)
Lemma cotizar_items_ok (db : DB) (tienda : Z) (items : list json) :
  forall s ls s' ls',
    cotizar_items env col db tienda items (s, ls) = inr (s', ls') ->
    exists lineas,
      Forall2 (linea_cotizada env col db tienda) items lineas /\
      s' = fold_left sumar_linea lineas s /\
      ls' = ls ++ map item_de lineas.
Proof.
  induction items as [|item resto IH]; intros s ls s' ls' H.
  - cbn in H. inversion H; subst. exists []. rewrite app_nil_r.
    repeat split; constructor.
  - cbn [cotizar_items] in H.
    destruct (item_get item "producto_id") as [?|v1] eqn:E1; [discriminate|].
    destruct (producto_get_activo env col db tienda v1) as [?|[pid producto]] eqn:E2;
      [discriminate|].
    destruct (item_get item "cantidad") as [?|v2] eqn:E4; [discriminate|].
    destruct (py_int env v2) as [?|q] eqn:E5; [discriminate|].
    destruct (Z.ltb_spec (prod_stock producto) q) as [?|Hq]; [discriminate|].
    apply IH in H as (lineas & HF & -> & ->).
    apply producto_get_activo_inr in E2 as (pk & Epk & E3 & Ht & Ee).
    exists (mkLinea pid producto q :: lineas). split; [|split].
    + constructor; [|exact HF]. split; [split; [|exact Hq]|split; assumption].
      unfold leer_linea. rewrite E1, Epk, E3, E4, E5. reflexivity.
    + reflexivity.
    + cbn [map]. rewrite <- app_assoc. reflexivity.
Qed.

(** Conversely, lines the quote accepts take the loop to its end. *)
Lemma cotizar_items_run (db : DB) (tienda : Z) (items : list json)
    (lineas : list Linea) :
  Forall2 (linea_cotizada env col db tienda) items lineas ->
  forall s ls,
    cotizar_items env col db tienda items (s, ls) =
      inr (fold_left sumar_linea lineas s, ls ++ map item_de lineas).
Proof.
  induction 1 as [|item l items lineas Hl HF IH]; intros s ls.
  - cbn. rewrite app_nil_r. reflexivity.
  - destruct Hl as ((Hl & Hq) & Ht & Ee). cbn [cotizar_items].
    unfold leer_linea in Hl.
    destruct (item_get item "producto_id") as [?|v1]; [discriminate|].
    destruct (pk_de env v1) as [?|pk] eqn:Epk; [discriminate|].
    destruct (pk ≫= fun k : Z => (fun p : Producto => (k, p)) <$> productos db !! k)
      as [[k p]|] eqn:E3; [|discriminate].
    destruct (item_get item "cantidad") as [?|v2]; [discriminate|].
    destruct (py_int env v2) as [?|q]; [discriminate|].
    inversion Hl; subst l. cbn [lin_pid lin_producto lin_cantidad] in *.
    assert (E2 : producto_get_activo env col db tienda v1 = inr (k, p)).
    { apply producto_get_activo_inr. exists pk. auto. }
    rewrite E2.
    destruct (Z.ltb_spec (prod_stock p) q) as [?|_]; [lia|].
    rewrite IH. cbn [map fold_left]. rewrite <- app_assoc. reflexivity.
Qed.

(** The view, when it has sent a request to Stripe. *)
Lemma crear_sesion_checkout_enviada (req : Request) (db : DB) (sol : Solicitud) :
  snd (crear_sesion_checkout env ext col req db) = Some sol ->
  let tienda_id := dict_get (req_data req) "tienda_id" in
  let items_data := default (JList []) (dict_lookup (req_data req) "items") in
  let direccion_entrega := dict_get (req_data req) "direccion_entrega" in
  exists tienda tnd items lineas costo,
    is_Some (clientes db !! req_usuario req) /\
    truthy tienda_id = true /\ truthy items_data = true /\
    truthy direccion_entrega = true /\
    pk_de env tienda_id = inr (Some tienda) /\
    tiendas db !! tienda = Some tnd /\
    py_iter items_data = inr items /\
    Forall2 (linea_cotizada env col db tienda) items lineas /\
    calcular_costo_envio (fold_left sumar_linea lineas (Dec 0 (-2))) = Some costo /\
    sol = mkSolicitud
            (map item_de lineas ++
               if ltb (of_int 0) costo then [item_envio costo] else [])
            (req_usuario req) tienda direccion_entrega
            (json_dumps ext items_data)
            (user_email col (req_usuario req))
            (FRONTEND_URL ext +:+ "/tienda/" +:+ tienda_slug col tienda
               +:+ "/pago-exitoso?session_id={CHECKOUT_SESSION_ID}")
            (FRONTEND_URL ext +:+ "/tienda/" +:+ tienda_slug col tienda +:+ "/pagar") /\
    fst (crear_sesion_checkout env ext col req db) =
      match stripe_create ext sol with
      | inl e => inr (mkRespuestaSesion 500 (ErrCrearSesion e))
      | inr url => inr (mkRespuestaSesion 200 (UrlSesion url))
      end.
Proof.
  cbv zeta. unfold crear_sesion_checkout. intros H.
  destruct (clientes db !! req_usuario req) as [cli|] eqn:Ecli; [|discriminate].
  destruct (truthy (dict_get (req_data req) "tienda_id")) eqn:T1;
    cbn [negb orb] in H; [|discriminate].
  destruct (truthy (default (JList []) (dict_lookup (req_data req) "items"))) eqn:T2;
    cbn [negb orb] in H; [|discriminate].
  destruct (truthy (dict_get (req_data req) "direccion_entrega")) eqn:T3;
    cbn [negb] in H; [|discriminate].
  destruct (pk_de env (dict_get (req_data req) "tienda_id")) as [?|pk] eqn:Epk;
    [discriminate|].
  destruct (pk ≫= fun k : Z => (fun t : Tienda => (k, t)) <$> tiendas db !! k)
    as [[tienda tnd]|] eqn:Etn; [|discriminate].
  apply pk_lookup_Some in Etn as [-> Htnd].
  unfold cotizar in H |- *.
  destruct (py_iter (default (JList []) (dict_lookup (req_data req) "items")))
    as [?|items] eqn:Ei; [discriminate|].
  destruct (cotizar_items env col db tienda items (Dec 0 (-2), []))
    as [?|[subtotal ls]] eqn:Ec; [discriminate|].
  apply cotizar_items_ok in Ec as (lineas & HF & -> & ->).
  destruct (calcular_costo_envio (fold_left sumar_linea lineas (Dec 0 (-2))))
    as [costo|] eqn:Eco; [|discriminate].
  cbn [app] in H |- *.
  exists tienda, tnd, items, lineas, costo.
  split; [eauto|]. do 8 (split; [auto|]).
  match type of H with
  | context [stripe_create ext ?s] =>
      assert (Hs : sol = s) by (destruct (stripe_create ext s); cbn in H; congruence)
  end.
  split; [exact Hs|]. rewrite Hs.
  match goal with
  | |- context [stripe_create ext ?s] => destruct (stripe_create ext s); reflexivity
  end.
Qed.

(** X15: what the quote sends to Stripe.  When the view has called
    Stripe, the user has a customer profile, the body named a store that
    exists, an address and items; every item was read from the table of
    products, belongs to an active product of that store and asks for no
    more than its stock; the request carries one line item per item, in
    order, with the name of the product, its price times 100 cut to an
    integer and the quantity, followed by one line for the shipping cost
    exactly when that cost is above zero; the metadata carry the user,
    the store, the address and the items as JSON; and the response is 200
    with the URL of the session, or 500 when the call raised. *)
Theorem crear_sesion_checkout_solicitud (req : Request) (db : DB) (sol : Solicitud) :
  snd (crear_sesion_checkout env ext col req db) = Some sol ->
  exists tienda items lineas costo,
    is_Some (clientes db !! req_usuario req) /\
    pk_de env (dict_get (req_data req) "tienda_id") = inr (Some tienda) /\
    is_Some (tiendas db !! tienda) /\
    py_iter (default (JList []) (dict_lookup (req_data req) "items")) = inr items /\
    Forall2 (linea_cotizada env col db tienda) items lineas /\
    calcular_costo_envio (fold_left sumar_linea lineas (Dec 0 (-2))) = Some costo /\
    sol_line_items sol =
      map item_de lineas ++ (if ltb (of_int 0) costo then [item_envio costo] else []) /\
    sol_user_id sol = req_usuario req /\
    sol_tienda_id sol = tienda /\
    sol_direccion_entrega sol = dict_get (req_data req) "direccion_entrega" /\
    truthy (sol_direccion_entrega sol) = true /\
    sol_items_data sol =
      json_dumps ext (default (JList []) (dict_lookup (req_data req) "items")) /\
    fst (crear_sesion_checkout env ext col req db) =
      match stripe_create ext sol with
      | inl e => inr (mkRespuestaSesion 500 (ErrCrearSesion e))
      | inr url => inr (mkRespuestaSesion 200 (UrlSesion url))
      end.
Proof.
  intros H.
  destruct (crear_sesion_checkout_enviada req db sol H)
    as (tienda & tnd & items & lineas & costo
        & Hcli & _ & _ & Hdir & Hpk & Htnd & Hi & HF & Hco & Hsol & Hr).
  exists tienda, items, lineas, costo.
  rewrite Hr. rewrite Hsol at 1 2 3 4 5 6. cbn [sol_line_items sol_user_id sol_tienda_id
    sol_direccion_entrega sol_items_data].
  repeat split; eauto.
Qed.

(** The statuses of the quote; a 200 comes after a call to Stripe. *)
Lemma crear_sesion_checkout_status (req : Request) (db : DB) (resp : RespuestaSesion) :
  fst (crear_sesion_checkout env ext col req db) = inr resp ->
  (rs_status resp = 200 /\ is_Some (snd (crear_sesion_checkout env ext col req db))) \/
  rs_status resp = 400 \/ rs_status resp = 403 \/ rs_status resp = 404 \/
  rs_status resp = 500.
Proof.
  unfold crear_sesion_checkout.
  destruct (clientes db !! req_usuario req) as [cli|].
  2: { cbn. intros H. inversion H. cbn. auto. }
  destruct (negb _ || negb _).
  { cbn. intros H. inversion H. cbn. auto. }
  destruct (negb _).
  { cbn. intros H. inversion H. cbn. auto. }
  destruct (pk_de env (dict_get (req_data req) "tienda_id")) as [e|pk].
  { cbn. discriminate. }
  destruct (pk ≫= fun k : Z => (fun t : Tienda => (k, t)) <$> tiendas db !! k)
    as [[tienda tnd]|].
  2: { cbn. intros H. inversion H. cbn. auto. }
  destruct (cotizar env col db tienda _) as [f|[[s ls] costo]].
  { cbn [fst snd]. unfold respuesta_fallo. intros H. inversion H.
    repeat case_match; cbn [rs_status]; auto. }
  match goal with
  | |- context [stripe_create ext ?s] => destruct (stripe_create ext s)
  end; cbn [fst snd]; intros H; inversion H; cbn [rs_status]; eauto 6.
Qed.

(** X16: the responses of the quote, for a body that is a JSON object.
    An exception leaves the view only from the lookup of the store, when
    [tienda_id] is not a number ([ValueError] or [TypeError]); otherwise
    the status is 200, 400, 403, 404 or 500.  Stripe is not called by a quote answered with 400, 403
    or 404, nor by one that raises; a 200 carries the URL Stripe returned
    for the request that was sent; and a user without a customer profile
    gets 403 whatever the body holds. *)
Theorem crear_sesion_checkout_respuestas (req : Request) (db : DB) :
  let r := crear_sesion_checkout env ext col req db in
  match fst r with
  | inl e =>
      snd r = None /\
      pk_de env (dict_get (req_data req) "tienda_id") = inl e /\
      (e = ValueError \/ e = TypeError)
  | inr resp =>
      (rs_status resp = 200 \/ rs_status resp = 400 \/ rs_status resp = 403 \/
       rs_status resp = 404 \/ rs_status resp = 500) /\
      (rs_status resp = 200 ->
       exists sol url, snd r = Some sol /\ stripe_create ext sol = inr url /\
         rs_cuerpo resp = UrlSesion url) /\
      (rs_status resp = 400 \/ rs_status resp = 403 \/ rs_status resp = 404 ->
       snd r = None) /\
      (clientes db !! req_usuario req = None ->
       resp = mkRespuestaSesion 403 ErrNoEsCliente)
  end.
Proof.
  cbv zeta. unfold crear_sesion_checkout.
  destruct (clientes db !! req_usuario req) as [cli|] eqn:Ecli.
  2: { cbn. repeat split; auto; intros; try lia. }
  destruct (negb _ || negb _).
  { cbn. repeat split; auto; intros; try lia; try discriminate. }
  destruct (negb _).
  { cbn. repeat split; auto; intros; try lia; try discriminate. }
  destruct (pk_de env (dict_get (req_data req) "tienda_id")) as [e|pk] eqn:Epk.
  { cbn. split; [reflexivity|]. split; [reflexivity|].
    unfold pk_de in Epk. repeat case_match; simplify_eq; auto. }
  destruct (pk ≫= fun k : Z => (fun t : Tienda => (k, t)) <$> tiendas db !! k)
    as [[tienda tnd]|].
  2: { cbn. repeat split; auto; intros; try lia; try discriminate. }
  destruct (cotizar env col db tienda _) as [f|[[s ls] costo]].
  { cbn [fst snd]. unfold respuesta_fallo.
    repeat case_match; cbn [rs_status rs_cuerpo];
      repeat split; auto; intros; try lia; try discriminate. }
  match goal with
  | |- context [stripe_create ext ?s] => destruct (stripe_create ext s) eqn:Es
  end; cbn [fst snd rs_status rs_cuerpo].
  - repeat split; auto; intros; try lia; try discriminate.
  - repeat split; auto; intros; try lia; try discriminate.
    eexists _, _. split; [reflexivity|]. split; [exact Es|reflexivity].
Qed.

(** X17: one item that asks for more than the stock of its product stops
    the quote: nothing is sent to Stripe and the answer is not 200,
    wherever the item stands in the list. *)
Theorem crear_sesion_checkout_stock_insuficiente (req : Request) (db : DB)
    (items : list json) (item : json) (l : Linea) :
  py_iter (default (JList []) (dict_lookup (req_data req) "items")) = inr items ->
  item ∈ items ->
  leer_linea env (productos db) item = inr l ->
  prod_stock (lin_producto l) < lin_cantidad l ->
  snd (crear_sesion_checkout env ext col req db) = None /\
  forall resp, fst (crear_sesion_checkout env ext col req db) = inr resp ->
    rs_status resp = 400 \/ rs_status resp = 403 \/ rs_status resp = 404 \/
    rs_status resp = 500.
Proof.
  intros Hi Hin Hl Hlt.
  assert (Hn : snd (crear_sesion_checkout env ext col req db) = None).
  { destruct (snd (crear_sesion_checkout env ext col req db)) as [sol|] eqn:Es;
      [exfalso|reflexivity].
    destruct (crear_sesion_checkout_enviada req db sol Es)
      as (tienda & tnd & items' & lineas & costo
          & _ & _ & _ & _ & _ & _ & Hi' & HF & _).
    rewrite Hi in Hi'. inversion Hi'; subst items'.
    apply list_elem_of_lookup in Hin as [i Hin].
    destruct (Forall2_lookup_l _ _ _ _ _ HF Hin) as (l' & _ & (Hl' & Hq) & _).
    rewrite Hl in Hl'. inversion Hl'; subst. lia. }
  split; [exact Hn|]. intros resp Hr.
  destruct (crear_sesion_checkout_status req db resp Hr) as [[_ [sol Hs]]|H]; [|exact H].
  rewrite Hn in Hs. discriminate.
Qed.

End HechosCotizacion.


(** ** From the quote to the confirmation *)

(** *** Amounts in hundredths *)

Lemma quantize_centavos (n : Z) :
  0 <= n < 10 ^ 28 -> quantize (Dec n (-2)) (Dec 1 (-2)) = Some (Dec n (-2)).
Proof.
  intros Hn. unfold quantize, rescale. cbn [coef expo].
  assert (Hf : fix_ (Dec n (-2)) = Dec n (-2))
    by (apply fix_small; cbn [coef]; unfold prec; lia).
  destruct (Z.eqb_spec n 0) as [->|Hnz]; [reflexivity|].
  assert (Hd : ndigits n <= 28) by (apply ndigits_le_iff; lia).
  unfold prec.
  destruct (Z.ltb_spec 28 (-2 + ndigits n - 1 - -2 + 1)) as [?|_]; [lia|].
  change (-2 <=? -2) with true. cbv iota.
  change (-2 - -2) with 0. change (10 ^ 0) with 1. rewrite Z.mul_1_r. cbn [coef].
  destruct (Z.ltb_spec 28 (ndigits n)) as [?|_]; [lia|].
  rewrite Hf. reflexivity.
Qed.

(** The unit amount of a price with at most two decimals is the price in
    hundredths. *)
Lemma to_int_por_cien (c e : Z) :
  0 <= c < 10 ^ 26 -> -2 <= e ->
  to_int (mul (Dec c e) (of_int 100)) = c * 10 ^ (e + 2).
Proof.
  intros Hc He. unfold mul, mul_exact, of_int. cbn [coef expo].
  rewrite fix_small by (cbn [coef]; unfold prec; lia).
  unfold to_int. cbn [coef expo]. rewrite Z.add_0_r.
  destruct (Z.leb_spec 0 e) as [H0|H0].
  - rewrite pow10_split by lia. change (10 ^ 2) with 100. ring.
  - assert (e = -1 \/ e = -2) as [->| ->] by lia.
    + change (10 ^ (- -1)) with 10. change (10 ^ (-1 + 2)) with 10.
      replace (c * 100) with (c * 10 * 10) by ring. apply Z.quot_mul. lia.
    + change (10 ^ (- -2)) with 100. change (10 ^ (-2 + 2)) with 1.
      rewrite Z.quot_mul by lia. ring.
Qed.

Lemma amount_total_de_app (a b : list LineItem) :
  amount_total_de (a ++ b) = amount_total_de a + amount_total_de b.
Proof.
  unfold amount_total_de. induction a as [|x a IH]; cbn [app foldr]; lia.
Qed.

(** The sum of the lines, when the prices have at most two decimals and
    the 28 digits of the context are not exceeded: the subtotal is the
    amount of the line items, in hundredths. *)
Lemma fold_sumar_linea_centavos (lineas : list Linea) :
  (forall l, l ∈ lineas ->
     precio_en_centavos (prod_precio (lin_producto l)) /\ 0 <= lin_cantidad l) ->
  0 <= amount_total_de (map item_de lineas) /\
  forall s, 0 <= s -> s + amount_total_de (map item_de lineas) < 10 ^ 28 ->
    fold_left sumar_linea lineas (Dec s (-2)) =
    Dec (s + amount_total_de (map item_de lineas)) (-2).
Proof.
  induction lineas as [|l lineas IH]; intros H.
  - cbn. split; [lia|]. intros s _ _. rewrite Z.add_0_r. reflexivity.
  - destruct (H l ltac:(apply elem_of_cons; auto)) as [[Hc He] Hq].
    destruct IH as [IH0 IH].
    { intros l' Hl'. apply H. apply elem_of_cons. auto. }
    destruct (prod_precio (lin_producto l)) as [c e] eqn:Ep. cbn [coef expo] in Hc, He.
    assert (Hu : li_unit_amount (item_de l) = c * 10 ^ (e + 2)).
    { unfold item_de. cbn [li_unit_amount]. rewrite Ep.
      apply to_int_por_cien; [|exact He].
      assert (10 ^ 24 < 10 ^ 26) by (apply Z.pow_lt_mono_r; lia). lia. }
    pose proof (pow10_pos (e + 2) ltac:(lia)) as Hp.
    cbn [map]. unfold amount_total_de in *. cbn [foldr].
    rewrite Hu. change (li_quantity (item_de l)) with (lin_cantidad l).
    fold (amount_total_de (map item_de lineas)) in *.
    assert (Hterm : 0 <= c * lin_cantidad l <= c * 10 ^ (e + 2) * lin_cantidad l) by nia.
    split; [nia|]. intros s Hs Hb.
    cbn [fold_left]. unfold sumar_linea at 2. rewrite Ep.
    unfold mul, mul_exact, of_int. cbn [coef expo]. rewrite Z.add_0_r.
    rewrite fix_small by (cbn [coef]; unfold prec; rewrite Z.abs_eq by lia; lia).
    unfold add, add_exact, align. cbn [coef expo].
    rewrite Z.min_l by lia. change (-2 - -2) with 0. change (10 ^ 0) with 1.
    replace (e - -2) with (e + 2) by lia.
    rewrite fix_small
      by (cbn [coef]; unfold prec; rewrite Z.abs_eq by nia; nia).
    rewrite IH by nia. f_equal. ring.
Qed.

(** *** Signs *)

Lemma fix_nonneg (d : Decimal) : 0 <= coef d -> 0 <= coef (fix_ d).
Proof.
  intros Hd. unfold fix_.
  destruct (Z.leb_spec (ndigits (coef d)) prec) as [|Hgt]; [exact Hd|].
  assert (Hr : 0 <= div_half_even (coef d) (10 ^ (ndigits (coef d) - prec))).
  { unfold div_half_even.
    pose proof (round_half_even_nonneg (Z.abs (coef d))
                  (10 ^ (ndigits (coef d) - prec)) ltac:(lia)
                  ltac:(apply pow10_pos; lia)).
    pose proof (Z.sgn_nonneg (coef d)). nia. }
  destruct (_ <=? prec); cbn [coef]; [exact Hr|].
  apply Z.div_pos; lia.
Qed.

Lemma to_int_nonneg (d : Decimal) : 0 <= coef d -> 0 <= to_int d.
Proof.
  intros Hd. unfold to_int. destruct (Z.leb_spec 0 (expo d)).
  - pose proof (pow10_pos (expo d) ltac:(lia)). nia.
  - apply Z.quot_pos; [exact Hd|]. apply pow10_pos. lia.
Qed.

Section HechosIdaYVuelta.

Variable env : Entorno.
Variable ext : EntornoSesion.
Variable col : Columnas.

(** *** The confirmation, forwards *)

(** Lines that pass the stock check take the loop of the confirmation to
    its end. *)
Lemma procesar_items_run (car : Z) (db : DB) (items : list json)
    (lineas : list Linea) :
  Forall2 (linea_valida env (productos db)) items lineas ->
  forall s ds ps,
    procesar_items env car items (s, ds, ps) db =
      (inr (fold_left sumar_linea lineas s, ds ++ map (detalle_de car) lineas,
            ps ++ map objeto_de lineas), db).
Proof.
  induction 1 as [|item l items lineas Hl HF IH]; intros s ds ps.
  - cbn. rewrite !app_nil_r. reflexivity.
  - destruct Hl as (Hl & Hq). cbn [procesar_items]. unfold mbind, M_bind.
    unfold leer_linea in Hl. rewrite lift_run.
    destruct (item_get item "producto_id") as [?|v1]; [discriminate|].
    rewrite producto_get_run.
    destruct (pk_de env v1) as [?|pk]; [discriminate|].
    destruct (pk ≫= fun k : Z => (fun p : Producto => (k, p)) <$> productos db !! k)
      as [[k p]|]; [|discriminate].
    rewrite lift_run.
    destruct (item_get item "cantidad") as [?|v2]; [discriminate|].
    rewrite lift_run.
    destruct (py_int env v2) as [?|q]; [discriminate|].
    inversion Hl; subst l. cbn [lin_pid lin_producto lin_cantidad] in *.
    destruct (Z.ltb_spec (prod_stock p) q) as [?|_]; [lia|].
    rewrite IH. cbn [map fold_left]. rewrite <- !app_assoc. reflexivity.
Qed.

(** The first half of the transaction, forwards. *)
Lemma recalcular_run (ped : Pedido) (db : DB) (cid tid : Z) (cli : Cliente)
    (tnd : Tienda) (items : list json) (lineas : list Linea) (costo : Decimal) :
  pk_de env (JStr (ped_user_id ped)) = inr (Some cid) ->
  clientes db !! cid = Some cli ->
  pk_de env (JStr (ped_tienda_id ped)) = inr (Some tid) ->
  tiendas db !! tid = Some tnd ->
  (asociaciones tid cid db <= 1)%nat ->
  py_iter (ped_items_data ped) = inr items ->
  Forall2 (linea_valida env (productos db)) items lineas ->
  calcular_costo_envio (fold_left sumar_linea lineas (Dec 0 (-2))) = Some costo ->
  recalcular env ped db =
    (inr (mkRecalculo (cid, cli) (tid, tnd) (next_pk (carritos db))
            (map (detalle_de (next_pk (carritos db))) lineas)
            (map objeto_de lineas)
            (fold_left sumar_linea lineas (Dec 0 (-2)))
            (add (fold_left sumar_linea lineas (Dec 0 (-2))) costo)),
     set_carritos
       (insert (next_pk (carritos db)) (mkCarrito cid tid (ped_total_pagado ped)))
       (set_tienda_clientes (asociar tid cid) db)).
Proof.
  intros Hpc Hcli Hpt Htnd Hasoc Hi HF Hco.
  unfold recalcular, mbind, M_bind.
  rewrite cliente_get_run, Hpc. cbn [mbind option_bind]. rewrite Hcli.
  cbn [fmap option_fmap option_map].
  rewrite tienda_get_run, Hpt. cbn [mbind option_bind]. rewrite Htnd.
  cbn [fmap option_fmap option_map].
  rewrite tienda_cliente_get_or_create_run, Hpc.
  assert (Ea : exists x,
    match List.filter (es_asociacion tid cid) (tienda_clientes db) with
    | [] => (inr (mkTiendaCliente tid cid, true),
             set_tienda_clientes (fun l => l ++ [mkTiendaCliente tid cid]) db)
    | [tc] => (inr (tc, false), db)
    | _ => (inl (MultipleObjectsReturned "TiendaCliente"), db)
    end = (inr x, set_tienda_clientes (asociar tid cid) db)).
  { unfold asociaciones, asociar, set_tienda_clientes in *.
    destruct (List.filter (es_asociacion tid cid) (tienda_clientes db))
      as [|tc [|tc' l]]; cbn [length] in Hasoc; [| |lia].
    - eexists. reflexivity.
    - eexists. destruct db; reflexivity. }
  destruct Ea as [x Ea]. rewrite Ea.
  rewrite carrito_create_run. cbn [carritos set_tienda_clientes].
  rewrite lift_run, Hi.
  rewrite (procesar_items_run _ _ _ lineas) by exact HF.
  rewrite lift_dec_run. cbn [app]. rewrite Hco. reflexivity.
Qed.

(** The part of the view before the transaction, forwards. *)
Lemma preparar_run (req : Request) (session : Session) (u t d i s : string)
    (n : Z) (items : json) (total : Decimal) :
  truthy (dict_get (req_data req) "session_id") = true ->
  stripe_retrieve env (dict_get (req_data req) "session_id") = inr session ->
  ses_status session = "complete" ->
  ses_metadata session !! "user_id" = Some u -> u <> "" ->
  ses_metadata session !! "tienda_id" = Some t -> t <> "" ->
  ses_metadata session !! "direccion_entrega" = Some d -> d <> "" ->
  ses_metadata session !! "items_data" = Some i -> i <> "" ->
  ses_payment_intent session = Some s -> s <> "" ->
  ses_amount_total session = Some n ->
  div (of_int n) (of_int 100) = Some total ->
  json_loads env i = Some items ->
  preparar env req = inr (mkPedido u t d items s total).
Proof.
  intros Ht Hs Hc Hu Hu' Hti Hti' Hd Hd' Hi Hi' Hp Hp' Hn Hdiv Hj.
  unfold preparar. rewrite Ht, Hs, Hc. cbn [negb String.eqb].
  rewrite Hn, Hdiv, Hu, Hti, Hd, Hi, Hp. unfold presente.
  apply String.eqb_neq in Hu', Hti', Hd', Hi', Hp'.
  rewrite Hu', Hti', Hd', Hi', Hp'. cbn [negb andb]. rewrite Hj. reflexivity.
Qed.

Lemma sesion_completada_metadata (str : Z -> string) (sol : Solicitud)
    (d payment_intent : string) :
  let m := ses_metadata (sesion_completada str sol d payment_intent) in
  m !! "user_id" = Some (str (sol_user_id sol)) /\
  m !! "tienda_id" = Some (str (sol_tienda_id sol)) /\
  m !! "direccion_entrega" = Some d /\
  m !! "items_data" = Some (sol_items_data sol).
Proof.
  cbv zeta. unfold sesion_completada. cbn [ses_metadata].
  unfold list_to_map. cbn [foldr fst snd].
  repeat split;
    repeat (rewrite lookup_insert_ne by discriminate);
    apply lookup_insert_eq.
Qed.

(** *** The round trip *)

(** X18: a quote that Stripe accepted is confirmed, when nothing changed
    in between.  Take a quote answered with 200 on a database where every
    price has at most two decimals (and at most 24 digits), with no
    negative quantity among the line items and an amount below 10^24
    hundredths.  Let Stripe hand back, for the session id of the
    confirmation, the completed session of that request: the metadata of
    the request as strings, a payment intent, and as [amount_total] the
    sum of the line items.  If [json.loads] reads back what [json.dumps]
    wrote, the integers of the metadata are read back from their strings,
    and the store and the customer have at most one association, then the
    confirmation on the same database answers 200: the total it
    recomputes equals the amount charged, to the hundredth, and the new
    order belongs to the user who asked for the quote and has that
    amount as its total. *)
Theorem crear_y_verificar_sesion_checkout (req_c req_v : Request) (db : DB)
    (sol : Solicitud) (url d payment_intent : string) (str : Z -> string)
    (Hcrear : crear_sesion_checkout env ext col req_c db =
                (inr (mkRespuestaSesion 200 (UrlSesion url)), Some sol))
    (Hdir : sol_direccion_entrega sol = JStr d)
    (Hid : truthy (dict_get (req_data req_v) "session_id") = true)
    (Hses : stripe_retrieve env (dict_get (req_data req_v) "session_id") =
              inr (sesion_completada str sol d payment_intent))
    (Hpi : payment_intent <> "")
    (Huser : int_of_str env (str (sol_user_id sol)) = Some (sol_user_id sol))
    (Huser' : str (sol_user_id sol) <> "")
    (Htienda : int_of_str env (str (sol_tienda_id sol)) = Some (sol_tienda_id sol))
    (Htienda' : str (sol_tienda_id sol) <> "")
    (Hjson : json_loads env (sol_items_data sol) =
               Some (default (JList []) (dict_lookup (req_data req_c) "items")))
    (Hjson' : sol_items_data sol <> "")
    (Hasoc : (asociaciones (sol_tienda_id sol) (sol_user_id sol) db <= 1)%nat)
    (Hprecios : forall k p, productos db !! k = Some p ->
                  precio_en_centavos (prod_precio p))
    (Hcant : forall li, li ∈ sol_line_items sol -> 0 <= li_quantity li)
    (Hmonto : amount_total_de (sol_line_items sol) < 10 ^ 24) :
  let r := verificar_sesion_checkout env req_v db in
  fst r = mkResponse 200 PedidoCreado /\
  exists venta,
    ventas (snd r) !! next_pk (ventas db) = Some venta /\
    venta_cliente venta = req_usuario req_c /\
    venta_estado venta = "PROCESADA" /\
    eqb (venta_total venta) (Dec (amount_total_de (sol_line_items sol)) (-2)) = true.
Proof.
  cbv zeta.
  assert (Hsnd : snd (crear_sesion_checkout env ext col req_c db) = Some sol)
    by (rewrite Hcrear; reflexivity).
  destruct (crear_sesion_checkout_enviada env ext col req_c db sol Hsnd)
    as (tid & tnd & items & lineas & costo
        & [cli Hcli] & _ & _ & Htd & Hpk & Htnd & Hi & HF & Hco & Hsol & _).
  cbv zeta in *.
  assert (Euid : sol_user_id sol = req_usuario req_c) by (rewrite Hsol; reflexivity).
  assert (Etid : sol_tienda_id sol = tid) by (rewrite Hsol; reflexivity).
  assert (Eitems : sol_line_items sol =
            map item_de lineas ++
              (if ltb (of_int 0) costo then [item_envio costo] else []))
    by (rewrite Hsol; reflexivity).
  assert (Ed : d <> "").
  { rewrite Hsol in Hdir. cbn [sol_direccion_entrega] in Hdir.
    rewrite Hdir in Htd. cbn [truthy] in Htd.
    intros ->. discriminate. }
  clear Hsol.
  (* the lines, in hundredths *)
  assert (HFv : Forall2 (linea_valida env (productos db)) items lineas).
  { eapply Forall2_impl; [exact HF|]. intros item l [Hv _]. exact Hv. }
  assert (Hlineas : forall l, l ∈ lineas ->
            precio_en_centavos (prod_precio (lin_producto l)) /\ 0 <= lin_cantidad l).
  { intros l Hl. split.
    - destruct (Forall2_linea_valida_elem _ _ _ _ _ HFv Hl) as [Hk _].
      exact (Hprecios _ _ Hk).
    - apply (Hcant (item_de l)). rewrite Eitems. apply elem_of_app. left.
      apply list_elem_of_fmap. exists l. auto. }
  destruct (fold_sumar_linea_centavos lineas Hlineas) as [Hsub0 Hfold].
  assert (Hpot : 10 ^ 24 < 10 ^ 26 /\ 10 ^ 26 < 10 ^ 28)
    by (split; apply Z.pow_lt_mono_r; lia).
  rewrite Eitems, amount_total_de_app in Hmonto |- *.
  set (sub := amount_total_de (map item_de lineas)) in *.
  set (envio := amount_total_de
                  (if ltb (of_int 0) costo then [item_envio costo] else [])) in *.
  assert (Henvio0 : 0 <= envio).
  { unfold envio. destruct (ltb (of_int 0) costo) eqn:El; [|cbn; lia].
    unfold amount_total_de. cbn [foldr item_envio li_unit_amount li_quantity].
    destruct costo as [c e]. apply ltb_zero_pos in El.
    pose proof (to_int_nonneg (mul (Dec c e) (of_int 100))) as Hn.
    unfold mul in Hn. pose proof (fix_nonneg (mul_exact (Dec c e) (of_int 100))) as Hf.
    cbn [mul_exact coef of_int] in Hf. unfold mul. lia. }
  specialize (Hfold 0 ltac:(lia) ltac:(lia)). rewrite Z.add_0_l in Hfold.
  rewrite Hfold in Hco.
  destruct (calcular_costo_envio_cents (Dec sub (-2)))
    as (q & Hq & [Hnear _]).
  { cbn [coef]. exact Hsub0. }
  { cbn [coef]. apply ndigits_le_iff; lia. }
  rewrite Hco in Hq. inversion Hq; subst costo. clear Hq.
  pose proof (porcentaje_envio_range (Dec sub (-2))) as Hp.
  unfold cents_num, cents_den in Hnear. cbn [coef expo] in Hnear.
  change (10 ^ Z.max (-2) 0) with 1 in Hnear.
  change (10 ^ Z.max (- -2) 0) with 100 in Hnear.
  assert (Hq : 0 <= q <= sub + 1) by nia.
  assert (Eenvio : envio = q).
  { unfold envio. destruct (ltb (of_int 0) (Dec q (-2))) eqn:El.
    - unfold amount_total_de. cbn [foldr item_envio li_unit_amount li_quantity].
      rewrite to_int_por_cien by lia. change (10 ^ (-2 + 2)) with 1. lia.
    - assert (~ 0 < q)
        by (intros Hpos; pose proof (proj2 (ltb_zero_pos q (-2)) Hpos); congruence).
      cbn. lia. }
  rewrite Eenvio in *. clear Henvio0.
  (* the confirmation *)
  destruct (total_pagado_centavos (sub + q) ltac:(lia)) as (t & Hdiv & Hqt & Heq).
  destruct (sesion_completada_metadata str sol d payment_intent) as (M1 & M2 & M3 & M4).
  assert (Hprep : preparar env req_v =
            inr (mkPedido (str (sol_user_id sol)) (str (sol_tienda_id sol)) d
                   (default (JList []) (dict_lookup (req_data req_c) "items"))
                   payment_intent t)).
  { apply (preparar_run req_v (sesion_completada str sol d payment_intent)
             (str (sol_user_id sol)) (str (sol_tienda_id sol)) d (sol_items_data sol)
             payment_intent (sub + q) _ t Hid Hses); try assumption;
      try reflexivity.
    unfold sesion_completada. cbn [ses_amount_total].
    rewrite Eitems, amount_total_de_app. fold sub. fold envio. rewrite Eenvio.
    reflexivity. }
  rewrite verificar_sesion_checkout_run, Hprep.
  unfold materializar, mbind, M_bind.
  rewrite (recalcular_run _ db (sol_user_id sol) tid cli tnd items lineas (Dec q (-2))).
  2: { cbn [ped_user_id pk_de]. rewrite Huser. reflexivity. }
  2: { rewrite Euid. exact Hcli. }
  2: { cbn [ped_tienda_id pk_de]. rewrite Htienda, Etid. reflexivity. }
  2: { exact Htnd. }
  2: { rewrite <- Etid. exact Hasoc. }
  2: { exact Hi. }
  2: { exact HFv. }
  2: { rewrite Hfold. exact Hco. }
  cbn [rc_total_final_seguro ped_total_pagado]. rewrite Hfold.
  assert (Eadd : add (Dec sub (-2)) (Dec q (-2)) = Dec (sub + q) (-2)).
  { unfold add, add_exact, align. cbn [coef expo].
    change (Z.min (-2) (-2)) with (-2). change (-2 - -2) with 0.
    change (10 ^ 0) with 1. rewrite !Z.mul_1_r.
    apply fix_small. cbn [coef]. unfold prec. lia. }
  rewrite Eadd, lift_dec_run, (quantize_centavos (sub + q)) by lia.
  rewrite lift_dec_run, Hqt, eqb_same_expo, Z.eqb_refl. cbn [negb].
  match goal with
  | |- context [persistir ?p ?r ?dd] =>
      destruct (persistir_ok p r dd) as (db' & Hper & Hv & _)
  end.
  rewrite Hper. cbn [fst snd]. split; [reflexivity|].
  rewrite Hv. cbn [ventas set_carritos set_tienda_clientes].
  eexists. split; [apply lookup_insert_eq|].
  cbn [venta_cliente venta_estado venta_total rc_cliente rc_tienda fst
       ped_total_pagado].
  split; [exact Euid|]. split; [reflexivity|exact Heq].
Qed.

End HechosIdaYVuelta.


(** ** The history of a customer *)

Section HechosHistorial.

Variable env : Entorno.

(** The history holds the orders of the user, and only those. *)
Lemma get_queryset_lookup (user : option Z) (db : DB) (k : Z) (v : Venta) :
  get_queryset user db !! k = Some v <->
  exists u, user = Some u /\ is_Some (clientes db !! u) /\
    ventas db !! k = Some v /\ venta_cliente v = u.
Proof.
  unfold get_queryset. split.
  - destruct user as [u|]; [|rewrite lookup_empty; discriminate].
    destruct (clientes db !! u) as [c|] eqn:Ec; [|rewrite lookup_empty; discriminate].
    intros H. apply map_lookup_filter_Some in H as [H1 H2].
    exists u. rewrite Ec. eauto.
  - intros (u & -> & [c Hc] & Hk & Hv). rewrite Hc.
    apply map_lookup_filter_Some. split; [exact Hk|exact Hv].
Qed.

(** X19: a confirmation shows up in one history only.  When it does not
    commit, every history is as before.  When it commits, the new order
    is added to the history of the customer named in the metadata of the
    session, whoever sent the request, and the history of every other
    user, and of the anonymous user, is as before. *)
Theorem verificar_sesion_checkout_historial (req : Request) (db : DB) :
  let r := verificar_sesion_checkout env req db in
  (status (fst r) <> 200 ->
   forall user, get_queryset user (snd r) = get_queryset user db) /\
  (status (fst r) = 200 ->
   exists ped cid venta,
     preparar env req = inr ped /\
     pk_de env (JStr (ped_user_id ped)) = inr (Some cid) /\
     venta_cliente venta = cid /\
     get_queryset (Some cid) db !! next_pk (ventas db) = None /\
     get_queryset (Some cid) (snd r) =
       <[next_pk (ventas db) := venta]> (get_queryset (Some cid) db) /\
     forall user, user <> Some cid ->
       get_queryset user (snd r) = get_queryset user db).
Proof.
  cbv zeta. split.
  - intros Hs user.
    destruct (verificar_sesion_checkout_casos env req db) as (Hfail & _).
    rewrite (Hfail Hs). reflexivity.
  - intros Hs.
    destruct (verificar_sesion_checkout_exito env req db Hs)
      as (ped & cid & cli & tid & tnd & items & lineas & costo & H).
    cbv zeta in H.
    destruct H as (Hp & Hpk & Hcli & _ & _ & _ & _ & _ & Hv & _ & _ & _ & _ & _ & _
                   & Hcl & _).
    exists ped, cid,
      (mkVenta (ped_total_pagado ped) "PROCESADA" tid cid (next_pk (carritos db))).
    split; [exact Hp|]. split; [exact Hpk|].
    split; [|split; [|split]].
    + reflexivity.
    + destruct (get_queryset (Some cid) db !! next_pk (ventas db)) as [v|] eqn:E;
        [exfalso|reflexivity].
      apply get_queryset_lookup in E as (u & _ & _ & E & _).
      rewrite next_pk_fresh in E. discriminate.
    + unfold get_queryset. rewrite Hcl, Hv, lookup_alter_eq, Hcli.
      cbn [fmap option_fmap option_map].
      apply map_filter_insert_True. reflexivity.
    + intros [u|] Hne; [|reflexivity].
      assert (Hu : u <> cid) by congruence.
      unfold get_queryset. rewrite Hcl, Hv, lookup_alter_ne by congruence.
      destruct (clientes db !! u); [|reflexivity].
      apply map_filter_insert_not'.
      * cbn [snd venta_cliente]. congruence.
      * intros y Hy. rewrite next_pk_fresh in Hy. discriminate.
Qed.

End HechosHistorial.


(** ** The further facts on the example store *)

Section MasEjemplos.

Import Ejemplo.
Import EjemploSesion.

Lemma db0_stock_no_negativo : stock_no_negativo db0.
Proof.
  intros k p H. unfold db0 in H. cbn [productos] in H.
  apply lookup_singleton_Some in H as [_ <-]. cbn. lia.
Qed.

Lemma verificar_sesion_checkout_stock_no_negativo_witness :
  stock_no_negativo db0 /\
  stock_no_negativo (snd (verificar_sesion_checkout env0 (confirmar "cs_ok") db0)).
Proof.
  split; [exact db0_stock_no_negativo|].
  apply (verificar_sesion_checkout_stock_no_negativo env0 (confirmar "cs_ok") db0).
  exact db0_stock_no_negativo.
Defined.

Lemma verificar_sesion_checkout_stock_insuficiente_witness :
  status (fst (verificar_sesion_checkout env1 (confirmar "cs_mucho") db0)) = 500 /\
  snd (verificar_sesion_checkout env1 (confirmar "cs_mucho") db0) = db0.
Proof.
  eapply (verificar_sesion_checkout_stock_insuficiente env1 (confirmar "cs_mucho") db0
            _ [linea 3 9] (linea 3 9) (mkLinea 3 (mkProducto "Cuaderno" (Dec 5000 (-2)) 5) 9)).
  - vm_compute. reflexivity.
  - vm_compute. reflexivity.
  - apply list_elem_of_here.
  - vm_compute. reflexivity.
  - cbn. lia.
Defined.

Lemma verificar_sesion_checkout_stock_exacto_witness :
  exists ped items lineas,
    preparar env0 (confirmar "cs_ok") = inr ped /\
    py_iter (ped_items_data ped) = inr items /\
    Forall2 (linea_valida env0 (productos db0)) items lineas /\
    (NoDup (map lin_pid lineas) ->
     forall l, l ∈ lineas ->
       productos (snd (verificar_sesion_checkout env0 (confirmar "cs_ok") db0))
         !! lin_pid l =
       Some (con_stock (prod_stock (lin_producto l) - lin_cantidad l)
               (lin_producto l))).
Proof.
  apply (verificar_sesion_checkout_stock_exacto env0 (confirmar "cs_ok") db0).
  vm_compute. reflexivity.
Defined.

Lemma verificar_sesion_checkout_detalles_witness :
  status (fst (verificar_sesion_checkout env0 (confirmar "cs_ok") db0)) = 200 /\
  exists lineas,
    detalles_venta (snd (verificar_sesion_checkout env0 (confirmar "cs_ok") db0)) =
      detalles_venta db0 ++
      map (fun l => mkDetalle_Venta (next_pk (ventas db0)) (lin_pid l)
                      (lin_cantidad l) (prod_precio (lin_producto l))) lineas.
Proof.
  assert (Hs : status (fst (verificar_sesion_checkout env0 (confirmar "cs_ok") db0)) = 200)
    by (vm_compute; reflexivity).
  split; [exact Hs|].
  destruct (verificar_sesion_checkout_detalles env0 (confirmar "cs_ok") db0 Hs)
    as (ped & items & lineas & _ & _ & _ & _ & _ & Hdv).
  exists lineas. exact Hdv.
Defined.

Lemma verificar_sesion_checkout_repetida_witness :
  let r1 := verificar_sesion_checkout env0 (confirmar "cs_ok") db0 in
  let r2 := verificar_sesion_checkout env0 (confirmar "cs_ok") (snd r1) in
  status (fst r1) = 200 /\ status (fst r2) = 200 /\
  exists k1 k2 p1 p2,
    k1 <> k2 /\ pagos (snd r2) !! k1 = Some p1 /\ pagos (snd r2) !! k2 = Some p2 /\
    pago_venta p1 <> pago_venta p2 /\
    stripe_payment_intent_id p1 = stripe_payment_intent_id p2.
Proof.
  cbv zeta.
  assert (H1 : status (fst (verificar_sesion_checkout env0 (confirmar "cs_ok") db0)) = 200)
    by (vm_compute; reflexivity).
  assert (H2 : status (fst (verificar_sesion_checkout env0 (confirmar "cs_ok")
                              (snd (verificar_sesion_checkout env0 (confirmar "cs_ok") db0))))
               = 200)
    by (vm_compute; reflexivity).
  split; [exact H1|]. split; [exact H2|].
  destruct (verificar_sesion_checkout_repetida env0 (confirmar "cs_ok") db0 H1 H2)
    as (v1 & v2 & k1 & k2 & p1 & p2 & Hv & Hk & _ & _ & _ & _ & Hp1 & Hp2 & E1 & E2 & Ei).
  exists k1, k2, p1, p2. repeat split; try assumption. congruence.
Defined.

Lemma partial_update_sin_cambios_witness :
  snd (partial_update env0 (cambiar []) db1) = db1.
Proof.
  erewrite (partial_update_sin_cambios env0 (cambiar []) db1);
    [reflexivity|vm_compute; reflexivity..].
Defined.

Lemma partial_update_completo_witness :
  let req := cambiar [("estado", JStr "CANCELADA"); ("pago_estado", JStr "PENDIENTE");
                      ("envio_estado", JStr "ENVIADO")] in
  (exists venta,
     fst (partial_update env0 req db1) = inr (mkResponse 200 (VentaSerializada 1 venta))) /\
  venta_estado <$> ventas (snd (partial_update env0 req db1)) !! 1 = Some "CANCELADA" /\
  pago_estado <$> pagos (snd (partial_update env0 req db1)) !! 1 = Some "PENDIENTE" /\
  envio_estado <$> envios (snd (partial_update env0 req db1)) !! 1 = Some "ENVIADO".
Proof.
  cbv zeta.
  edestruct (partial_update_completo env0
               (cambiar [("estado", JStr "CANCELADA"); ("pago_estado", JStr "PENDIENTE");
                         ("envio_estado", JStr "ENVIADO")]) db1)
    as (Hr & Hv & Hp & He & _).
  - vm_compute. reflexivity.
  - vm_compute. reflexivity.
  - vm_compute. reflexivity.
  - vm_compute. reflexivity.
  - vm_compute. reflexivity.
  - vm_compute. reflexivity.
  - vm_compute. reflexivity.
  - vm_compute. reflexivity.
  - vm_compute. reflexivity.
  - vm_compute. reflexivity.
  - split; [eexists; exact Hr|].
    cbn [req_pk cambiar] in Hv. rewrite Hv, Hp, He. repeat split.
Defined.

Lemma partial_update_idempotent_witness :
  let req := cambiar [("estado", JStr "CANCELADA"); ("envio_estado", JStr "PERDIDO")] in
  fst (partial_update env0 req (snd (partial_update env0 req db1))) =
    fst (partial_update env0 req db1) /\
  ventas (snd (partial_update env0 req (snd (partial_update env0 req db1)))) =
    ventas (snd (partial_update env0 req db1)).
Proof.
  cbv zeta.
  edestruct (partial_update_idempotent env0
               (cambiar [("estado", JStr "CANCELADA"); ("envio_estado", JStr "PERDIDO")]) db1)
    as (Hr & Hv & _).
  - vm_compute. reflexivity.
  - vm_compute. reflexivity.
  - split; [exact Hr|exact Hv].
Defined.

Lemma calcular_costo_envio_tope_witness :
  exists q, calcular_costo_envio (Dec 99999 (-2)) = Some (Dec q (-2)) /\ 0 <= q <= 5000.
Proof.
  apply (calcular_costo_envio_tope (Dec 99999 (-2))).
  - cbn. lia.
  - vm_compute. discriminate.
Defined.

Lemma calcular_costo_envio_creciente_witness :
  exists q1 q2,
    calcular_costo_envio (Dec 1000 (-2)) = Some (Dec q1 (-2)) /\
    calcular_costo_envio (Dec 2000 (-2)) = Some (Dec q2 (-2)) /\ q1 <= q2.
Proof.
  apply (calcular_costo_envio_creciente (Dec 1000 (-2)) (Dec 2000 (-2))).
  - cbn. lia.
  - vm_compute. discriminate.
  - vm_compute. discriminate.
  - vm_compute. reflexivity.
  - vm_compute. reflexivity.
Defined.

Lemma verificar_sesion_checkout_centavos_witness :
  exists session n ped,
    stripe_retrieve env0 (dict_get (req_data (confirmar "cs_ok")) "session_id") =
      inr session /\
    ses_amount_total session = Some n /\
    preparar env0 (confirmar "cs_ok") = inr ped /\
    (0 <= n < 10 ^ 28 ->
     quantize (ped_total_pagado ped) (Dec 1 (-2)) = Some (Dec n (-2))).
Proof.
  destruct (verificar_sesion_checkout_centavos env0 (confirmar "cs_ok") db0)
    as (session & n & ped & items & lineas & costo & H1 & H2 & H3 & _ & _ & _ & H).
  - vm_compute. reflexivity.
  - exists session, n, ped. repeat (split; [assumption|]).
    intros Hn. apply (H Hn).
Defined.

Lemma crear_sesion_checkout_solicitud_witness :
  snd (crear_sesion_checkout env0 ext0 col0 (pedir 2) db0) = Some sol0 /\
  sol_user_id sol0 = 7 /\
  exists lineas costo,
    sol_line_items sol0 =
      map item_de lineas ++ (if ltb (of_int 0) costo then [item_envio costo] else []).
Proof.
  assert (H : snd (crear_sesion_checkout env0 ext0 col0 (pedir 2) db0) = Some sol0)
    by (vm_compute; reflexivity).
  split; [exact H|].
  destruct (crear_sesion_checkout_solicitud env0 ext0 col0 (pedir 2) db0 sol0 H)
    as (tienda & items & lineas & costo & _ & _ & _ & _ & _ & _ & Hl & Hu & _).
  split; [exact Hu|]. exists lineas, costo. exact Hl.
Defined.

Lemma crear_sesion_checkout_stock_insuficiente_witness :
  snd (crear_sesion_checkout env0 ext0 col0 (pedir 9) db0) = None.
Proof.
  eapply (crear_sesion_checkout_stock_insuficiente env0 ext0 col0 (pedir 9) db0
            [linea 3 9] (linea 3 9) (mkLinea 3 (mkProducto "Cuaderno" (Dec 5000 (-2)) 5) 9)).
  - vm_compute. reflexivity.
  - apply list_elem_of_here.
  - vm_compute. reflexivity.
  - cbn. lia.
Defined.

Lemma crear_y_verificar_sesion_checkout_witness :
  fst (crear_sesion_checkout env1 ext0 col0 (pedir 2) db0) =
    inr (mkRespuestaSesion 200 (UrlSesion "https://checkout.stripe.com/c/pay/cs_nuevo")) /\
  fst (verificar_sesion_checkout env1 (confirmar "cs_nuevo") db0) =
    mkResponse 200 PedidoCreado.
Proof.
  split; [vm_compute; reflexivity|].
  eapply (crear_y_verificar_sesion_checkout env1 ext0 col0 (pedir 2)
            (confirmar "cs_nuevo") db0 sol0
            "https://checkout.stripe.com/c/pay/cs_nuevo" "Av. Busch 12" "pi_9" str0).
  - vm_compute. reflexivity.
  - vm_compute. reflexivity.
  - vm_compute. reflexivity.
  - vm_compute. reflexivity.
  - discriminate.
  - vm_compute. reflexivity.
  - vm_compute. discriminate.
  - vm_compute. reflexivity.
  - vm_compute. discriminate.
  - vm_compute. reflexivity.
  - vm_compute. discriminate.
  - vm_compute. lia.
  - intros k p H. unfold db0 in H. cbn [productos] in H.
    apply lookup_singleton_Some in H as [_ <-].
    unfold precio_en_centavos. cbn [prod_precio coef expo].
    split; [split; [lia|reflexivity]|lia].
  - intros li Hin.
    assert (E : sol_line_items sol0 =
                [mkLineItem "Cuaderno" 5000 2; mkLineItem "Costo de Envío" 1000 1])
      by (vm_compute; reflexivity).
    rewrite E in Hin.
    apply elem_of_cons in Hin as [->|Hin]; [cbn; lia|].
    apply elem_of_cons in Hin as [->|Hin]; [cbn; lia|].
    inversion Hin.
  - vm_compute. reflexivity.
Defined.

Lemma verificar_sesion_checkout_primera_linea_witness :
  exists lineas,
    map (fun d => (dv_producto d, dv_cantidad d))
      (drop (length (detalles_venta db0))
         (detalles_venta (snd (verificar_sesion_checkout env0 (confirmar "cs_doble") db0)))) =
      map (fun l => (lin_pid l, lin_cantidad l)) lineas /\
    forall k p, productos db0 !! k = Some p ->
      productos (snd (verificar_sesion_checkout env0 (confirmar "cs_doble") db0)) !! k =
      Some (con_stock
              (prod_stock p - default 0 (lin_cantidad <$> primera_linea k lineas)) p).
Proof.
  destruct (verificar_sesion_checkout_primera_linea env0 (confirmar "cs_doble") db0)
    as (ped & items & lineas & _ & _ & _ & H1 & H2).
  - vm_compute. reflexivity.
  - exists lineas. split; [exact H1|exact H2].
Defined.

End MasEjemplos.
